(** * FringePlatformScrapers: a shallow embedding of the scrapers' pure core

    The development follows the three crawler scripts of the repository:

      - [gab_scraper_14.py]              (modules [Gab14], [Explore],
                                          [Gab14Replies]),
      - [gab/gab_past_post_rescraper.py] (module [Rescraper]),
      - [4chan/updated_4_chan_scraper.py] (module [FourChan]),

    the helpers the two Gab scripts share word for word
    ([any_of_conditions] in [Resolver], [extract_count_from_string] in
    [Normalizer], the patterns applied to URLs and markup in [Markup]),
    their scrolling loops ([Scroll]), and the two scripts that add the
    text read from the images to a dataset:

      - [gab/gab_ocr_extractor.py]       (module [GabOcr]),
      - [4chan/ocr_extractor.py]         (module [FourChanOcr]).

    Python values are modelled as the code has them:

      - [str] as [string], for text made of the characters below U+0100:
        each character of the string is the code point of that number
        (the second half holds two more white space characters, NEL and
        the no-break space, letters and numerals that [str.isalnum] and
        [\w] accept, and no decimal digit);
      - [float] as an IEEE-754 binary64 number ([spec_float] at precision
        53, exponent bound 1024), [int] as [Z];
      - a raised exception as the [Raise] case of [Py.result], with
        [try]/[except] written out;
      - a regular expression as a term of [Re.regex], matched the way a
        backtracking matcher does, alternatives and greedy runs in order;
      - [set] as [gset];
      - the browser as a record of the answers it gives to the queries a
        function issues, each a value or a raised exception; the clock as
        a field of that record;
      - a run of a [main] as the outcome of its loop over the visits,
        with the blocks that write a file it enters, the records each is
        given and how each ends;
      - [print] as a step that returns: the standard output takes every
        message. *)

From Stdlib Require Import ZArith List String Ascii Bool Lia.
From Stdlib Require Import Floats.SpecFloat.
From stdpp Require Import gmap strings list.
Import ListNotations.

Local Open Scope string_scope.
Local Open Scope Z_scope.

(** ** Python results: a value or a raised exception *)

Module Py.

Inductive exn :=
| ValueError | AttributeError | OverflowError
| TimeoutException | NoSuchElementException
| StaleElementReferenceException | WebDriverException
| KeyboardInterrupt | OtherException.

(** [issubclass(e, Exception)]: of the exceptions above only
    [KeyboardInterrupt] derives from [BaseException] directly. *)
Definition is_Exception (e : exn) : bool :=
  match e with KeyboardInterrupt => false | _ => true end.

Definition exn_eqb (a b : exn) : bool :=
  match a, b with
  | ValueError, ValueError | AttributeError, AttributeError
  | OverflowError, OverflowError | TimeoutException, TimeoutException
  | NoSuchElementException, NoSuchElementException
  | StaleElementReferenceException, StaleElementReferenceException
  | WebDriverException, WebDriverException
  | KeyboardInterrupt, KeyboardInterrupt
  | OtherException, OtherException => true
  | _, _ => false
  end.

Inductive result (A : Type) :=
| Ret (a : A)
| Raise (e : exn).
Arguments Ret {A} a.
Arguments Raise {A} e.

Definition bind {A B} (m : result A) (k : A -> result B) : result B :=
  match m with
  | Ret a => k a
  | Raise e => Raise e
  end.

(** [try: m  except (e1, ..., en): handler] *)
Definition try_except {A} (m : result A) (caught : list exn)
           (handler : result A) : result A :=
  match m with
  | Ret a => Ret a
  | Raise e => if existsb (exn_eqb e) caught then handler else Raise e
  end.

End Py.

Notation "'let*' x ':=' m 'in' k" := (Py.bind m (fun x => k))
  (at level 10, x name, m at level 100, k at level 200).

(** ** Strings: the [str] methods the scripts call, on text below U+0100 *)

Module Str.

Definition code (c : ascii) : nat := nat_of_ascii c.

Definition in_range (lo hi : nat) (c : ascii) : bool :=
  (Nat.leb lo (code c) && Nat.leb (code c) hi)%bool.

Definition is_char (a c : ascii) : bool := Ascii.eqb a c.

(** [\d]: below U+0100 the decimal digits are 0 to 9 *)
Definition is_digit : ascii -> bool := in_range 48 57.

(** [\s], [str.isspace], and what [str.strip()] removes:
    TAB LF VT FF CR, FS GS RS US, the space, NEL (U+0085) and the
    no-break space (U+00A0). *)
Definition is_space (c : ascii) : bool :=
  (in_range 9 13 c || in_range 28 31 c || is_char " " c
   || in_range 133 133 c || in_range 160 160 c)%bool.

(** [[A-Z]], [[a-z]] and [[a-zA-Z]] *)
Definition is_upper : ascii -> bool := in_range 65 90.
Definition is_lower : ascii -> bool := in_range 97 122.
Definition is_alpha (c : ascii) : bool := (is_upper c || is_lower c)%bool.

(** [str.isalnum] on one character, and [\w] but for the underscore:
    the ASCII letters and digits, and from U+0080 on the ordinal
    indicators, the micro sign, the superscripts one to three, the three
    fractions and the accented letters (all of U+00C0..U+00FF but the
    multiplication and the division sign) *)
Definition is_alnum (c : ascii) : bool :=
  (is_alpha c || is_digit c
   || in_range 170 170 c || in_range 178 179 c || in_range 181 181 c
   || in_range 185 186 c || in_range 188 190 c
   || in_range 192 214 c || in_range 216 246 c || in_range 248 255 c)%bool.

(** [c.upper()] and [c.lower()] as far as the callers look: they search
    the upper case for the letters K, M, B and T, which no character from
    U+0080 on gives, and lower only ASCII text; such a character stays as
    it is here *)
Definition upper_char (c : ascii) : ascii :=
  if is_lower c then ascii_of_nat (code c - 32) else c.
Definition lower_char (c : ascii) : ascii :=
  if is_upper c then ascii_of_nat (code c + 32) else c.

Fixpoint map (f : ascii -> ascii) (s : string) : string :=
  match s with
  | EmptyString => EmptyString
  | String c s' => String (f c) (map f s')
  end.

(** [s.upper()] *)
Definition upper : string -> string := map upper_char.

(** [c in s] for a one-character [c] *)
Fixpoint contains (a : ascii) (s : string) : bool :=
  match s with
  | EmptyString => false
  | String c s' => (is_char a c || contains a s')%bool
  end.

(** [s.replace(c, '')] for a one-character [c] *)
Fixpoint remove (a : ascii) (s : string) : string :=
  match s with
  | EmptyString => EmptyString
  | String c s' => if is_char a c then remove a s' else String c (remove a s')
  end.

Fixpoint lstrip (s : string) : string :=
  match s with
  | String c s' => if is_space c then lstrip s' else s
  | EmptyString => EmptyString
  end.

Fixpoint rstrip (s : string) : string :=
  match s with
  | EmptyString => EmptyString
  | String c s' =>
      match rstrip s' with
      | EmptyString => if is_space c then EmptyString else String c EmptyString
      | t => String c t
      end
  end.

(** [s.strip()] *)
Definition strip (s : string) : string := rstrip (lstrip s).

(** the first [n] characters *)
Fixpoint take (n : nat) (s : string) : string :=
  match n, s with
  | S n', String c s' => String c (take n' s')
  | _, _ => EmptyString
  end.

(** [whole] minus its suffix [rest] *)
Definition consumed (whole rest : string) : string :=
  take (String.length whole - String.length rest) whole.

Fixpoint starts_with (p s : string) : bool :=
  match p, s with
  | EmptyString, _ => true
  | String a p', String c s' => (is_char a c && starts_with p' s')%bool
  | String _ _, EmptyString => false
  end.

Fixpoint drop (n : nat) (s : string) : string :=
  match n, s with
  | S n', String _ s' => drop n' s'
  | _, _ => s
  end.

(** [s.split(sep)] for a non-empty separator: always at least one piece *)
Fixpoint split_aux (sep : string) (fuel : nat) (cur : string) (s : string)
  : list string :=
  match fuel with
  | O => [String.append cur s]
  | S fuel' =>
      match s with
      | EmptyString => [cur]
      | String c s' =>
          if starts_with sep s
          then cur :: split_aux sep fuel' EmptyString
                        (drop (String.length sep) s)
          else split_aux sep fuel' (String.append cur (String c EmptyString)) s'
      end
  end.

Definition split (sep s : string) : list string :=
  split_aux sep (String.length s) EmptyString s.

(** [l[-1]] and [l[0]] on the never-empty result of [split] *)
Definition last_piece (l : list string) : string := List.last l EmptyString.
Definition first_piece (l : list string) : string := List.hd EmptyString l.

(** [s.replace(old, new)] for a non-empty [old] *)
Fixpoint replace_aux (old new : string) (fuel : nat) (s : string) : string :=
  match fuel with
  | O => s
  | S fuel' =>
      match s with
      | EmptyString => EmptyString
      | String c s' =>
          if starts_with old s
          then String.append new
                 (replace_aux old new fuel' (drop (String.length old) s))
          else String c (replace_aux old new fuel' s')
      end
  end.

Definition replace (old new s : string) : string :=
  replace_aux old new (String.length s) s.

(** [s.rstrip(c)] for a one-character [c] *)
Fixpoint rstrip_char (a : ascii) (s : string) : string :=
  match s with
  | EmptyString => EmptyString
  | String c s' =>
      match rstrip_char a s' with
      | EmptyString => if is_char a c then EmptyString else String c EmptyString
      | t => String c t
      end
  end.

Fixpoint ends_with_aux (n : nat) (p s : string) : bool :=
  match n with
  | O => String.eqb p s
  | S n' => match s with
            | String _ s' => ends_with_aux n' p s'
            | EmptyString => false
            end
  end.

(** [s.endswith(p)] *)
Definition ends_with (p s : string) : bool :=
  ends_with_aux (String.length s - String.length p) p s.

#[global] Arguments is_char : simpl never.
#[global] Arguments is_space : simpl never.
#[global] Arguments is_digit : simpl never.
#[global] Arguments in_range : simpl never.

End Str.

(** ** More of [str]: tests on every character, substrings, joins *)

Module Text.

(** [any(p(c) for c in s)] *)
Fixpoint any_char (p : ascii -> bool) (s : string) : bool :=
  match s with
  | EmptyString => false
  | String c s' => (p c || any_char p s')%bool
  end.

(** [all(p(c) for c in s)] *)
Fixpoint all_chars (p : ascii -> bool) (s : string) : bool :=
  match s with
  | EmptyString => true
  | String c s' => (p c && all_chars p s')%bool
  end.

(** [w in s] *)
Fixpoint occurs (w s : string) : bool :=
  (Str.starts_with w s
   || match s with
      | String _ s' => occurs w s'
      | EmptyString => false
      end)%bool.

(** [''.join(c for c in s if p(c))] *)
Fixpoint filter (p : ascii -> bool) (s : string) : string :=
  match s with
  | EmptyString => EmptyString
  | String c s' => if p c then String c (filter p s') else filter p s'
  end.

(** [s.isalnum()]: not empty, letters and numerals only *)
Definition isalnum (s : string) : bool :=
  (negb (String.eqb s "") && all_chars Str.is_alnum s)%bool.


(** [list(s)]: the one-character strings of [s] *)
Fixpoint chars (s : string) : list string :=
  match s with
  | EmptyString => []
  | String c s' => String c EmptyString :: chars s'
  end.

End Text.

(** ** Regular expressions: the fragment of Python's [re] the scripts use

    [run r s] lists, in the order a backtracking matcher tries them, the
    ways [r] can match a prefix of [s]: each entry carries the groups
    captured and the unread rest of [s].  The head of the list is the match
    Python reports. *)

Module Re.

Definition captures := list (nat * string).

Inductive regex :=
| Eps
| Cls (p : ascii -> bool)        (* one character of a class *)
| Cat (r1 r2 : regex)
| Alt (r1 r2 : regex)            (* r1|r2, left alternative first *)
| Many (p : ascii -> bool)       (* greedy [class]* *)
| Opt (r : regex)                (* greedy r? *)
| Grp (n : nat) (r : regex).     (* capturing group number n *)

(** rests of [s] after a greedy run of [p], longest run first *)
Fixpoint tails (p : ascii -> bool) (s : string) : list string :=
  match s with
  | String c s' => if p c then (tails p s' ++ [s])%list else [s]
  | EmptyString => [s]
  end.

(** the rest of [s] after the longest run of [p]: the head of [tails p s] *)
Fixpoint skip (p : ascii -> bool) (s : string) : string :=
  match s with
  | String c s' => if p c then skip p s' else s
  | EmptyString => EmptyString
  end.

Fixpoint run (r : regex) (s : string) : list (captures * string) :=
  match r with
  | Eps => [([], s)]
  | Cls p =>
      match s with
      | String c s' => if p c then [([], s')] else []
      | EmptyString => []
      end
  | Cat r1 r2 =>
      flat_map (fun cs1 =>
                  List.map (fun cs2 => ((fst cs1 ++ fst cs2)%list, snd cs2))
                           (run r2 (snd cs1)))
               (run r1 s)
  | Alt r1 r2 => (run r1 s ++ run r2 s)%list
  | Many p => List.map (fun s' => ([], s')) (tails p s)
  | Opt r1 => (run r1 s ++ [([], s)])%list
  | Grp n r1 =>
      List.map (fun cs => ((n, Str.consumed s (snd cs)) :: fst cs, snd cs))
               (run r1 s)
  end.

Definition Many1 (p : ascii -> bool) : regex := Cat (Cls p) (Many p).

(** a literal string; [lit_i] is the same under [re.IGNORECASE] *)
Fixpoint lit (w : string) : regex :=
  match w with
  | EmptyString => Eps
  | String a w' => Cat (Cls (Str.is_char a)) (lit w')
  end.

Fixpoint lit_i (w : string) : regex :=
  match w with
  | EmptyString => Eps
  | String a w' =>
      Cat (Cls (fun c => Str.is_char (Str.lower_char a) (Str.lower_char c)))
          (lit_i w')
  end.

(** a match object: where it starts, what it captured, what follows *)
Record match_obj := {
  m_from : string;        (* the subject from the start of the match on *)
  m_groups : captures;
  m_rest : string         (* the subject after the match *)
}.

(** [match.group(n)]; [None] when the group took no part in the match *)
Fixpoint assoc (n : nat) (c : captures) : option string :=
  match c with
  | [] => None
  | (k, v) :: c' => if Nat.eqb n k then Some v else assoc n c'
  end.
Definition group (n : nat) (m : match_obj) : option string :=
  assoc n (m_groups m).

(** [pattern.match(s)] *)
Definition match_at (r : regex) (s : string) : option match_obj :=
  match run r s with
  | [] => None
  | (c, rest) :: _ => Some {| m_from := s; m_groups := c; m_rest := rest |}
  end.

(** [re.search(pattern, s)] *)
Fixpoint search (r : regex) (s : string) : option match_obj :=
  match match_at r s with
  | Some m => Some m
  | None =>
      match s with
      | String _ s' => search r s'
      | EmptyString => None
      end
  end.

(** [pattern.finditer(s)]: successive non-overlapping matches *)
Fixpoint finditer_aux (r : regex) (fuel : nat) (s : string) : list match_obj :=
  match fuel with
  | O => []
  | S fuel' =>
      match search r s with
      | None => []
      | Some m =>
          m :: (if Nat.ltb (String.length (m_rest m)) (String.length (m_from m))
                then finditer_aux r fuel' (m_rest m)
                else match m_from m with
                     | String _ s' => finditer_aux r fuel' s'
                     | EmptyString => []
                     end)
      end
  end.

Definition finditer (r : regex) (s : string) : list match_obj :=
  finditer_aux r (S (String.length s)) s.

(** [re.sub(pattern, '', s)] for a pattern that matches no empty string *)
Fixpoint sub_empty_aux (r : regex) (fuel : nat) (s : string) : string :=
  match fuel with
  | O => s
  | S fuel' =>
      match s with
      | EmptyString => EmptyString
      | String c s' =>
          match match_at r s with
          | Some m =>
              if Nat.ltb (String.length (m_rest m)) (String.length s)
              then sub_empty_aux r fuel' (m_rest m)
              else String c (sub_empty_aux r fuel' s')
          | None => String c (sub_empty_aux r fuel' s')
          end
      end
  end.

Definition sub_empty (r : regex) (s : string) : string :=
  sub_empty_aux r (String.length s) s.

End Re.

(** ** Python [float]: IEEE-754 binary64 *)

Module PyFloat.

Definition prec : Z := 53.
Definition emax : Z := 1024.

Definition float := spec_float.

(** [float(n)] for an [int] *)
Definition of_int (n : Z) : float := binary_normalize prec emax n 0 false.

(** the binary64 number nearest to [n / 10^k] (ties to even), for
    [0 <= n]: the correctly rounded quotient of the two integers *)
Definition of_decimal (n : Z) (k : nat) : float :=
  match n with
  | Zpos m =>
      SFdiv prec emax (S754_finite false m 0)
            (S754_finite false (Z.to_pos (10 ^ Z.of_nat k)) 0)
  | _ => S754_zero false
  end.

(** [x * n] for a float [x] and an int [n] *)
Definition mul_int (x : float) (n : Z) : float :=
  SFmul prec emax x (of_int n).

(** [int(x)]: truncation toward zero; infinities and NaN raise *)
Definition to_int (x : float) : Py.result Z :=
  match x with
  | S754_zero _ => Py.Ret 0
  | S754_finite s m e =>
      let a := Z.shiftl (Zpos m) e in
      Py.Ret (if s then - a else a)
  | S754_infinity _ => Py.Raise Py.OverflowError
  | S754_nan => Py.Raise Py.ValueError
  end.

(** the white space [float()] and [int()] skip at both ends of a [str]:
    TAB LF VT FF CR and the space, and NEL and the no-break space, which
    they first turn into spaces; FS GS RS US are not skipped *)
Definition is_blank (c : ascii) : bool :=
  (Str.in_range 9 13 c || Str.is_char " " c
   || Str.in_range 133 133 c || Str.in_range 160 160 c)%bool.

Fixpoint skip_blanks (s : string) : string :=
  match s with
  | String c s' => if is_blank c then skip_blanks s' else s
  | EmptyString => EmptyString
  end.

Fixpoint drop_blanks (s : string) : string :=
  match s with
  | EmptyString => EmptyString
  | String c s' =>
      match drop_blanks s' with
      | EmptyString => if is_blank c then EmptyString else String c EmptyString
      | t => String c t
      end
  end.

Definition trim (s : string) : string := drop_blanks (skip_blanks s).

(** Reading an unsigned decimal numeral: digits, an optional point, digits. *)
Definition digit_val (c : ascii) : Z := Z.of_nat (Str.code c) - 48.

Fixpoint read_digits (s : string) (acc : Z) (cnt : nat) : Z * nat * string :=
  match s with
  | String c s' =>
      if Str.is_digit c then read_digits s' (10 * acc + digit_val c) (S cnt)
      else (acc, cnt, s)
  | EmptyString => (acc, cnt, s)
  end.

(** [float(s)] for a [str].  The strings this program passes to [float]
    are made of digits, points, white space and the letters [k], [m], [b]
    (see [extract_count_from_string]); on that alphabet the numeral
    syntax of [float] is: blanks, digits with at most one point and
    at least one digit, blanks.  Signs, exponents, underscores,
    [inf] and [nan] cannot occur there and are not read here. *)
Definition of_string (s : string) : Py.result float :=
  let t := trim s in
  let '(ip, ni, r1) := read_digits t 0 0 in
  match r1 with
  | EmptyString =>
      if Nat.eqb ni 0 then Py.Raise Py.ValueError
      else Py.Ret (of_decimal ip 0)
  | String c r2 =>
      if Str.is_char "." c then
        let '(v, nf, r3) := read_digits r2 ip 0 in
        match r3 with
        | EmptyString =>
            if Nat.eqb (ni + nf) 0 then Py.Raise Py.ValueError
            else Py.Ret (of_decimal v nf)
        | String _ _ => Py.Raise Py.ValueError
        end
      else Py.Raise Py.ValueError
  end.

End PyFloat.

(** ** Field normalizer: [extract_count_from_string]

    The function is the same, character for character, in
    [gab_scraper_14.py] and [gab/gab_past_post_rescraper.py]. *)

Module Normalizer.

(** [r'(\d[\d,.]*\s*[KMBTkmb]?)'] *)
Definition is_num_char (c : ascii) : bool :=
  (Str.is_digit c || Str.is_char "," c || Str.is_char "." c)%bool.

Definition is_suffix_char (c : ascii) : bool :=
  (Str.is_char "K" c || Str.is_char "M" c || Str.is_char "B" c
   || Str.is_char "T" c || Str.is_char "k" c || Str.is_char "m" c
   || Str.is_char "b" c)%bool.

Definition count_pattern : Re.regex :=
  Re.Grp 1 (Re.Cat (Re.Cls Str.is_digit)
           (Re.Cat (Re.Many is_num_char)
           (Re.Cat (Re.Many Str.is_space)
                   (Re.Opt (Re.Cls is_suffix_char))))).

(** [int(float(num_str.replace(L, '')) * factor)] *)
Definition scaled (num_str : string) (L : ascii) (factor : Z) : Py.result Z :=
  let* x := PyFloat.of_string (Str.remove L num_str) in
  PyFloat.to_int (PyFloat.mul_int x factor).

(** the body of the [try] block; [None] stands for falling out of it *)
Definition count_try (text_to_parse : string) : Py.result (option Z) :=
  match Re.search count_pattern text_to_parse with
  | Some m =>
      let* g := match Re.group 1 m with
                | Some g => Py.Ret g
                | None => Py.Raise Py.AttributeError
                end in
      let num_str := Str.strip (Str.remove "," g) in
      let up := Str.upper num_str in
      if Str.contains "K" up then
        let* n := scaled num_str "K" 1000 in Py.Ret (Some n)
      else if Str.contains "M" up then
        let* n := scaled num_str "M" 1000000 in Py.Ret (Some n)
      else if Str.contains "B" up then
        let* n := scaled num_str "B" 1000000000 in Py.Ret (Some n)
      else if Str.contains "T" up then
        let* n := scaled num_str "T" 1000000000000 in Py.Ret (Some n)
      else
        let* x := PyFloat.of_string num_str in
        let* n := PyFloat.to_int x in Py.Ret (Some n)
  | None => Py.Ret None
  end.

(** [text_to_parse] is [None] or a [str] *)
Definition extract_count_from_string (text_to_parse : option string)
  : Py.result Z :=
  match text_to_parse with
  | None | Some EmptyString => Py.Ret 0
  | Some s =>
      let* r := Py.try_except (count_try s)
                  [Py.ValueError; Py.AttributeError] (Py.Ret None) in
      match r with
      | Some n => Py.Ret n
      | None => Py.Ret 0
      end
  end.

End Normalizer.

(** ** Fallback selector resolver: [any_of_conditions]

    A condition is a callable on the driver (or on an element used as the
    search scope): it returns a value or raises.  [__call__] is modelled
    together with the log of the conditions it invoked, by position. *)

Module Resolver.

Section AnyOf.

Variable driver : Type.
Variable value : Type.
Variable truthy : value -> bool.

Definition condition := driver -> Py.result value.

(** the loop of [__call__], at position [i] of [self.conditions];
    [None] is the final [return False] *)
Fixpoint call_from (i : nat) (conditions : list condition) (d : driver)
  : list nat * Py.result (option value) :=
  match conditions with
  | [] => ([], Py.Ret None)
  | c :: rest =>
      match c d with
      | Py.Ret v =>
          if truthy v then ([i], Py.Ret (Some v))
          else let '(log, r) := call_from (S i) rest d in (i :: log, r)
      | Py.Raise e =>
          if Py.is_Exception e
          then let '(log, r) := call_from (S i) rest d in (i :: log, r)
          else ([i], Py.Raise e)
      end
  end.

Definition any_of_conditions (conditions : list condition) (d : driver)
  : list nat * Py.result (option value) :=
  call_from 0 conditions d.

(** a strategy matches when it returns a truthy result *)
Definition matches_with (c : condition) (d : driver) (v : value) : Prop :=
  c d = Py.Ret v /\ truthy v = true.

(** a strategy fails when it returns a falsy result or raises an
    [Exception] *)
Definition fails (c : condition) (d : driver) : Prop :=
  (exists v, c d = Py.Ret v /\ truthy v = false)
  \/ (exists e, c d = Py.Raise e /\ Py.is_Exception e = true).

End AnyOf.

End Resolver.

(** ** Dates and times: the part of Python's [datetime] the scripts use *)

Module DateTime.

(** an aware or naive [datetime]; [utcoffset] is in microseconds *)
Record datetime := mk_datetime {
  year : Z; month : Z; day : Z;
  hour : Z; minute : Z; second : Z; microsecond : Z;
  utcoffset : option Z
}.

Definition is_leap (y : Z) : bool :=
  ((y mod 4 =? 0) && (negb (y mod 100 =? 0) || (y mod 400 =? 0)))%bool.

Definition days_in_month (y m : Z) : Z :=
  match m with
  | 1 | 3 | 5 | 7 | 8 | 10 | 12 => 31
  | 4 | 6 | 9 | 11 => 30
  | 2 => if is_leap y then 29 else 28
  | _ => 0
  end.

Definition days_before_month (y m : Z) : Z :=
  match m with
  | 1 => 0 | 2 => 31 | 3 => 59 | 4 => 90 | 5 => 120 | 6 => 151
  | 7 => 181 | 8 => 212 | 9 => 243 | 10 => 273 | 11 => 304 | 12 => 334
  | _ => 0
  end + (if ((2 <? m) && is_leap y)%bool then 1 else 0).

Definition days_before_year (y : Z) : Z :=
  let p := y - 1 in p * 365 + p / 4 - p / 100 + p / 400.

(** [date(y, m, d).toordinal()] *)
Definition ymd2ord (y m d : Z) : Z :=
  days_before_year y + days_before_month y m + d.

Definition between (lo x hi : Z) : bool := ((lo <=? x) && (x <=? hi))%bool.

Definition day_us : Z := 86400 * 1000000.

(** the range checks of the [datetime] and [timezone] constructors *)
Definition fields_ok (y m d h mi s us : Z) : bool :=
  (between 1 y 9999 && between 1 m 12 && between 1 d (days_in_month y m)
   && between 0 h 23 && between 0 mi 59 && between 0 s 59
   && between 0 us 999999)%bool.

Definition offset_ok (off : Z) : bool :=
  ((- day_us <? off) && (off <? day_us))%bool.

Definition make (y m d h mi s us : Z) (off : option Z) : Py.result datetime :=
  if (fields_ok y m d h mi s us
      && match off with Some o => offset_ok o | None => true end)%bool
  then Py.Ret (mk_datetime y m d h mi s us off)
  else Py.Raise Py.ValueError.

(** microseconds from 0001-01-01T00:00 UTC to the instant [dt] denotes
    (a naive [dt] is read as UTC, as the callers do) *)
Definition instant_us (dt : datetime) : Z :=
  ((((ymd2ord (year dt) (month dt) (day dt) - 1) * 24 + hour dt) * 60
    + minute dt) * 60 + second dt) * 1000000 + microsecond dt
  - match utcoffset dt with Some o => o | None => 0 end.

(** [(a - b).days] *)
Definition days_between (a b : datetime) : Z :=
  (instant_us a - instant_us b) / day_us.

(** *** Decimal text *)

(** [int(s)] on a string of digits with blanks around it *)
Definition int_of_str (s : string) : Py.result Z :=
  let '(v, n, r) := PyFloat.read_digits (PyFloat.trim s) 0 0 in
  match r with
  | EmptyString => if Nat.eqb n 0 then Py.Raise Py.ValueError else Py.Ret v
  | String _ _ => Py.Raise Py.ValueError
  end.

Definition digit_char (d : Z) : ascii := ascii_of_nat (48 + Z.to_nat (d mod 10)).

(** the text of [n], [0 <= n], zero-padded to [width] digits *)
Fixpoint pad_aux (width : nat) (n : Z) (acc : string) : string :=
  match width with
  | O => acc
  | S w => pad_aux w (n / 10) (String (digit_char n) acc)
  end.

Fixpoint more_digits (fuel : nat) (n : Z) (acc : string) : string :=
  match fuel with
  | O => acc
  | S f => if n =? 0 then acc
           else more_digits f (n / 10) (String (digit_char n) acc)
  end.

Definition pad (width : nat) (n : Z) : string :=
  more_digits (S (Z.to_nat (Z.log2 n))) (n / 10 ^ Z.of_nat width)
              (pad_aux width n "").

(** *** [isoformat] *)

Definition format_offset (off : Z) : string :=
  let sign := if off <? 0 then "-" else "+" in
  let a := Z.abs off in
  let hh := a / 3600000000 in
  let r := a mod 3600000000 in
  let mm := r / 60000000 in
  let r2 := r mod 60000000 in
  let ss := r2 / 1000000 in
  let us := r2 mod 1000000 in
  sign ++ pad 2 hh ++ ":" ++ pad 2 mm
  ++ (if ((ss =? 0) && (us =? 0))%bool then ""
      else ":" ++ pad 2 ss ++ (if us =? 0 then "" else "." ++ pad 6 us)).

Definition isoformat (dt : datetime) : string :=
  pad 4 (year dt) ++ "-" ++ pad 2 (month dt) ++ "-" ++ pad 2 (day dt)
  ++ "T" ++ pad 2 (hour dt) ++ ":" ++ pad 2 (minute dt) ++ ":"
  ++ pad 2 (second dt)
  ++ (if microsecond dt =? 0 then "" else "." ++ pad 6 (microsecond dt))
  ++ match utcoffset dt with
     | Some o => format_offset o
     | None => ""
     end.

(** *** [strptime]

    [datetime.strptime(s, fmt)] for the format [%a %b %d %Y %H:%M:%S GMT%z]
    of [parse_gab_datetime], in the C locale,
    after CPython's [_strptime]: the format is turned into one regular
    expression, compiled with [re.IGNORECASE], which must match all of
    [s]; the groups are then converted, and the constructors check the
    ranges.  Every failure is a [ValueError]. *)

Definition ch (a : ascii) : Re.regex := Re.Cls (Str.is_char a).
Definition rg (a b : ascii) : Re.regex :=
  Re.Cls (Str.in_range (Str.code a) (Str.code b)).
Definition dg : Re.regex := Re.Cls Str.is_digit.

Fixpoint cat (l : list Re.regex) : Re.regex :=
  match l with
  | [] => Re.Eps
  | [r] => r
  | r :: l' => Re.Cat r (cat l')
  end.

Fixpoint alt (r : Re.regex) (l : list Re.regex) : Re.regex :=
  match l with
  | [] => r
  | r' :: l' => Re.Alt r (alt r' l')
  end.

(** [\s+] *)
Definition ws1 : Re.regex := Re.Many1 Str.is_space.

Definition a_weekday : list string :=
  ["mon"; "tue"; "wed"; "thu"; "fri"; "sat"; "sun"].
Definition a_month : list string :=
  [""; "jan"; "feb"; "mar"; "apr"; "may"; "jun";
   "jul"; "aug"; "sep"; "oct"; "nov"; "dec"].

Definition names (l : list string) : Re.regex :=
  match List.map Re.lit_i l with
  | [] => Re.Eps
  | r :: rs => alt r rs
  end.

(** [3[0-1]|[1-2]\d|0[1-9]|[1-9]| [1-9]] *)
Definition re_d : Re.regex :=
  alt (cat [ch "3"; rg "0" "1"])
      [cat [rg "1" "2"; dg]; cat [ch "0"; rg "1" "9"]; rg "1" "9";
       cat [ch " "; rg "1" "9"]].
(** [\d\d\d\d] *)
Definition re_Y : Re.regex := cat [dg; dg; dg; dg].
(** [2[0-3]|[0-1]\d|\d] *)
Definition re_H : Re.regex :=
  alt (cat [ch "2"; rg "0" "3"]) [cat [rg "0" "1"; dg]; dg].
(** [[0-5]\d|\d] *)
Definition re_M : Re.regex := alt (cat [rg "0" "5"; dg]) [dg].
(** [6[0-1]|[0-5]\d|\d] *)
Definition re_S : Re.regex :=
  alt (cat [ch "6"; rg "0" "1"]) [cat [rg "0" "5"; dg]; dg].
(** [\d{1,6}] *)
Definition re_frac : Re.regex :=
  cat [dg; Re.Opt (cat [dg; Re.Opt (cat [dg; Re.Opt (cat [dg;
       Re.Opt (cat [dg; Re.Opt dg])])])])].
(** [[+-]\d\d:?[0-5]\d(:?[0-5]\d(\.\d{1,6})?)?|(?-i:Z)] *)
Definition re_z : Re.regex :=
  Re.Alt
    (cat [Re.Cls (fun c => Str.is_char "+" c || Str.is_char "-" c)%bool;
          dg; dg; Re.Opt (ch ":"); rg "0" "5"; dg;
          Re.Opt (cat [Re.Opt (ch ":"); rg "0" "5"; dg;
                       Re.Opt (cat [ch "."; re_frac])])])
    (ch "Z").

Definition gab_format_regex : Re.regex :=
  cat [Re.Grp 1 (names a_weekday); ws1;
       Re.Grp 2 (names (List.tl a_month)); ws1;
       Re.Grp 3 re_d; ws1;
       Re.Grp 4 re_Y; ws1;
       Re.Grp 5 re_H; ch ":"; Re.Grp 6 re_M; ch ":"; Re.Grp 7 re_S; ws1;
       Re.lit_i "GMT"; Re.Grp 8 re_z].

Definition found (n : nat) (m : Re.match_obj) : Py.result string :=
  match Re.group n m with
  | Some g => Py.Ret g
  | None => Py.Raise Py.ValueError
  end.

Fixpoint index_of (w : string) (l : list string) (i : Z) : Py.result Z :=
  match l with
  | [] => Py.Raise Py.ValueError
  | x :: l' => if String.eqb x w then Py.Ret i else index_of w l' (i + 1)
  end.

Definition char_at (i : nat) (s : string) (a : ascii) : bool :=
  match String.get i s with
  | Some c => Str.is_char a c
  | None => false
  end.

Definition slice (i j : nat) (s : string) : string :=
  Str.take (j - i) (Str.drop i s).

Fixpoint zeros (n : nat) : string :=
  match n with O => "" | S n' => String "0" (zeros n') end.

(** the [%z] group: the offset in microseconds *)
Definition parse_z (z0 : string) : Py.result Z :=
  if String.eqb z0 "Z" then Py.Ret 0 else
  let* z :=
    if char_at 3 z0 ":" then
      let z1 := Str.take 3 z0 ++ Str.drop 4 z0 in
      if Nat.ltb 5 (String.length z1) then
        if char_at 5 z1 ":" then Py.Ret (Str.take 5 z1 ++ Str.drop 6 z1)
        else Py.Raise Py.ValueError
      else Py.Ret z1
    else Py.Ret z0 in
  let* hours := int_of_str (slice 1 3 z) in
  let* minutes := int_of_str (slice 3 5 z) in
  let* seconds := (if String.eqb (slice 5 7 z) "" then Py.Ret 0
                   else int_of_str (slice 5 7 z)) in
  let gmtoff := hours * 3600 + minutes * 60 + seconds in
  let remainder := Str.drop 8 z in
  let* fraction :=
    int_of_str (remainder ++ zeros (6 - String.length remainder)) in
  let us := gmtoff * 1000000 + fraction in
  Py.Ret (if Str.starts_with "-" z then - us else us).

Definition strptime_gab (s : string) : Py.result datetime :=
  match Re.match_at gab_format_regex s with
  | None => Py.Raise Py.ValueError
  | Some m =>
      match Re.m_rest m with
      | String _ _ => Py.Raise Py.ValueError   (* unconverted data remains *)
      | EmptyString =>
          let* gb := found 2 m in
          let* mo := index_of (Str.map Str.lower_char gb) a_month 0 in
          let* gd := found 3 m in let* d := int_of_str gd in
          let* gY := found 4 m in let* y := int_of_str gY in
          let* gH := found 5 m in let* h := int_of_str gH in
          let* gM := found 6 m in let* mi := int_of_str gM in
          let* gS := found 7 m in let* sec := int_of_str gS in
          let* gz := found 8 m in let* off := parse_z gz in
          make y mo d h mi sec 0 (Some off)
      end
  end.

(** *** [fromisoformat], on the strings [isoformat] produces:
    [YYYY-MM-DDTHH:MM:SS[.ffffff][+HH:MM[:SS[.ffffff]]]] *)

Definition six : Re.regex := cat [dg; dg; dg; dg; dg; dg].

Definition iso_regex : Re.regex :=
  cat [Re.Grp 1 re_Y; ch "-"; Re.Grp 2 (cat [dg; dg]); ch "-";
       Re.Grp 3 (cat [dg; dg]); ch "T";
       Re.Grp 4 (cat [dg; dg]); ch ":"; Re.Grp 5 (cat [dg; dg]); ch ":";
       Re.Grp 6 (cat [dg; dg]);
       Re.Opt (cat [ch "."; Re.Grp 7 six]);
       Re.Opt (cat [Re.Grp 8 (Re.Cls (fun c => Str.is_char "+" c
                                            || Str.is_char "-" c)%bool);
                    Re.Grp 9 (cat [dg; dg]); ch ":"; Re.Grp 10 (cat [dg; dg]);
                    Re.Opt (cat [ch ":"; Re.Grp 11 (cat [dg; dg]);
                                 Re.Opt (cat [ch "."; Re.Grp 12 six])])])].

Definition int_group (n : nat) (m : Re.match_obj) : Py.result Z :=
  match Re.group n m with
  | Some g => int_of_str g
  | None => Py.Ret 0
  end.

Definition fromisoformat (s : string) : Py.result datetime :=
  match Re.match_at iso_regex s with
  | None => Py.Raise Py.ValueError
  | Some m =>
      match Re.m_rest m with
      | String _ _ => Py.Raise Py.ValueError
      | EmptyString =>
          let* y := int_group 1 m in let* mo := int_group 2 m in
          let* d := int_group 3 m in let* h := int_group 4 m in
          let* mi := int_group 5 m in let* sec := int_group 6 m in
          let* us := int_group 7 m in
          match Re.group 8 m with
          | None => make y mo d h mi sec us None
          | Some sg =>
              let* oh := int_group 9 m in let* om := int_group 10 m in
              let* os := int_group 11 m in let* ou := int_group 12 m in
              let secs := (oh * 60 + om) * 60 + os in
              (* CPython returns UTC when the whole seconds are zero *)
              let o := if secs =? 0 then 0 else secs * 1000000 + ou in
              if between 0 oh 23 && between 0 om 59 && between 0 os 59 then
                make y mo d h mi sec us
                     (Some (if String.eqb sg "-" then - o else o))
              else Py.Raise Py.ValueError
          end
      end
  end.

End DateTime.
(** ** Markup patterns shared by the two Gab scripts *)

Module Markup.

Import DateTime.

Definition dquote : ascii := ascii_of_nat 34.
Definition newline : ascii := ascii_of_nat 10.

(** the middle dot, U+00B7, as a one-character string *)
Definition middle_dot : string := String (ascii_of_nat 183) "".

Definition is_not (a : ascii) (c : ascii) : bool := negb (Str.is_char a c).

(** [.] without [re.DOTALL] *)
Definition dot : Re.regex := Re.Cls (is_not newline).

(** [\s*] *)
Definition ws0 : Re.regex := Re.Many Str.is_space.

(** [post_url.split('/')[-1].split('?')[0].split('#')[0]] *)
Definition post_id_of_url (post_url : string) : string :=
  Str.first_piece (Str.split "#"
    (Str.first_piece (Str.split "?"
      (Str.last_piece (Str.split "/" post_url))))).

(** [r'gab.com/([^/]+)/posts/'] *)
Definition author_pattern : Re.regex :=
  cat [Re.lit "gab"; dot; Re.lit "com/";
       Re.Grp 1 (Re.Many1 (is_not "/")); Re.lit "/posts/"].

Definition author_of_url (post_url : string) : string :=
  match Re.search author_pattern post_url with
  | Some m => match Re.group 1 m with
              | Some g => "@" ++ g
              | None => "Error (URL parse failed)"
              end
  | None => "N/A (Author not found in URL pattern)"
  end.

(** the pattern compiled into [img_src_pattern]: [src=], a double quote,
    then the group [https?://m3\.gab\.com/media_attachments/], one or more
    characters other than the double quote, [\.(?:jpg|jpeg|png|gif|webp)],
    any number of characters other than the double quote; then the
    closing double quote *)
Definition img_src_pattern : Re.regex :=
  cat [Re.lit "src="; ch dquote;
       Re.Grp 1 (cat [Re.lit "http"; Re.Opt (ch "s");
                      Re.lit "://m3.gab.com/media_attachments/";
                      Re.Many1 (is_not dquote); ch ".";
                      alt (Re.lit "jpg")
                          [Re.lit "jpeg"; Re.lit "png"; Re.lit "gif";
                           Re.lit "webp"];
                      Re.Many (is_not dquote)]);
       ch dquote].

(** the loop [for match in img_src_pattern.finditer(html):
    image_urls.append(match.group(1))] *)
Definition matched_urls (html : string) : list string :=
  omap (Re.group 1) (Re.finditer img_src_pattern html).

(** [list(set(image_urls))]: the order Python gives the elements of a
    set is unspecified; [elements] fixes one. *)
Definition list_set (l : list string) : list string :=
  elements (list_to_set l : gset string).

(** the [try] block that fills [image_urls]; [outer_html] is what
    [get_attribute('outerHTML')] gives ([None] makes [finditer] raise
    a [TypeError], an [Exception] like any other here) *)
Definition scrape_image_urls (outer_html : Py.result (option string))
  : Py.result (list string) :=
  match outer_html with
  | Py.Ret (Some html) => Py.Ret (list_set (matched_urls html))
  | Py.Ret None => Py.Ret []
  | Py.Raise e => if Py.is_Exception e then Py.Ret [] else Py.Raise e
  end.

(** *** Interaction counts, read from [driver.page_source] *)

(** [[KMBTkmb]?] under [re.IGNORECASE] *)
Definition suffix_i : Re.regex :=
  Re.Opt (Re.Cls (fun c => Normalizer.is_suffix_char c
                           || Str.is_char "t" c)%bool).

(** [(\d[\d,.]*[KMBTkmb]?)] under [re.IGNORECASE] *)
Definition number_i : Re.regex :=
  Re.Grp 1 (cat [dg; Re.Many Normalizer.is_num_char; suffix_i]).

Definition reactions_class : Re.regex :=
  cat [Re.lit "<span"; ws1; Re.lit "class="; ch dquote;
       Re.lit "_3u7ZG"; ws1; Re.lit "_UuSG"; ws1; Re.lit "_3_54N"; ws1;
       Re.lit "a8-QN"; ws1; Re.lit "_2cSLK"; ws1; Re.lit "L4pn5"; ws1;
       Re.lit "RiX17"; ch dquote].

Definition reactions_pattern : Re.regex :=
  cat [reactions_class; ws1; Re.lit "data-text="; ch dquote;
       Re.Grp 1 (Re.Many1 Str.is_digit); ch dquote;
       Re.Many (is_not ">"); ch ">"].

Definition reactions_text_pattern : Re.regex :=
  cat [reactions_class; Re.Many (is_not ">"); ch ">";
       Re.Grp 1 (Re.Many1 Str.is_digit); ws0; Re.lit "</span>"].

Definition reposts_pattern : Re.regex :=
  cat [number_i; ws0; Re.lit_i "Reposts"].

Definition quotes_pattern : Re.regex :=
  cat [number_i; ws0; Re.lit_i "Quotes"].

(** [<button[^>]*\s(?:title|aria-label)=Q(number)\s*viewsQ[^>]*>],
    Q the double quote character, under [re.IGNORECASE] *)
Definition views_button_pattern : Re.regex :=
  cat [Re.lit_i "<button"; Re.Many (is_not ">"); Re.Cls Str.is_space;
       Re.Alt (Re.lit_i "title") (Re.lit_i "aria-label");
       Re.lit "="; ch dquote; number_i; ws0; Re.lit_i "views"; ch dquote;
       Re.Many (is_not ">"); ch ">"].

(** [([\d,.]*[KMBTkmb]?)] under [re.IGNORECASE] *)
Definition loose_number_i : Re.regex :=
  Re.Grp 1 (cat [Re.Many Normalizer.is_num_char; suffix_i]).

Definition views_text_pattern : Re.regex :=
  cat [number_i; ws0; Re.lit_i "views"].

(** [extract_count_from_string(m.group(1)) if m else 0] *)
Definition count_of (m : option Re.match_obj) : Py.result Z :=
  match m with
  | Some mo => Normalizer.extract_count_from_string (Re.group 1 mo)
  | None => Py.Ret 0
  end.

Definition scrape_likes (page_source : string) : Py.result Z :=
  match Re.search reactions_pattern page_source with
  | Some m => count_of (Some m)
  | None => count_of (Re.search reactions_text_pattern page_source)
  end.

Definition scrape_reposts (page_source : string) : Py.result Z :=
  count_of (Re.search reposts_pattern page_source).

Definition scrape_quotes (page_source : string) : Py.result Z :=
  count_of (Re.search quotes_pattern page_source).

(** [re.search(r'[a-zA-Z]{5,}', raw_text)] *)
Definition five_letters : Re.regex :=
  cat [Re.Cls Str.is_alpha; Re.Cls Str.is_alpha; Re.Cls Str.is_alpha;
       Re.Cls Str.is_alpha; Re.Cls Str.is_alpha; Re.Many Str.is_alpha].

Definition has_five_letters (raw_text : string) : bool :=
  match Re.search five_letters raw_text with Some _ => true | None => false end.

End Markup.

(** ** [gab/gab_past_post_rescraper.py] *)

Module Rescraper.

Import DateTime Markup.

Definition POSTS_TO_SCRAPE : nat := 1000.
Definition MIN_POST_AGE_DAYS : Z := 0.
Definition MIN_REPLIES_REQUIRED : nat := 0.

(** [\s*\([^)]+\)] *)
Definition gloss_pattern : Re.regex :=
  cat [ws0; ch "("; Re.Many1 (is_not ")"); ch ")"].

Definition clean_dt_string (dt_string : string) : string :=
  Str.strip (Re.sub_empty gloss_pattern dt_string).

Definition parse_gab_datetime (dt_string : option string)
  : Py.result (option string) :=
  match dt_string with
  | None | Some EmptyString => Py.Ret None
  | Some s =>
      Py.try_except
        (let* dt_object := strptime_gab (clean_dt_string s) in
         Py.Ret (Some (isoformat dt_object)))
        [Py.ValueError] (Py.Ret None)
  end.

(** *** What the browser shows: the answers to the queries of
    [get_post_details], each a value or a raised exception *)

Record time_element := {
  datetime_attr : option string;     (* get_attribute('datetime') *)
  time_text : string                 (* .text *)
}.

(** the [time] element of a reply, read in two steps *)
Record reply_time_element := {
  reply_datetime_attr : Py.result (option string);  (* get_attribute('datetime') *)
  reply_time_text : Py.result string                (* .text *)
}.

Record reply_element := {
  data_comment : Py.result (option string);   (* get_attribute('data-comment') *)
  reply_body : Py.result string;     (* the 3 s wait for .//div[@tabindex=0]/p, then .text *)
  reply_time : Py.result reply_time_element;  (* the 3 s wait for the time element *)
  reply_outer_html : Py.result (option string)
}.

Record main_element := {
  body : Py.result string;           (* the 10 s wait on the nine text strategies, then .text *)
  outer_html : Py.result (option string);
  time_elem : Py.result time_element (* the 10 s wait on the four timestamp strategies *)
}.

Record page := {
  open_post : string -> Py.result unit;        (* driver.get and the 25 s wait for div[data-id=post_id] *)
  main_post : string -> Py.result main_element;(* find_element(div[data-id=post_id]) *)
  now : datetime;                              (* datetime.now(timezone.utc) *)
  page_source : Py.result string;
  scroll_comments : Py.result unit;  (* the scroll of the comment container, or of the window *)
  reply_wait : Py.result unit;       (* the 15 s wait for a reply element *)
  reply_elements : Py.result (list reply_element)
}.

(** *** The dictionaries of the output *)

Record reply := {
  reply_id : string;
  reply_text : string;
  reply_timestamp_raw : option string;
  reply_age_text : string;
  reply_timestamp_iso : option string;
  reply_image_urls : list string
}.

Record post := {
  post_id : string;
  post_url : string;
  image_urls : list string;
  replies : list reply;
  author_username : string;
  text : string;
  timestamp : string;
  timestamp_iso : string;
  likes : Z;
  reposts_count : Z;
  quotes_count : Z;
  views : Z
}.

(** [except Exception: return None] around a step *)
Definition or_skip {A B} (m : Py.result A) (k : A -> Py.result (option B))
  : Py.result (option B) :=
  match m with
  | Py.Ret a => k a
  | Py.Raise e => if Py.is_Exception e then Py.Ret None else Py.Raise e
  end.

(** the two tests of the text block *)
Definition is_likely_header (author raw_text : string) : bool :=
  (Nat.ltb (String.length raw_text) 30
     && ((Text.occurs middle_dot raw_text || Str.contains newline raw_text)
         && negb (has_five_letters raw_text))
   || Str.starts_with author raw_text
      && Nat.ltb (String.length raw_text) 50)%bool.

Definition scrape_text (author : string) (body : Py.result string)
  : Py.result string :=
  match body with
  | Py.Ret t =>
      let raw_text := Str.strip t in
      Py.Ret (if is_likely_header author raw_text
              then "No primary text content found." else raw_text)
  | Py.Raise Py.TimeoutException =>
      Py.Ret "No primary text content found (timed out)."
  | Py.Raise Py.NoSuchElementException =>
      Py.Ret "No primary text content found."
  | Py.Raise e =>
      if Py.is_Exception e then Py.Ret "Error retrieving text."
      else Py.Raise e
  end.

(** [a or b] on an optional string and a string *)
Definition or_text (a : option string) (b : string) : string :=
  match a with
  | Some (String c r) => String c r
  | _ => b
  end.

(** the timestamp block: the raw and the normalized timestamp, or [None]
    for each of its [return None] *)
Definition scrape_timestamp (pg : page) (el : main_element)
  : Py.result (option (string * string)) :=
  or_skip (time_elem el) (fun te =>
    let raw_timestamp := or_text (datetime_attr te) (Str.strip (time_text te)) in
    or_skip (parse_gab_datetime (Some raw_timestamp)) (fun iso =>
      match iso with
      | Some (String c r) =>
          let timestamp_iso := String c r in
          or_skip (fromisoformat timestamp_iso) (fun post_datetime =>
            if days_between (now pg) post_datetime <? MIN_POST_AGE_DAYS
            then Py.Ret None
            else Py.Ret (Some (raw_timestamp, timestamp_iso)))
      | _ => Py.Ret None
      end)).

(** [([\d,.]*[KMBTkmb]?)\s*<span[^>]*>views</span>] under [re.IGNORECASE] *)
Definition views_span_pattern : Re.regex :=
  cat [loose_number_i; ws0; Re.lit_i "<span"; Re.Many (is_not ">");
       Re.lit_i ">views</span>"].

Definition scrape_views (src : string) : Py.result Z :=
  match Re.search views_button_pattern src with
  | Some m => count_of (Some m)
  | None =>
      match Re.search views_span_pattern src with
      | Some m => count_of (Some m)
      | None => count_of (Re.search views_text_pattern src)
      end
  end.

(** *** Replies *)

(** the loop that keeps one element per [data-comment] value *)
Fixpoint unique_reply_elements (els : list reply_element) (seen : gset string)
  : Py.result (list (string * reply_element)) :=
  match els with
  | [] => Py.Ret []
  | elem :: rest =>
      match data_comment elem with
      | Py.Ret (Some (String c r)) =>
          let ident := String c r in
          if bool_decide (ident ∈ seen) then unique_reply_elements rest seen
          else let* more := unique_reply_elements rest ({[ident]} ∪ seen) in
               Py.Ret ((ident, elem) :: more)
      | Py.Ret _ => unique_reply_elements rest seen
      | Py.Raise Py.StaleElementReferenceException =>
          unique_reply_elements rest seen
      | Py.Raise e => Py.Raise e
      end
  end.

Definition scrape_reply_text (b : Py.result string) : Py.result string :=
  match b with
  | Py.Ret t =>
      let raw := Str.strip t in
      Py.Ret (if Nat.ltb 0 (String.length raw) then raw
              else "No substantive text found.")
  | Py.Raise Py.TimeoutException | Py.Raise Py.NoSuchElementException =>
      Py.Ret "No text found (Timeout/Not Found)."
  | Py.Raise e =>
      if Py.is_Exception e then Py.Ret "Error retrieving text."
      else Py.Raise e
  end.

(** [except Exception: pass], with the values the dictionary holds then *)
Definition or_keep {A} (e : Py.exn) (kept : A) : Py.result A :=
  if Py.is_Exception e then Py.Ret kept else Py.Raise e.

(** the timestamp block of a reply: the three entries start as ["N/A"]
    and are assigned one after the other, so an exception keeps those
    assigned before it *)
Definition scrape_reply_timestamp (t : Py.result reply_time_element)
  : Py.result (option string * string * option string) :=
  let na := Some "N/A" in
  match t with
  | Py.Raise e => or_keep e (na, "N/A", na)
  | Py.Ret te =>
      match reply_datetime_attr te with
      | Py.Raise e => or_keep e (na, "N/A", na)
      | Py.Ret raw =>
          match reply_time_text te with
          | Py.Raise e => or_keep e (raw, "N/A", na)
          | Py.Ret age =>
              match parse_gab_datetime raw with
              | Py.Ret iso => Py.Ret (raw, Str.strip age, iso)
              | Py.Raise e => or_keep e (raw, Str.strip age, na)
              end
          end
      end
  end.

Definition scrape_reply (ident : string) (el : reply_element)
  : Py.result reply :=
  let* txt := scrape_reply_text (reply_body el) in
  let* stamp := scrape_reply_timestamp (reply_time el) in
  let* imgs := scrape_image_urls (reply_outer_html el) in
  Py.Ret {| reply_id := ident; reply_text := txt;
            reply_timestamp_raw := fst (fst stamp);
            reply_age_text := snd (fst stamp);
            reply_timestamp_iso := snd stamp;
            reply_image_urls := imgs |}.

Fixpoint scrape_replies (els : list (string * reply_element))
  : Py.result (list reply) :=
  match els with
  | [] => Py.Ret []
  | (ident, el) :: rest =>
      let* r := scrape_reply ident el in
      let* rs := scrape_replies rest in
      Py.Ret (r :: rs)
  end.

(** the [try] block of the replies section: an [Exception] before the
    scraping loop leaves the list of replies empty *)
Definition replies_section (pg : page) : Py.result (list reply) :=
  let found :=
    let* _ := reply_wait pg in
    let* els := reply_elements pg in
    unique_reply_elements els ∅ in
  match found with
  | Py.Ret uniq => scrape_replies uniq
  | Py.Raise e => if Py.is_Exception e then Py.Ret [] else Py.Raise e
  end.

(** *** [get_post_details] *)

Definition get_post_details (url : string) (pg : page)
  : Py.result (option post) :=
  let pid := post_id_of_url url in
  or_skip (open_post pg pid) (fun _ =>
  or_skip (main_post pg pid) (fun el =>
    let author := author_of_url url in
    or_skip (scrape_text author (body el)) (fun txt =>
    or_skip (scrape_image_urls (outer_html el)) (fun imgs =>
    let* stamp := scrape_timestamp pg el in
    match stamp with
    | None => Py.Ret None
    | Some (raw_timestamp, iso) =>
        or_skip (page_source pg) (fun src =>
        or_skip (scrape_likes src) (fun n_likes =>
        or_skip (scrape_reposts src) (fun n_reposts =>
        or_skip (scrape_quotes src) (fun n_quotes =>
        or_skip (scrape_views src) (fun n_views =>
          let* _ := scroll_comments pg in
          let* rs := replies_section pg in
          if Nat.ltb (List.length rs) MIN_REPLIES_REQUIRED then Py.Ret None
          else Py.Ret (Some
            {| post_id := pid; post_url := url; image_urls := imgs;
               replies := rs; author_username := author; text := txt;
               timestamp := raw_timestamp; timestamp_iso := iso;
               likes := n_likes; reposts_count := n_reposts;
               quotes_count := n_quotes; views := n_views |}))))))
    end)))).

(** *** [main]

    The run is given by the start of the driver (before the [try]
    statement), by what happens before the loop (the sign-in page and the
    reading of [gab_urls_4.json]), by what each visit shows, by the
    [driver.quit()] after the loop, and by how each block that writes a
    file ends.  Interruptions and faults are raised by these steps. *)

Inductive visit :=
| NoTab                 (* TimeoutException while waiting for the new window: continue *)
| Tab (pg : page)       (* the tab opens and shows pg *)
| Fault (e : Py.exn).   (* window.open, switch_to or close raises e *)

Inductive dump_kind :=
| Completed             (* gab_data_from_list_<ts>.json *)
| InterruptDump         (* gab_data_interrupt_dump_<ts>.json *)
| ErrorDump.            (* gab_data_error_dump_<ts>.json *)


Inductive exit_status :=
| Returned              (* main returns *)
| SysExit (code : Z)
| Uncaught (e : Py.exn).

(** the blocks [with open(name, 'w') as f: json.dump(dataset, f, ...)]
    a run enters, in order: the file each names, the records it is given,
    and how it ends *)
Record outcome := {
  persisted : list (dump_kind * list post * Py.result unit);
  exit : exit_status
}.

(** the [for url in gab_urls] loop from the state [dataset] *)
Fixpoint crawl (todo : list (string * visit)) (dataset : list post)
  : list post * Py.result unit :=
  match todo with
  | [] => (dataset, Py.Ret tt)
  | (url, v) :: rest =>
      match v with
      | NoTab => crawl rest dataset
      | Fault e => (dataset, Py.Raise e)
      | Tab pg =>
          match get_post_details url pg with
          | Py.Raise e => (dataset, Py.Raise e)
          | Py.Ret (Some post_details) =>
              crawl rest (dataset ++ [post_details])%list
          | Py.Ret None => crawl rest dataset
          end
      end
  end.

(** the handler that takes [e], its file and its exit code *)
Definition handler_of (e : Py.exn) : dump_kind * Z :=
  match e with
  | Py.KeyboardInterrupt => (InterruptDump, 0)
  | _ => (ErrorDump, 1)
  end.

(** how a handler ends: [sys.exit(code)] after its dump, or the
    exception its dump raises *)
Definition exit_after (dump : Py.result unit) (code : Z) : exit_status :=
  match dump with
  | Py.Ret _ => SysExit code
  | Py.Raise e => Uncaught e
  end.

(** the two [except] clauses: the guarded [driver.quit()], the dump of
    [dataset], [sys.exit]; [entered] lists the blocks entered before *)
Definition handle (write : dump_kind -> Py.result unit) (e : Py.exn)
           (dataset : list post)
           (entered : list (dump_kind * list post * Py.result unit))
  : outcome :=
  let '(kind, code) := handler_of e in
  {| persisted := (entered ++ [(kind, dataset, write kind)])%list;
     exit := exit_after (write kind) code |}.

(** [start] is the start of the driver, before the [try] statement;
    [write kind] is how the block that writes the file of that kind ends
    when it is entered (each is entered at most once).  The [finally]
    clause only quits the driver once more, whatever that raises being
    passed over. *)
Definition main (start : Py.result unit)
           (startup : Py.result (list (string * visit)))
           (quit : Py.result unit)
           (write : dump_kind -> Py.result unit) : outcome :=
  match start with
  | Py.Raise e => {| persisted := []; exit := Uncaught e |}
  | Py.Ret _ =>
      let '(dataset, r) :=
        match startup with
        | Py.Ret gab_urls => crawl gab_urls []
        | Py.Raise e => ([], Py.Raise e)
        end in
      match (let* _ := r in quit) with
      | Py.Raise e => handle write e dataset []
      | Py.Ret _ =>
          match dataset with
          | [] => {| persisted := []; exit := Returned |}
          | _ :: _ =>
              match write Completed with
              | Py.Ret u =>
                  {| persisted := [(Completed, dataset, Py.Ret u)];
                     exit := Returned |}
              | Py.Raise e =>
                  handle write e dataset [(Completed, dataset, Py.Raise e)]
              end
          end
      end
  end.

(** *** The records a list of visits appends

    These describe the loop of [main] from outside: what one visit hands
    to the loop, when a list of visits runs undisturbed, and the records it
    then appends. *)

(** what one visit gives the loop: a record, nothing, or an exception *)
Definition visit_result (url : string) (v : visit) : Py.result (option post) :=
  match v with
  | NoTab => Py.Ret None
  | Fault e => Py.Raise e
  | Tab pg => get_post_details url pg
  end.

(** the visits of [todo] none of which raises ... *)
Definition calm (todo : list (string * visit)) : Prop :=
  Forall (fun uv => exists o, visit_result (fst uv) (snd uv) = Py.Ret o) todo.

(** ... and the records they yield, in order *)
Fixpoint records (todo : list (string * visit)) : list post :=
  match todo with
  | [] => []
  | (url, v) :: rest =>
      match visit_result url v with
      | Py.Ret (Some p) => p :: records rest
      | _ => records rest
      end
  end.

(** the files a run writes in full: the blocks it enters that return *)
Definition written (o : outcome) : list (dump_kind * list post) :=
  omap (fun w => match snd w with
                 | Py.Ret _ => Some (fst w)
                 | Py.Raise _ => None
                 end)
       (persisted o).

End Rescraper.

(** ** [gab_scraper_14.py] *)

Module Gab14.

Import DateTime Markup.

Definition POSTS_TO_SCRAPE : nat := 10.

Record time_element := {
  datetime_attr : option string;
  time_text : string
}.

(** a reply dictionary; the replies section (the last part of
    [get_post_details]) only appends to the list of replies and catches
    every [Exception], so the page gives the list it builds *)
Record reply := {
  reply_id : string;
  reply_author : string;
  reply_text : string;
  reply_timestamp : string;
  reply_likes : Z
}.

Record main_element := {
  body : Py.result string;            (* the 10 s wait on the eight text strategies, then .text *)
  outer_html : Py.result (option string);
  time_elem : Py.result time_element
}.

Record page := {
  open_post : string -> Py.result unit;
  main_post : string -> Py.result main_element;
  page_source : Py.result string;
  replies_built : Py.result (list reply)
}.

Record post := {
  post_id : string;
  post_url : string;
  image_urls : list string;
  replies : list reply;
  author_username : string;
  text : string;
  timestamp : string;
  likes : Z;
  reposts_count : Z;
  quotes_count : Z;
  views : Z
}.

Definition or_skip {A B} (m : Py.result A) (k : A -> Py.result (option B))
  : Py.result (option B) :=
  match m with
  | Py.Ret a => k a
  | Py.Raise e => if Py.is_Exception e then Py.Ret None else Py.Raise e
  end.

Definition is_word (c : ascii) : bool :=
  (Str.is_alnum c || Str.is_char "_" c)%bool.

(** [re.match(r'(.+?)\n@\w+', raw_text)]: the lazy [.+?] tries the
    short runs first *)
Definition few1 (p : ascii -> bool) (s : string) : list string :=
  match s with
  | String c s' => if p c then List.rev (Re.tails p s') else []
  | EmptyString => []
  end.

Definition display_name_match (raw_text : string) : bool :=
  existsb (fun rest =>
             match Re.match_at
                     (cat [ch newline; ch "@"; Re.Many1 is_word]) rest with
             | Some _ => true
             | None => false
             end)
          (few1 (is_not newline) raw_text).

(** the two tests of the text block; the mark the second looks for is
    the two characters U+00C2 U+00B7 *)
Definition is_likely_header (author raw_text : string) : bool :=
  (negb (String.eqb author "N/A") && display_name_match raw_text
   || Nat.ltb (String.length raw_text) 20
      && (Text.occurs (String (ascii_of_nat 194) middle_dot) raw_text
          || Str.contains newline raw_text)
      && negb (has_five_letters raw_text))%bool.

Definition scrape_text (author : string) (body : Py.result string)
  : Py.result string :=
  match body with
  | Py.Ret t =>
      let raw_text := Str.strip t in
      Py.Ret (if is_likely_header author raw_text
              then "No primary text content found." else raw_text)
  | Py.Raise Py.TimeoutException =>
      Py.Ret "No primary text content found (timed out)."
  | Py.Raise Py.NoSuchElementException =>
      Py.Ret "No primary text content found."
  | Py.Raise e =>
      if Py.is_Exception e then Py.Ret "Error retrieving text."
      else Py.Raise e
  end.

Definition or_text (a : option string) (b : string) : string :=
  match a with
  | Some (String c r) => String c r
  | _ => b
  end.

Definition scrape_timestamp (t : Py.result time_element) : Py.result string :=
  match t with
  | Py.Ret te => Py.Ret (or_text (datetime_attr te) (Str.strip (time_text te)))
  | Py.Raise Py.TimeoutException => Py.Ret "N/A (Timeout)"
  | Py.Raise Py.NoSuchElementException => Py.Ret "N/A"
  | Py.Raise e => if Py.is_Exception e then Py.Ret "Error" else Py.Raise e
  end.

(** [([\d,.]*[KMBTkmb]?)\s*&nbsp;views] under [re.IGNORECASE] *)
Definition views_nbsp_pattern : Re.regex :=
  cat [loose_number_i; ws0; Re.lit_i "&nbsp;views"].

Definition scrape_views (src : string) : Py.result Z :=
  match Re.search views_button_pattern src with
  | Some m => count_of (Some m)
  | None => count_of (Re.search views_nbsp_pattern src)
  end.

Definition get_post_details (url : string) (pg : page)
  : Py.result (option post) :=
  let pid := post_id_of_url url in
  or_skip (open_post pg pid) (fun _ =>
  or_skip (main_post pg pid) (fun el =>
    let author := author_of_url url in
    or_skip (scrape_text author (body el)) (fun txt =>
    or_skip (scrape_image_urls (outer_html el)) (fun imgs =>
    or_skip (scrape_timestamp (time_elem el)) (fun stamp =>
    or_skip (page_source pg) (fun src =>
    or_skip (scrape_likes src) (fun n_likes =>
    or_skip (scrape_reposts src) (fun n_reposts =>
    or_skip (scrape_quotes src) (fun n_quotes =>
    or_skip (scrape_views src) (fun n_views =>
      let* rs := match replies_built pg with
                 | Py.Ret rs => Py.Ret rs
                 | Py.Raise e =>
                     if Py.is_Exception e then Py.Ret [] else Py.Raise e
                 end in
      Py.Ret (Some
        {| post_id := pid; post_url := url; image_urls := imgs;
           replies := rs; author_username := author; text := txt;
           timestamp := stamp; likes := n_likes;
           reposts_count := n_reposts; quotes_count := n_quotes;
           views := n_views |}))))))))))).

(** *** [main], from the list [unique_post_urls] on *)

Inductive visit :=
| Tab (pg : page)
| Fault (e : Py.exn).   (* window.open, switch_to or close raises e *)

(** what precedes the crawl loop: an exception, the Explore page that
    never shows, or the URLs to visit; but for the exception the run goes
    on to a [driver.quit()], before an early [return] or after the loop *)
Inductive prologue :=
| EarlyReturn
| Collected (unique_post_urls : list (string * visit))
| Broke (e : Py.exn).

Inductive exit_status :=
| Returned
| Uncaught (e : Py.exn).

(** the block [with open(name, 'w') as f: json.dump(dataset, f, ...)],
    if the run enters it: the records it is given and how it ends *)
Record outcome := {
  persisted : list (list post * Py.result unit);
  exit : exit_status
}.

(** the [for i, url in enumerate(unique_post_urls)] loop *)
Fixpoint crawl (target : nat) (todo : list (string * visit))
         (dataset : list post) : list post * Py.result unit :=
  match todo with
  | [] => (dataset, Py.Ret tt)
  | (url, v) :: rest =>
      if Nat.leb target (List.length dataset) then (dataset, Py.Ret tt)
      else
        match v with
        | Fault e => (dataset, Py.Raise e)
        | Tab pg =>
            match get_post_details url pg with
            | Py.Raise e => (dataset, Py.Raise e)
            | Py.Ret (Some post_details) =>
                crawl target rest (dataset ++ [post_details])%list
            | Py.Ret None => crawl target rest dataset
            end
        end
  end.

(** [driver.quit()], then the rest of the run *)
Definition quit_then (quit : Py.result unit) (rest : outcome) : outcome :=
  match quit with
  | Py.Ret _ => rest
  | Py.Raise e => {| persisted := []; exit := Uncaught e |}
  end.

(** [quit] is the one [driver.quit()] the run comes to, [write] how the
    block that writes the file ends when it is entered *)
Definition main_with (target : nat) (p : prologue)
           (quit write : Py.result unit) : outcome :=
  match p with
  | EarlyReturn | Collected [] =>
      quit_then quit {| persisted := []; exit := Returned |}
  | Broke e => {| persisted := []; exit := Uncaught e |}
  | Collected urls =>
      match crawl target urls [] with
      | (dataset, Py.Ret _) =>
          quit_then quit
            match dataset with
            | [] => {| persisted := []; exit := Returned |}
            | _ :: _ =>
                {| persisted := [(dataset, write)];
                   exit := match write with
                           | Py.Ret _ => Returned
                           | Py.Raise e => Uncaught e
                           end |}
            end
      | (_, Py.Raise e) => {| persisted := []; exit := Uncaught e |}
      end
  end.

Definition main : prologue -> Py.result unit -> Py.result unit -> outcome :=
  main_with POSTS_TO_SCRAPE.

End Gab14.

(** ** [4chan/updated_4_chan_scraper.py] *)

Module FourChan.

(** an [article] element as the scraper queries it *)
Record article := {
  id_attr : option string;                  (* get_attribute(id) *)
  poster_hash : Py.result string;           (* find_element(span.poster_hash).text *)
  div_text : Py.result string;              (* find_element(div.text).text *)
  time_tag : Py.result (string * option string);  (* the time element: .text and its datetime *)
  img_srcs : list (option string)           (* the src of each matched img, in document order *)
}.

Record thread_page := {
  load : Py.result unit;        (* driver.get, the banner script, the 20 s wait *)
  thread_article : Py.result article;       (* find_element(article.clearfix.thread) *)
  reply_articles : list article             (* find_elements(aside.posts article) *)
}.

Record archive_page := {
  load_archive : Py.result unit;
  thread_ids : list (option string)         (* the id of each article.clearfix.thread *)
}.

Record reply := {
  reply_id : option string;
  reply_text : option string;
  reply_timestamp_raw : option string;
  reply_timestamp_iso : option string;
  reply_image_urls : list string
}.

Record thread := {
  post_id : option string;
  post_url : string;
  author_id : option string;
  text : option string;
  timestamp_raw : option string;
  timestamp_iso : option string;
  image_urls : list string;
  reply_count : nat;
  replies : list reply
}.

(** [get_thread_urls_from_archive_page]: the URLs, [[]] on an
    [Exception] *)
Definition thread_url_of (post_id : string) : string :=
  "https://archive.4plebs.org/pol/thread/" ++ post_id ++ "/".

Definition get_thread_urls_from_archive_page (pg : archive_page)
  : Py.result (list string) :=
  match load_archive pg with
  | Py.Ret _ =>
      Py.Ret (omap (fun i => match i with
                             | Some (String c r) => Some (thread_url_of (String c r))
                             | _ => None
                             end) (thread_ids pg))
  | Py.Raise e => if Py.is_Exception e then Py.Ret [] else Py.Raise e
  end.

(** [[url.replace(s.jpg, .jpg) if url.endswith(s.jpg) else url for url
    in urls]]; a missing [src] makes [endswith] raise *)
Definition fix_url (url : string) : string :=
  if Str.ends_with "s.jpg" url then Str.replace "s.jpg" ".jpg" url else url.

Fixpoint fix_image_urls (urls : list (option string))
  : Py.result (list string) :=
  match urls with
  | [] => Py.Ret []
  | None :: _ => Py.Raise Py.AttributeError
  | Some url :: rest =>
      let* fixed := fix_image_urls rest in
      Py.Ret (fix_url url :: fixed)
  end.

(** [try: x = ... except: x = None], the bare [except] *)
Definition or_none {A} (m : Py.result A) : option A :=
  match m with
  | Py.Ret a => Some a
  | Py.Raise _ => None
  end.

Definition scrape_reply (ra : article) : Py.result reply :=
  let* imgs := fix_image_urls (img_srcs ra) in
  Py.Ret {| reply_id := id_attr ra;
            reply_text := or_none (let* t := div_text ra in Py.Ret (Str.strip t));
            reply_timestamp_raw :=
              match time_tag ra with Py.Ret (t, _) => Some t | Py.Raise _ => None end;
            reply_timestamp_iso :=
              match time_tag ra with Py.Ret (_, d) => d | Py.Raise _ => None end;
            reply_image_urls := imgs |}.

Fixpoint scrape_reply_list (l : list article) : Py.result (list reply) :=
  match l with
  | [] => Py.Ret []
  | ra :: rest =>
      let* r := scrape_reply ra in
      let* rs := scrape_reply_list rest in
      Py.Ret (r :: rs)
  end.

(** the body of the [try] of [scrape_pol_thread] *)
Definition scrape_body (thread_url : string) (pg : thread_page)
  : Py.result thread :=
  let* _ := load pg in
  let* th := thread_article pg in
  let* imgs := fix_image_urls (img_srcs th) in
  let* rs := scrape_reply_list (reply_articles pg) in
  Py.Ret {| post_id := id_attr th;
            post_url := thread_url;
            author_id :=
              or_none (let* t := poster_hash th in
                       Py.Ret (Str.strip (Str.replace "ID:" "" t)));
            text := or_none (let* t := div_text th in Py.Ret (Str.strip t));
            timestamp_raw :=
              match time_tag th with Py.Ret (t, _) => Some t | Py.Raise _ => None end;
            timestamp_iso :=
              match time_tag th with Py.Ret (_, d) => d | Py.Raise _ => None end;
            image_urls := imgs;
            reply_count := List.length (reply_articles pg);
            replies := rs |}.

(** [scrape_pol_thread]: the dictionary, or [None] for the empty
    dictionary returned on an [Exception] *)
Definition scrape_pol_thread (thread_url : string) (pg : thread_page)
  : Py.result (option thread) :=
  match scrape_body thread_url pg with
  | Py.Ret t => Py.Ret (Some t)
  | Py.Raise e => if Py.is_Exception e then Py.Ret None else Py.Raise e
  end.

(** *** The [__main__] block *)

Record world := {
  archive_at : string -> archive_page;
  thread_at : string -> thread_page
}.

Definition base_archive_url : string :=
  "https://archive.4plebs.org/pol/timetravel/2025-07-07_18:34:00/".
Definition target_posts : nat := 1000.
Definition posts_per_page : nat := 10.

Definition num_pages_to_scrape (target : nat) : nat :=
  (target + posts_per_page - 1) / posts_per_page.

Definition archive_page_url (page_num : nat) : string :=
  if Nat.eqb page_num 1 then base_archive_url
  else Str.rstrip_char "/" base_archive_url ++ "/"
       ++ DateTime.pad 1 (Z.of_nat page_num) ++ "/".

(** the inner loop over [thread_urls_on_page] *)
Fixpoint scrape_threads (w : world) (target : nat) (urls : list string)
         (all_scraped_data : list thread) : list thread * Py.result unit :=
  match urls with
  | [] => (all_scraped_data, Py.Ret tt)
  | thread_url :: rest =>
      if Nat.leb target (List.length all_scraped_data)
      then (all_scraped_data, Py.Ret tt)
      else
        match scrape_pol_thread thread_url (thread_at w thread_url) with
        | Py.Raise e => (all_scraped_data, Py.Raise e)
        | Py.Ret (Some data) =>
            scrape_threads w target rest (all_scraped_data ++ [data])%list
        | Py.Ret None => scrape_threads w target rest all_scraped_data
        end
  end.

(** the outer loop over [page_num] *)
Fixpoint scrape_pages (w : world) (target : nat) (page_nums : list nat)
         (all_scraped_data : list thread) : list thread * Py.result unit :=
  match page_nums with
  | [] => (all_scraped_data, Py.Ret tt)
  | page_num :: rest =>
      if Nat.leb target (List.length all_scraped_data)
      then (all_scraped_data, Py.Ret tt)
      else
        match get_thread_urls_from_archive_page
                (archive_at w (archive_page_url page_num)) with
        | Py.Raise e => (all_scraped_data, Py.Raise e)
        | Py.Ret [] => (all_scraped_data, Py.Ret tt)
        | Py.Ret urls =>
            match scrape_threads w target urls all_scraped_data with
            | (data, Py.Ret _) => scrape_pages w target rest data
            | (data, Py.Raise e) => (data, Py.Raise e)
            end
        end
  end.

Inductive exit_status :=
| Returned
| Uncaught (e : Py.exn).

Record outcome := {
  persisted : list (list thread);   (* the json.dump calls of the finally block *)
  exit : exit_status
}.

Definition run (w : world) (target : nat) : outcome :=
  let '(all_scraped_data, r) :=
    scrape_pages w target (List.seq 1 (num_pages_to_scrape target)) [] in
  {| persisted := match all_scraped_data with
                  | [] => []
                  | _ :: _ => [List.firstn target all_scraped_data]
                  end;
     exit := match r with
             | Py.Ret _ => Returned
             | Py.Raise e => if Py.is_Exception e then Returned else Uncaught e
             end |}.

Definition main (w : world) : outcome := run w target_posts.

End FourChan.

(** ** Scrolling: [scroll_to_end] of [gab_scraper_14.py],
    [scroll_element_to_end] and the choice of a comment container in
    [gab/gab_past_post_rescraper.py] *)

Module Scroll.

(** what the window, or a container element, answers: the outcome of the
    scroll script run after [k] scrolls that changed the height, and the
    height read after [k] scrolls *)
Record scrollable := {
  scroll : nat -> Py.result unit;
  height : nat -> Py.result Z
}.

(** the loop [while scroll_count < max_scrolls], entered with
    [remaining = max_scrolls - scroll_count]; with its outcome it gives the
    number of scroll scripts it has run *)
Fixpoint scroll_loop (t : scrollable) (remaining scroll_count : nat)
         (last_height : Z) : nat * Py.result unit :=
  match remaining with
  | O => (scroll_count, Py.Ret tt)
  | S remaining' =>
      match scroll t scroll_count with
      | Py.Raise e => (S scroll_count, Py.Raise e)
      | Py.Ret _ =>
          match height t (S scroll_count) with
          | Py.Raise e => (S scroll_count, Py.Raise e)
          | Py.Ret new_height =>
              if new_height =? last_height then (S scroll_count, Py.Ret tt)
              else scroll_loop t remaining' (S scroll_count) new_height
          end
      end
  end.

(** [scroll_to_end(driver, max_scrolls=...)] of [gab_scraper_14.py] *)
Definition MAX_SCROLLS : nat := 10.

Definition scroll_to_end (t : scrollable) (max_scrolls : nat)
  : nat * Py.result unit :=
  match height t 0 with
  | Py.Raise e => (O, Py.Raise e)
  | Py.Ret last_height => scroll_loop t max_scrolls 0 last_height
  end.

(** a candidate container: the 10 s wait for the element, then the
    element as a scrollable thing *)
Record container := {
  located : Py.result unit;
  content : scrollable
}.

(** [scroll_element_to_end(driver, element_xpath, max_scrolls=...)] *)
Definition scroll_element_to_end (c : container) (max_scrolls : nat)
  : nat * Py.result bool :=
  let '(n, r) :=
    match located c with
    | Py.Raise e => (O, Py.Raise e)
    | Py.Ret _ => scroll_to_end (content c) max_scrolls
    end in
  (n, match r with
      | Py.Ret _ => Py.Ret true
      | Py.Raise e => if Py.is_Exception e then Py.Ret false else Py.Raise e
      end).

(** the loop over [comment_section_xpaths], which stops at the first
    container that could be scrolled *)
Fixpoint scroll_first (containers : list container) : nat * Py.result bool :=
  match containers with
  | [] => (O, Py.Ret false)
  | c :: rest =>
      match scroll_element_to_end c 7 with
      | (n, Py.Ret true) => (n, Py.Ret true)
      | (n, Py.Ret false) =>
          let '(m, r) := scroll_first rest in ((n + m)%nat, r)
      | (n, Py.Raise e) => (n, Py.Raise e)
      end
  end.

(** ... followed by the scroll of the window when none could *)
Definition scroll_comments (containers : list container)
           (window_scroll : Py.result unit) : nat * Py.result unit :=
  match scroll_first containers with
  | (n, Py.Ret true) => (n, Py.Ret tt)
  | (n, Py.Ret false) => (S n, window_scroll)
  | (n, Py.Raise e) => (n, Py.Raise e)
  end.

End Scroll.

(** ** The URLs to visit: the collection loop of [main] in
    [gab_scraper_14.py] *)

Module Explore.

Definition TARGET_SUBSTRING : string := "/posts/".

(** a link element of the Explore page, as the loop reads it: the value
    of [urljoin(driver.current_url, link_elem.get_attribute('href'))], or
    the exception one of the two calls raises *)
Definition link := Py.result string.

(** [''.join(c for c in url if not c.isspace()).strip()] *)
Definition normalize (url : string) : string :=
  Str.strip (Text.filter (fun c => negb (Str.is_space c)) url).

(** [url.split('/posts/')[-1].split('/')[0].split('#')[0].split('?')[0]] *)
Definition post_id_candidate (url : string) : string :=
  Str.first_piece (Str.split "?"
    (Str.first_piece (Str.split "#"
      (Str.first_piece (Str.split "/"
        (Str.last_piece (Str.split "/posts/" url))))))).

(** the two nested tests of the loop body *)
Definition accepted (url : string) (processed_urls : gset string) : bool :=
  if (negb (String.eqb url "") && Text.occurs TARGET_SUBSTRING url
      && Str.starts_with "https://gab.com/" url)%bool
  then (Nat.ltb 5 (String.length (post_id_candidate url))
        && Text.isalnum (post_id_candidate url)
        && negb (bool_decide (url ∈ processed_urls)))%bool
  else false.

(** how one pass over [current_link_elements] ends *)
Inductive pass_end :=
| Finished (unique_post_urls : list string)
| Stale                      (* StaleElementReferenceException: start again *)
| Interrupted (e : Py.exn).  (* not an Exception: nothing catches it *)

(** the [while] loop from position [i], with [elements] the elements from
    [i] on, up to its end or to the next restart *)
Fixpoint pass (target : nat) (elements : list link)
         (unique_post_urls : list string) (processed_urls : gset string)
  : pass_end :=
  match elements with
  | [] => Finished unique_post_urls
  | link_elem :: rest =>
      if Nat.ltb (List.length unique_post_urls) target then
        match link_elem with
        | Py.Ret joined =>
            let url := normalize joined in
            if accepted url processed_urls
            then pass target rest (unique_post_urls ++ [url])%list
                      ({[url]} ∪ processed_urls)
            else pass target rest unique_post_urls processed_urls
        | Py.Raise Py.StaleElementReferenceException => Stale
        | Py.Raise e =>
            if Py.is_Exception e
            then pass target rest unique_post_urls processed_urls
            else Interrupted e
        end
      else Finished unique_post_urls
  end.

(** the loop with its restarts: [find_links k] is what the [k]-th call of
    [driver.find_elements] gives.  Each restart empties both collections
    and reads the links anew; nothing bounds the number of restarts, so the
    loop is run on [fuel], one unit per reading. *)
Fixpoint collect (fuel : nat) (target : nat)
         (find_links : nat -> Py.result (list link)) (k : nat)
  : option (Py.result (list string)) :=
  match fuel with
  | O => None
  | S fuel' =>
      match find_links k with
      | Py.Raise e => Some (Py.Raise e)
      | Py.Ret current_link_elements =>
          match pass target current_link_elements [] ∅ with
          | Finished unique_post_urls => Some (Py.Ret unique_post_urls)
          | Stale => collect fuel' target find_links (S k)
          | Interrupted e => Some (Py.Raise e)
          end
      end
  end.

End Explore.

(** ** The replies section of [get_post_details] in [gab_scraper_14.py] *)

Module Gab14Replies.

Import DateTime Markup.

(** the link to the author's profile inside a reply element *)
Record author_link := {
  name_text : Py.result string;            (* the 3 s wait on the five name strategies, then .text *)
  handle_text : Py.result (option string); (* find_elements(span with an at sign): the .text of the first, None when there is none *)
  link_text : Py.result string;            (* reply_author_link.text *)
  aria_label : Py.result (option string)   (* get_attribute('aria-label') *)
}.

Record reply_element := {
  probe : Py.result bool;                  (* the filter: an author link and a text element are found *)
  profile_link : Py.result author_link;    (* the 7 s wait for the author link *)
  text_body : Py.result string;            (* the 7 s wait on the six text strategies, then .text *)
  time_elem : Py.result Gab14.time_element;(* the 5 s wait on the three timestamp strategies *)
  data_comment : Py.result (option string);
  data_id : Py.result (option string);
  outer_html : Py.result (option string)
}.

Record replies_view := {
  reply_wait : Py.result unit;             (* the 20 s wait for a reply element *)
  reply_elements : Py.result (list reply_element);
  str_hash : string -> Z                   (* hash() on str, fixed for the run *)
}.

(** [r'@(\w+)'] *)
Definition handle_pattern : Re.regex :=
  cat [ch "@"; Re.Grp 1 (Re.Many1 Gab14.is_word)].

(** ["@" + match.group(1).strip()] for the first handle in [text];
    [None] when [re.search] finds none *)
Definition handle_in (text : string) : Py.result (option string) :=
  match Re.search handle_pattern text with
  | Some m =>
      match Re.group 1 m with
      | Some g => Py.Ret (Some ("@" ++ Str.strip g))
      | None => Py.Raise Py.AttributeError
      end
  | None => Py.Ret None
  end.

(** [not reply_author or reply_author == "N/A"
     or not reply_author.startswith('@')] *)
Definition unresolved (reply_author : string) : bool :=
  (String.eqb reply_author "" || String.eqb reply_author "N/A"
   || negb (Str.starts_with "@" reply_author))%bool.

(** the inner [try]: the displayed name, or the first span with an at
    sign *)
Definition from_name (a : author_link) : Py.result string :=
  Py.try_except
    (let* t := name_text a in
     let potential_username := Str.strip t in
     if Str.starts_with "@" potential_username then Py.Ret potential_username
     else
       let* h := handle_text a in
       match h with
       | Some ht =>
           let reply_author := Str.strip ht in
           Py.Ret (if Str.starts_with "@" reply_author then reply_author
                   else "@" ++ reply_author)
       | None => Py.Ret "N/A"
       end)
    [Py.TimeoutException; Py.NoSuchElementException] (Py.Ret "N/A").

(** the text of the link *)
Definition from_link_text (a : author_link) (reply_author : string)
  : Py.result string :=
  if unresolved reply_author then
    let* t := link_text a in
    let link_text := Str.strip t in
    if String.eqb link_text "" then Py.Ret reply_author
    else
      let* h := handle_in link_text in
      match h with
      | Some handle => Py.Ret handle
      | None =>
          Py.Ret (if Str.starts_with "@" link_text then reply_author
                  else "@" ++ Str.remove " " link_text)
      end
  else Py.Ret reply_author.

(** the [aria-label] of the link *)
Definition from_aria_label (a : author_link) (reply_author : string)
  : Py.result string :=
  if unresolved reply_author then
    let* l := aria_label a in
    match l with
    | Some (String c r) =>
        let* h := handle_in (String c r) in
        match h with
        | Some handle => Py.Ret handle
        | None => Py.Ret reply_author
        end
    | _ => Py.Ret reply_author
    end
  else Py.Ret reply_author.

(** the last test: a name without an at sign gets one *)
Definition with_at (reply_author : string) : string :=
  if (negb (String.eqb reply_author "")
      && negb (Str.starts_with "@" reply_author)
      && negb (String.eqb reply_author "N/A"))%bool
  then "@" ++ Str.remove " " reply_author
  else reply_author.

Definition scrape_reply_author (link : Py.result author_link)
  : Py.result string :=
  match (let* a := link in
         let* r1 := from_name a in
         let* r2 := from_link_text a r1 in
         let* r3 := from_aria_label a r2 in
         Py.Ret (with_at r3)) with
  | Py.Ret reply_author => Py.Ret reply_author
  | Py.Raise Py.TimeoutException | Py.Raise Py.NoSuchElementException =>
      Py.Ret "N/A (Timeout/Not Found)"
  | Py.Raise e => if Py.is_Exception e then Py.Ret "Error" else Py.Raise e
  end.

Definition scrape_reply_text (b : Py.result string) : Py.result string :=
  match b with
  | Py.Ret t => Py.Ret (Str.strip t)
  | Py.Raise Py.TimeoutException | Py.Raise Py.NoSuchElementException =>
      Py.Ret "No text found (Timeout/Not Found)."
  | Py.Raise e =>
      if Py.is_Exception e then Py.Ret "Error retrieving text."
      else Py.Raise e
  end.

Definition scrape_reply_timestamp (t : Py.result Gab14.time_element)
  : Py.result string :=
  match t with
  | Py.Ret te =>
      Py.Ret (Gab14.or_text (Gab14.datetime_attr te)
                            (Str.strip (Gab14.time_text te)))
  | Py.Raise Py.TimeoutException | Py.Raise Py.NoSuchElementException =>
      Py.Ret "N/A (Timeout/Not Found)"
  | Py.Raise e => if Py.is_Exception e then Py.Ret "Error" else Py.Raise e
  end.

(** [get_attribute('data-comment') or get_attribute('data-id')], and the
    made-up identifier when both are missing or empty *)
Definition scrape_reply_id (v : replies_view) (i : nat)
           (reply_text reply_author : string) (el : reply_element)
  : Py.result string :=
  let* c := data_comment el in
  let* reply_id :=
    match c with
    | Some (String _ _) => Py.Ret c
    | _ => data_id el
    end in
  match reply_id with
  | Some (String a r) => Py.Ret (String a r)
  | _ =>
      Py.Ret ("reply_" ++ pad 1 (Z.of_nat i) ++ "_"
              ++ pad 1 (Z.abs (str_hash v (reply_text ++ reply_author))))
  end.

(** [(\d[\d,.]*[KMBTkmb]?)\s*(?:Likes|Reactions)] under [re.IGNORECASE] *)
Definition reply_likes_pattern : Re.regex :=
  cat [number_i; ws0; Re.Alt (Re.lit_i "Likes") (Re.lit_i "Reactions")].

(** the likes of a reply stay 0 when anything goes wrong; a missing
    [outerHTML] makes [re.search] raise a [TypeError], an [Exception] like
    any other here *)
Definition scrape_reply_likes (html : Py.result (option string))
  : Py.result Z :=
  match (let* h := html in
         match h with
         | Some s => count_of (Re.search reply_likes_pattern s)
         | None => Py.Raise Py.OtherException
         end) with
  | Py.Ret n => Py.Ret n
  | Py.Raise e => if Py.is_Exception e then Py.Ret 0 else Py.Raise e
  end.

(** the body of the loop over [filtered_replies]; [None] when the reply is
    skipped *)
Definition scrape_reply (v : replies_view) (i : nat) (el : reply_element)
  : Py.result (option Gab14.reply) :=
  match (let* reply_author := scrape_reply_author (profile_link el) in
         let* reply_text := scrape_reply_text (text_body el) in
         let* reply_timestamp := scrape_reply_timestamp (time_elem el) in
         let* reply_id := scrape_reply_id v i reply_text reply_author el in
         let* reply_likes := scrape_reply_likes (outer_html el) in
         Py.Ret {| Gab14.reply_id := reply_id;
                   Gab14.reply_author := reply_author;
                   Gab14.reply_text := reply_text;
                   Gab14.reply_timestamp := reply_timestamp;
                   Gab14.reply_likes := reply_likes |}) with
  | Py.Ret r => Py.Ret (Some r)
  | Py.Raise e => if Py.is_Exception e then Py.Ret None else Py.Raise e
  end.

(** the filtering loop *)
Fixpoint filter_replies (els : list reply_element)
  : Py.result (list reply_element) :=
  match els with
  | [] => Py.Ret []
  | r_elem :: rest =>
      match probe r_elem with
      | Py.Ret true =>
          let* more := filter_replies rest in Py.Ret (r_elem :: more)
      | Py.Ret false => filter_replies rest
      | Py.Raise e =>
          if Py.is_Exception e then filter_replies rest else Py.Raise e
      end
  end.

(** [for i, reply in enumerate(filtered_replies)] from index [i] *)
Fixpoint scrape_from (v : replies_view) (i : nat) (els : list reply_element)
  : Py.result (list Gab14.reply) :=
  match els with
  | [] => Py.Ret []
  | el :: rest =>
      let* r := scrape_reply v i el in
      let* more := scrape_from v (S i) rest in
      Py.Ret match r with
             | Some reply_info => reply_info :: more
             | None => more
             end
  end.

(** the whole [try] block: the list of replies it leaves in the record *)
Definition replies_section (v : replies_view) : Py.result (list Gab14.reply) :=
  match (let* _ := reply_wait v in
         let* els := reply_elements v in
         let* filtered_replies := filter_replies els in
         scrape_from v 0 filtered_replies) with
  | Py.Ret rs => Py.Ret rs
  | Py.Raise e => if Py.is_Exception e then Py.Ret [] else Py.Raise e
  end.

End Gab14Replies.

(** ** JSON values, as [json.load] gives them and [json.dump] writes them *)

Module Json.

#[warnings="-register-all"] Inductive value :=
| JNull
| JBool (b : bool)
| JNumber (literal : string)
| JString (s : string)
| JArray (items : list value)
| JObject (members : list (string * value)).   (* in insertion order *)

(** the members of a dictionary: [get k] finds the value under [k] *)
Fixpoint get (k : string) (members : list (string * value)) : option value :=
  match members with
  | [] => None
  | (k', v) :: rest => if String.eqb k k' then Some v else get k rest
  end.

(** [d[k] = v]: a key that is present keeps its place, a new one goes
    last *)
Fixpoint set (k : string) (v : value) (members : list (string * value))
  : list (string * value) :=
  match members with
  | [] => [(k, v)]
  | (k', v') :: rest =>
      if String.eqb k k' then (k, v) :: rest else (k', v') :: set k v rest
  end.

(** [x[k] = v] on a value known to be a dictionary *)
Definition with_member (k : string) (v : value) (x : value) : value :=
  match x with
  | JObject members => JObject (set k v members)
  | _ => x
  end.

(** [x.get(k, default)]: only a dictionary has the method *)
Definition get_or (x : value) (k : string) (default : value)
  : Py.result value :=
  match x with
  | JObject members =>
      Py.Ret match get k members with
             | Some v => v
             | None => default
             end
  | _ => Py.Raise Py.AttributeError
  end.

(** [for item in x]: the items of a list, the keys of a dictionary, the
    characters of a string; anything else raises [TypeError] (among the
    exceptions of [Py.exn], an [OtherException]) *)
Definition iterate (x : value) : Py.result (list value) :=
  match x with
  | JArray items => Py.Ret items
  | JObject members => Py.Ret (List.map (fun kv => JString (fst kv)) members)
  | JString s => Py.Ret (List.map JString (Text.chars s))
  | _ => Py.Raise Py.OtherException
  end.

(** [len(x)] *)
Definition len (x : value) : Py.result nat :=
  match x with
  | JArray items => Py.Ret (List.length items)
  | JObject members => Py.Ret (List.length members)
  | JString s => Py.Ret (String.length s)
  | _ => Py.Raise Py.OtherException
  end.

(** a list or dictionary whose items were updated in place *)
Definition put_back (container : value) (items : list value) : value :=
  match container with
  | JArray _ => JArray items
  | _ => container
  end.

End Json.

(** ** Computations that count the images they fetch *)

Module Counted.

(** from the number of fetches made so far to that number afterwards and
    a result *)
Definition M (A : Type) : Type := nat -> nat * Py.result A.

Definition ret {A} (a : A) : M A := fun n => (n, Py.Ret a).

Definition bind {A B} (m : M A) (k : A -> M B) : M B :=
  fun n =>
    match m n with
    | (n', Py.Ret a) => k a n'
    | (n', Py.Raise e) => (n', Py.Raise e)
    end.

Definition lift {A} (r : Py.result A) : M A := fun n => (n, r).

(** a loop that turns each item into a new one *)
Fixpoint map_m {A B} (f : A -> M B) (l : list A) : M (list B) :=
  match l with
  | [] => ret []
  | a :: rest =>
      bind (f a) (fun b => bind (map_m f rest) (fun bs => ret (b :: bs)))
  end.

End Counted.

Notation "'let!' x ':=' m 'in' k" := (Counted.bind m (fun x => k))
  (at level 10, x name, m at level 100, k at level 200).

(** ** [gab/gab_ocr_extractor.py] *)

Module GabOcr.

Import Json Counted.

(** the world outside: what downloading the image at [url] and reading
    its text gives on the [n]-th call of [ocr_from_url], and the text
    [str(e)] of the exception when that fails *)
Record world := {
  image_to_string : nat -> value -> Py.result string;
  error_text : nat -> value -> string
}.

Definition ocr_from_url (w : world) (url : value) : M string :=
  fun n =>
    (S n,
     match image_to_string w n url with
     | Py.Ret text => Py.Ret text
     | Py.Raise e =>
         if Py.is_Exception e
         then Py.Ret ("[OCR Error] " ++ error_text w n url)
         else Py.Raise e
     end).

(** the dictionary appended for one image *)
Definition entry (url : value) (text : string) : value :=
  JObject [("url", url); ("ocr_text", JString text)].

(** the loop over the image URLs of a post or of a reply *)
Fixpoint ocr_all (w : world) (urls : list value) : M (list value) :=
  match urls with
  | [] => ret []
  | url :: rest =>
      let! text := ocr_from_url w url in
      let! more := ocr_all w rest in
      ret (entry url text :: more)
  end.

(** the body of the loop over the replies of a post *)
Definition process_reply (w : world) (reply : value) : M value :=
  let! reply_images := lift (get_or reply "image_urls" (JArray [])) in
  let! urls := lift (iterate reply_images) in
  let! texts := ocr_all w urls in
  ret (with_member "reply_ocr_text" (JArray texts) reply).

(** the body of the loop over the posts *)
Definition process_post (w : world) (post : value) : M value :=
  let! post_images := lift (get_or post "image_urls" (JArray [])) in
  let! urls := lift (iterate post_images) in
  let! new_post_images := ocr_all w urls in
  let post' := with_member "image_urls" (JArray new_post_images) post in
  let! replies := lift (get_or post' "replies" (JArray [])) in
  let! items := lift (iterate replies) in
  let! items' := map_m (process_reply w) items in
  ret match post' with
      | JObject members =>
          match get "replies" members with
          | Some (JArray _) => with_member "replies" (JArray items') post'
          | _ => post'
          end
      | _ => post'
      end.

Definition process_data (w : world) (data : value) : M value :=
  let! total_posts := lift (len data) in
  let! posts := lift (iterate data) in
  let! posts' := map_m (process_post w) posts in
  ret (put_back data posts').

Inductive exit_status :=
| Returned
| Uncaught (e : Py.exn).

Record outcome := {
  written : list value;     (* the json.dump calls *)
  fetched : nat;            (* the number of calls of ocr_from_url *)
  exit : exit_status
}.

(** [main]: [infile] is what [json.load] makes of the input file *)
Definition main (w : world) (infile : Py.result value) : outcome :=
  match infile with
  | Py.Raise e => {| written := []; fetched := O; exit := Uncaught e |}
  | Py.Ret data =>
      match process_data w data O with
      | (n, Py.Ret updated_data) =>
          {| written := [updated_data]; fetched := n; exit := Returned |}
      | (n, Py.Raise e) => {| written := []; fetched := n; exit := Uncaught e |}
      end
  end.

End GabOcr.

(** ** [4chan/ocr_extractor.py] *)

Module FourChanOcr.

Import Json Counted.

(** what downloading the image at [url] and reading its text gives on the
    [n]-th call of [extract_image_text_from_url] *)
Definition world := nat -> value -> Py.result string.





Inductive exit_status :=
| Returned
| Uncaught (e : Py.exn).

Record outcome := {
  written : list value;
  fetched : nat;
  exit : exit_status
}.


End FourChanOcr.

(** * Auxiliary definitions and sample inputs *)

(** no finite float built below carries a minus sign *)
Definition unsigned (x : PyFloat.float) : Prop :=
  match x with
  | S754_finite true _ _ => False
  | _ => True
  end.

(** the digit 1 followed by 309 zeros: more than the largest binary64 *)
Definition ten_to_the_309 : string := String "1" (DateTime.zeros 309).

(** three strategies on a page that is just a number: the first raises,
    the second finds 7, the third would find 9 *)
Definition strategy_missing : Resolver.condition unit Z :=
  fun _ => Py.Raise Py.NoSuchElementException.
Definition strategy_seven : Resolver.condition unit Z := fun _ => Py.Ret 7.
Definition strategy_nine : Resolver.condition unit Z := fun _ => Py.Ret 9.
Definition strategy_falsy : Resolver.condition unit Z := fun _ => Py.Ret 0.
Definition nonzero (z : Z) : bool := negb (z =? 0).

(** a computation whose only failure is a [ValueError] *)
Definition only_ValueError {A} (m : Py.result A) : Prop :=
  forall e, m = Py.Raise e -> e = Py.ValueError.

Definition starts_with_char (a : ascii) (s : string) : bool :=
  match s with
  | String c _ => Str.is_char a c
  | EmptyString => false
  end.

(** the text [ (gloss)] that follows the timestamp proper *)
Definition gloss_suffix (c : ascii) (g : string) : string :=
  String " " (String "(" (String c g ++ String ")" EmptyString)).

(** the example of the docstring of [parse_gab_datetime] *)
Definition gab_example_body : string := "Mon Jul 07 2025 07:59:42 GMT-0700".
Definition gab_example : string :=
  "Mon Jul 07 2025 07:59:42 GMT-0700 (Pacific Daylight Time)".

Definition q : string := String Markup.dquote EmptyString.

Definition sample_image : string :=
  "https://m3.gab.com/media_attachments/files/170/001/original/a1b2.jpg".

(** a post whose markup shows the same image twice *)
Definition sample_html : string :=
  "<div data-id=" ++ q ++ "114812345678901234" ++ q ++ "><img src=" ++ q
  ++ sample_image ++ q ++ "><a><img src=" ++ q ++ sample_image ++ q
  ++ "></a></div>".

Definition sample_url : string :=
  "https://gab.com/someone/posts/114812345678901234".

Definition sample_time : Rescraper.time_element :=
  {| Rescraper.datetime_attr := Some gab_example;
     Rescraper.time_text := "1y" |}.

Definition sample_reply_time : Rescraper.reply_time_element :=
  {| Rescraper.reply_datetime_attr := Py.Ret (Some gab_example);
     Rescraper.reply_time_text := Py.Ret "1y" |}.

Definition sample_reply_element : Rescraper.reply_element :=
  {| Rescraper.data_comment := Py.Ret (Some "114812345678909999");
     Rescraper.reply_body := Py.Ret "Well said";
     Rescraper.reply_time := Py.Ret sample_reply_time;
     Rescraper.reply_outer_html := Py.Ret (Some sample_html) |}.

Definition sample_main : Rescraper.main_element :=
  {| Rescraper.body := Py.Ret "A first post about nothing in particular";
     Rescraper.outer_html := Py.Ret (Some sample_html);
     Rescraper.time_elem := Py.Ret sample_time |}.

Definition sample_now : DateTime.datetime :=
  DateTime.mk_datetime 2026 11 3 12 0 0 0 (Some 0).

Definition sample_page : Rescraper.page :=
  {| Rescraper.open_post := fun _ => Py.Ret tt;
     Rescraper.main_post := fun _ => Py.Ret sample_main;
     Rescraper.now := sample_now;
     Rescraper.page_source := Py.Ret "12 Reposts 3 Quotes 1.2K views";
     Rescraper.scroll_comments := Py.Ret tt;
     Rescraper.reply_wait := Py.Ret tt;
     Rescraper.reply_elements :=
       Py.Ret [sample_reply_element; sample_reply_element] |}.

Definition sample_reply : Rescraper.reply :=
  {| Rescraper.reply_id := "114812345678909999";
     Rescraper.reply_text := "Well said";
     Rescraper.reply_timestamp_raw := Some gab_example;
     Rescraper.reply_age_text := "1y";
     Rescraper.reply_timestamp_iso := Some "2025-07-07T07:59:42-07:00";
     Rescraper.reply_image_urls := [sample_image] |}.

Definition sample_post : Rescraper.post :=
  {| Rescraper.post_id := "114812345678901234";
     Rescraper.post_url := sample_url;
     Rescraper.image_urls := [sample_image];
     Rescraper.replies := [sample_reply];
     Rescraper.author_username := "@someone";
     Rescraper.text := "A first post about nothing in particular";
     Rescraper.timestamp := gab_example;
     Rescraper.timestamp_iso := "2025-07-07T07:59:42-07:00";
     Rescraper.likes := 0;
     Rescraper.reposts_count := 12;
     Rescraper.quotes_count := 3;
     Rescraper.views := 1200 |}.

(** the same page with a relative age where the timestamp should be *)
Definition undated_page : Rescraper.page :=
  {| Rescraper.open_post := fun _ => Py.Ret tt;
     Rescraper.main_post := fun _ =>
       Py.Ret {| Rescraper.body := Rescraper.body sample_main;
                 Rescraper.outer_html := Rescraper.outer_html sample_main;
                 Rescraper.time_elem :=
                   Py.Ret {| Rescraper.datetime_attr := None;
                             Rescraper.time_text := "2h" |} |};
     Rescraper.now := sample_now;
     Rescraper.page_source := Py.Ret "12 Reposts 3 Quotes 1.2K views";
     Rescraper.scroll_comments := Py.Ret tt;
     Rescraper.reply_wait := Py.Ret tt;
     Rescraper.reply_elements := Py.Ret [] |}.

(** two renderings of one 4chan thread URL whose root article carries
    different [id] attributes *)
Definition thread_url_example : string :=
  "https://archive.4plebs.org/pol/thread/509876543/".

Definition article_with_id (i : string) (srcs : list (option string))
  : FourChan.article :=
  {| FourChan.id_attr := Some i;
     FourChan.poster_hash := Py.Ret "ID:AbCdEfGh";
     FourChan.div_text := Py.Ret "first post";
     FourChan.time_tag := Py.Ret ("Mon 07 Jul 2025 18:30:11", Some "2025-07-07T18:30:11+00:00");
     FourChan.img_srcs := srcs |}.

Definition thread_page_with (i : string) (srcs : list (option string))
  : FourChan.thread_page :=
  {| FourChan.load := Py.Ret tt;
     FourChan.thread_article := Py.Ret (article_with_id i srcs);
     FourChan.reply_articles := [] |}.

Definition option_of {A} (m : Py.result (option A)) : option A :=
  match m with
  | Py.Ret o => o
  | Py.Raise _ => None
  end.

Definition thumb_example : string :=
  "https://i.4pcdn.org/pol/1751913011123s.jpg".
Definition full_example : string :=
  "https://i.4pcdn.org/pol/1751913011123.jpg".

Definition sample_main14 : Gab14.main_element :=
  {| Gab14.body := Py.Ret "A first post about nothing in particular";
     Gab14.outer_html := Py.Ret (Some sample_html);
     Gab14.time_elem :=
       Py.Ret {| Gab14.datetime_attr := None; Gab14.time_text := " 2h " |} |}.

Definition sample_page14 : Gab14.page :=
  {| Gab14.open_post := fun _ => Py.Ret tt;
     Gab14.main_post := fun _ => Py.Ret sample_main14;
     Gab14.page_source := Py.Ret "12 Reposts 3 Quotes 1.2K&nbsp;views";
     Gab14.replies_built := Py.Ret [] |}.

Definition sample_post14 : Gab14.post :=
  {| Gab14.post_id := "114812345678901234";
     Gab14.post_url := sample_url;
     Gab14.image_urls := [sample_image];
     Gab14.replies := [];
     Gab14.author_username := "@someone";
     Gab14.text := "A first post about nothing in particular";
     Gab14.timestamp := "2h";
     Gab14.likes := 0;
     Gab14.reposts_count := 12;
     Gab14.quotes_count := 3;
     Gab14.views := 1200 |}.

(** the URL of the [i]-th post of a list, and a list of [n] visits that
    all show a well-formed post *)
Definition nth_url (i : nat) : string :=
  "https://gab.com/someone/posts/"
  ++ DateTime.pad 18 (114812345678900000 + Z.of_nat i).

Definition good_visits (n : nat) : list (string * Rescraper.visit) :=
  List.map (fun i => (nth_url i, Rescraper.Tab sample_page)) (List.seq 1 n).

(** a record of the rescraper whose normalized timestamp is what
    [parse_gab_datetime] makes of its raw timestamp *)
Definition dated (p : Rescraper.post) : Prop :=
  Rescraper.parse_gab_datetime (Some (Rescraper.timestamp p))
  = Py.Ret (Some (Rescraper.timestamp_iso p)).

(** the offset [sHHMM] of a timestamp, as [%z] reads it and [isoformat]
    writes it back *)
Definition offset_round (negative : bool) (hh mm : Z) : Py.result string :=
  let* o := DateTime.parse_z ((if negative then "-" else "+")
                              ++ DateTime.pad 2 hh ++ DateTime.pad 2 mm) in
  Py.Ret (DateTime.format_offset o).

Definition offset_text (negative : bool) (hh mm : Z) : string :=
  (if (negative && negb ((hh =? 0) && (mm =? 0)))%bool then "-" else "+")
  ++ DateTime.pad 2 hh ++ ":" ++ DateTime.pad 2 mm.

Definition offset_kept (negative : bool) (hh mm : Z) : bool :=
  match offset_round negative hh mm with
  | Py.Ret s => String.eqb s (offset_text negative hh mm)
  | Py.Raise _ => false
  end.

(** [f] holds at [0], ..., [n - 1] *)
Fixpoint all_below (n : nat) (f : Z -> bool) : bool :=
  match n with
  | O => true
  | S k => (f (Z.of_nat k) && all_below k f)%bool
  end.

Definition offsets_checked (negative : bool) : bool :=
  all_below 24 (fun h => all_below 60 (fun m => offset_kept negative h m)).

(** ** Further auxiliary definitions and sample inputs *)

(** the sample page read when the clock shows the first day of 2020,
    before the post was written *)
Definition early_page : Rescraper.page :=
  {| Rescraper.open_post := Rescraper.open_post sample_page;
     Rescraper.main_post := Rescraper.main_post sample_page;
     Rescraper.now := DateTime.mk_datetime 2020 1 1 0 0 0 0 (Some 0);
     Rescraper.page_source := Rescraper.page_source sample_page;
     Rescraper.scroll_comments := Rescraper.scroll_comments sample_page;
     Rescraper.reply_wait := Rescraper.reply_wait sample_page;
     Rescraper.reply_elements := Rescraper.reply_elements sample_page |}.

Definition sample_instant : DateTime.datetime :=
  DateTime.mk_datetime 2025 7 7 7 59 42 0 (Some (- 25200000000)).



(** a page of [gab_scraper_14.py] whose root element answers the
    timestamp wait with [t] *)
Definition retimed (pg : Gab14.page) (t : Py.result Gab14.time_element)
  : Gab14.page :=
  {| Gab14.open_post := Gab14.open_post pg;
     Gab14.main_post := fun pid =>
       let* el := Gab14.main_post pg pid in
       Py.Ret {| Gab14.body := Gab14.body el;
                 Gab14.outer_html := Gab14.outer_html el;
                 Gab14.time_elem := t |};
     Gab14.page_source := Gab14.page_source pg;
     Gab14.replies_built := Gab14.replies_built pg |}.

(** a record with another timestamp *)
Definition with_timestamp (p : Gab14.post) (stamp : string) : Gab14.post :=
  {| Gab14.post_id := Gab14.post_id p;
     Gab14.post_url := Gab14.post_url p;
     Gab14.image_urls := Gab14.image_urls p;
     Gab14.replies := Gab14.replies p;
     Gab14.author_username := Gab14.author_username p;
     Gab14.text := Gab14.text p;
     Gab14.timestamp := stamp;
     Gab14.likes := Gab14.likes p;
     Gab14.reposts_count := Gab14.reposts_count p;
     Gab14.quotes_count := Gab14.quotes_count p;
     Gab14.views := Gab14.views p |}.

(** a thread whose second reply shows an image without a [src] *)
Definition srcless_thread_page : FourChan.thread_page :=
  {| FourChan.load := Py.Ret tt;
     FourChan.thread_article := Py.Ret (article_with_id "509876543" [Some full_example]);
     FourChan.reply_articles :=
       [article_with_id "509876544" []; article_with_id "509876545" [None]] |}.

Definition strategy_interrupted : Resolver.condition unit Z :=
  fun _ => Py.Raise Py.KeyboardInterrupt.

(** a feed whose height grows once, from 100 to 200, and then stays *)
Definition short_feed : Scroll.scrollable :=
  {| Scroll.scroll := fun _ => Py.Ret tt;
     Scroll.height := fun k => Py.Ret (if Nat.eqb k 0 then 100 else 200) |}.

(** a comment container that is not on the page *)
Definition absent_container : Scroll.container :=
  {| Scroll.located := Py.Raise Py.TimeoutException;
     Scroll.content := short_feed |}.

(** a URL the collection loop keeps *)
Definition collectable (url : string) : Prop :=
  Str.starts_with "https://gab.com/" url = true
  /\ Text.occurs "/posts/" url = true
  /\ Text.any_char Str.is_space url = false
  /\ (5 < String.length (Explore.post_id_candidate url))%nat
  /\ Text.isalnum (Explore.post_id_candidate url) = true.

(** what a pass of the collection loop keeps: no duplicate, every URL
    recorded as processed, at most [target] URLs, each of them collectable *)
Definition kept (target : nat) (urls : list string) (processed : gset string)
  : Prop :=
  NoDup urls /\ (forall u, u ∈ urls -> u ∈ processed)
  /\ (List.length urls <= target)%nat /\ Forall collectable urls.

(** an Explore page whose first reading goes stale at its second link *)
Definition stale_once (k : nat) : Py.result (list Explore.link) :=
  match k with
  | O => Py.Ret [Py.Ret sample_url; Py.Raise Py.StaleElementReferenceException]
  | _ => Py.Ret [Py.Ret " https://gab.com/someone/posts/114812345678901234 ";
                 Py.Ret "https://gab.com/about";
                 Py.Raise Py.WebDriverException;
                 Py.Ret sample_url;
                 Py.Ret "https://gab.com/other/posts/114812345678905555?x=1"]
  end.

(** the author of a reply is a handle or one of the three markers *)
Definition handle_or_marker (reply_author : string) : Prop :=
  In reply_author ["N/A"; "N/A (Timeout/Not Found)"; "Error"]
  \/ Str.starts_with "@" reply_author = true.

(** ... and before the markers are set, a handle or the initial value *)
Definition settled (reply_author : string) : Prop :=
  reply_author = "N/A" \/ Str.starts_with "@" reply_author = true.

(** a reply whose profile link shows a display name and, in a span, the
    handle without its at sign *)
Definition sample_author_link : Gab14Replies.author_link :=
  {| Gab14Replies.name_text := Py.Ret "Some One";
     Gab14Replies.handle_text := Py.Ret (Some " someone ");
     Gab14Replies.link_text := Py.Ret "Some One @someone";
     Gab14Replies.aria_label := Py.Ret None |}.

Definition sample_reply_element14 : Gab14Replies.reply_element :=
  {| Gab14Replies.probe := Py.Ret true;
     Gab14Replies.profile_link := Py.Ret sample_author_link;
     Gab14Replies.text_body := Py.Ret " Well said ";
     Gab14Replies.time_elem :=
       Py.Ret {| Gab14.datetime_attr := None; Gab14.time_text := "3h" |};
     Gab14Replies.data_comment := Py.Ret None;
     Gab14Replies.data_id := Py.Ret (Some "114812345678909999");
     Gab14Replies.outer_html :=
       Py.Ret (Some ("<div>Well said <span>" ++ ten_to_the_309
                     ++ " Likes</span></div>")) |}.

(** a reply element gone stale when its attributes are read *)
Definition stale_reply_element14 : Gab14Replies.reply_element :=
  {| Gab14Replies.probe := Py.Ret true;
     Gab14Replies.profile_link := Py.Raise Py.TimeoutException;
     Gab14Replies.text_body := Py.Raise Py.NoSuchElementException;
     Gab14Replies.time_elem := Py.Raise Py.WebDriverException;
     Gab14Replies.data_comment := Py.Raise Py.StaleElementReferenceException;
     Gab14Replies.data_id := Py.Ret None;
     Gab14Replies.outer_html := Py.Ret None |}.

Definition sample_replies_view : Gab14Replies.replies_view :=
  {| Gab14Replies.reply_wait := Py.Ret tt;
     Gab14Replies.reply_elements :=
       Py.Ret [sample_reply_element14; stale_reply_element14];
     Gab14Replies.str_hash := fun _ => 0 |}.

(** the one reply that view yields: the stale element is skipped, and the
    count of likes, too long for a float, is left at 0 *)
Definition sample_reply14 : Gab14.reply :=
  {| Gab14.reply_id := "114812345678909999";
     Gab14.reply_author := "@someone";
     Gab14.reply_text := "Well said";
     Gab14.reply_timestamp := "3h";
     Gab14.reply_likes := 0 |}.

(** *** Reading the output of the OCR passes *)





(** *** The file the rescraper writes, as [json.load] reads it back:
    the dictionaries of [get_post_details], member by member in the order
    the code fills them *)












(** *** Reading the output of the 4chan OCR pass *)

(** a text that begins with a visible character and ends with one *)
Definition tight (s : string) : Prop :=
  (exists c s', s = String c s' /\ Str.is_space c = false)
  /\ Str.rstrip s = s.





(** *** Reading a match *)

(** what [re.match] reports at the start of [s]: the groups and the rest
    of the first way [r] matches *)
Definition first_match (r : Re.regex) (s : string)
  : option (Re.captures * string) :=
  List.head (Re.run r s).

(** an image URL as the pattern of the Gab scripts lets it through *)
Definition media_url (u : string) : Prop :=
  (Str.starts_with "http://m3.gab.com/media_attachments/" u = true
   \/ Str.starts_with "https://m3.gab.com/media_attachments/" u = true)
  /\ Str.contains Markup.dquote u = false
  /\ exists front ext back,
       u = front ++ "." ++ ext ++ back
       /\ In ext ["jpg"; "jpeg"; "png"; "gif"; "webp"].

(** *** The text of a date

    The text a browser gives for a date and its offset,
    [Www Mmm DD YYYY HH:MM:SS GMT+HHMM], and the ISO 8601 text of the
    same date and offset. *)

Definition day_names : list string :=
  ["Mon"; "Tue"; "Wed"; "Thu"; "Fri"; "Sat"; "Sun"].

Definition month_names : list string :=
  [""; "Jan"; "Feb"; "Mar"; "Apr"; "May"; "Jun";
   "Jul"; "Aug"; "Sep"; "Oct"; "Nov"; "Dec"].

Definition month_name (m : Z) : string := nth (Z.to_nat m) month_names "".

Definition zone_text (negative : bool) (hh mm : Z) : string :=
  (if negative then "-" else "+") ++ DateTime.pad 2 hh ++ DateTime.pad 2 mm.

(** the offset in microseconds *)
Definition zone_us (negative : bool) (hh mm : Z) : Z :=
  let us := (hh * 3600 + mm * 60) * 1000000 in
  if negative then - us else us.

Definition date_text (wd : string) (y mo d h mi s : Z)
           (negative : bool) (hh mm : Z) : string :=
  wd ++ " " ++ month_name mo ++ " " ++ DateTime.pad 2 d ++ " "
  ++ DateTime.pad 4 y ++ " " ++ DateTime.pad 2 h ++ ":" ++ DateTime.pad 2 mi
  ++ ":" ++ DateTime.pad 2 s ++ " GMT" ++ zone_text negative hh mm.

Definition iso_text (y mo d h mi s : Z) (negative : bool) (hh mm : Z)
  : string :=
  DateTime.pad 4 y ++ "-" ++ DateTime.pad 2 mo ++ "-" ++ DateTime.pad 2 d
  ++ "T" ++ DateTime.pad 2 h ++ ":" ++ DateTime.pad 2 mi ++ ":"
  ++ DateTime.pad 2 s ++ offset_text negative hh mm.

(** a string that starts with a character other than white space *)
Definition visible (s : string) : bool :=
  match s with
  | String a _ => negb (Str.is_space a)
  | EmptyString => false
  end.

(** what is checked of the text of an offset: the [%z] pattern takes all
    of it, [parse_z] reads the offset, and the text is free of white space
    at its ends and of parentheses *)
Definition zone_checked (negative : bool) (hh mm : Z) : bool :=
  let z := zone_text negative hh mm in
  (match first_match (Re.Grp 8 DateTime.re_z) z with
   | Some ([(8%nat, g)], EmptyString) => String.eqb g z
   | _ => false
   end
   && match DateTime.parse_z z with
      | Py.Ret o => o =? zone_us negative hh mm
      | Py.Raise _ => false
      end
   && visible z && String.eqb (Str.rstrip z) z
   && negb (Str.contains "(" z))%bool.


(** the completion file cannot be written: the block is interrupted *)
Definition interrupted_completion (kind : Rescraper.dump_kind)
  : Py.result unit :=
  match kind with
  | Rescraper.Completed => Py.Raise Py.KeyboardInterrupt
  | _ => Py.Ret tt
  end.

(** * Properties *)

(** ** The library models at known values *)

Example float_of_one_tenth :
  PyFloat.of_string "0.1" = Py.Ret (S754_finite false 7205759403792794 (-56)).
Proof. vm_compute. reflexivity. Qed.

Example float_ties_to_even :
  PyFloat.of_string "9007199254740993"
  = Py.Ret (S754_finite false 4503599627370496 1).
Proof. vm_compute. reflexivity. Qed.

(** [int(1.001 * 1000)] is 1000: the product is just below 1001 *)
Example scaled_count_truncates :
  Normalizer.extract_count_from_string (Some "1.001K") = Py.Ret 1000.
Proof. vm_compute. reflexivity. Qed.

Example count_inside_text :
  Normalizer.extract_count_from_string (Some "about 12 K likes") = Py.Ret 12000.
Proof. vm_compute. reflexivity. Qed.

(** [float] does not skip a separator character (U+001C) as [strip]
    does, so the count before it is lost; it does skip a no-break space *)
Example count_before_a_separator :
  Normalizer.extract_count_from_string
    (Some ("5" ++ String (ascii_of_nat 28) "K")) = Py.Ret 0
  /\ Normalizer.extract_count_from_string
       (Some ("5" ++ String (ascii_of_nat 160) "K")) = Py.Ret 5000.
Proof. split; vm_compute; reflexivity. Qed.

(** a short line with a middle dot and no word of five letters is taken
    for a header by the rescraper; [gab_scraper_14.py] looks for the two
    characters U+00C2 U+00B7 instead *)
Example header_with_a_middle_dot :
  Rescraper.is_likely_header "@someone" ("Al " ++ Markup.middle_dot ++ " 2h")
  = true
  /\ Gab14.is_likely_header "@someone" ("Al " ++ Markup.middle_dot ++ " 2h")
     = false
  /\ Gab14.is_likely_header "@someone"
       ("Al " ++ String (ascii_of_nat 194) Markup.middle_dot ++ " 2h")
     = true.
Proof. repeat split; vm_compute; reflexivity. Qed.

(** a reply whose age text cannot be read keeps the timestamp read
    before it *)
Example reply_timestamp_kept :
  Rescraper.scrape_reply_timestamp
    (Py.Ret {| Rescraper.reply_datetime_attr := Py.Ret (Some gab_example);
               Rescraper.reply_time_text :=
                 Py.Raise Py.StaleElementReferenceException |})
  = Py.Ret (Some gab_example, "N/A", Some "N/A").
Proof. reflexivity. Qed.

Example strptime_reads_the_fields :
  DateTime.strptime_gab "mon JUL 7 2025 7:09:02 gmt+05:30"
  = Py.Ret (DateTime.mk_datetime 2025 7 7 7 9 2 0 (Some 19800000000)).
Proof. vm_compute. reflexivity. Qed.

Example strptime_checks_the_calendar :
  DateTime.strptime_gab "Tue Feb 30 2025 07:59:42 GMT-0700"
  = Py.Raise Py.ValueError.
Proof. vm_compute. reflexivity. Qed.

Example strptime_wants_all_of_the_text :
  DateTime.strptime_gab "Mon Jul 07 2025 07:59:42 GMT-0700 "
  = Py.Raise Py.ValueError.
Proof. vm_compute. reflexivity. Qed.

Example strptime_checks_the_offset :
  DateTime.strptime_gab "Mon Jul 07 2025 07:59:42 GMT+2400"
  = Py.Raise Py.ValueError.
Proof. vm_compute. reflexivity. Qed.

Example isoformat_of_seconds_offset :
  DateTime.isoformat
    (DateTime.mk_datetime 2024 2 29 23 59 59 0 (Some (- 86399123456)))
  = "2024-02-29T23:59:59-23:59:59.123456".
Proof. vm_compute. reflexivity. Qed.

Example post_id_drops_query_and_fragment :
  Markup.post_id_of_url "https://gab.com/someone/posts/1148?ref=a#top" = "1148".
Proof. vm_compute. reflexivity. Qed.

Example ordinal_of_a_date : DateTime.ymd2ord 2025 7 7 = 739439.
Proof. reflexivity. Qed.

(** ** The field normalizer *)

Section NormalizerFacts.

Import Normalizer.

Lemma round_keeps_sign sx mx ex lx :
  match binary_round_aux PyFloat.prec PyFloat.emax sx mx ex lx with
  | S754_finite s _ _ => s = sx
  | _ => True
  end.
Proof.
  unfold binary_round_aux.
  destruct (shr_fexp _ _ _ _ _) as [mrs1 e1].
  destruct (shr_fexp _ _ _ _ _) as [mrs2 e2].
  destruct (shr_m mrs2); trivial.
  destruct (Z.leb _ _); trivial.
Qed.

Lemma of_decimal_unsigned n k : unsigned (PyFloat.of_decimal n k).
Proof.
  destruct n as [|m|m]; simpl; trivial.
  unfold SFdiv.
  destruct (SFdiv_core_binary _ _ _ _ _ _) as [[mz ez] lz].
  pose proof (round_keeps_sign (xorb false false) mz ez lz) as H.
  unfold unsigned.
  destruct (binary_round_aux _ _ _ _ _ _) as [| | |s m' e']; trivial.
  simpl in H. subst s. trivial.
Qed.

Lemma of_string_unsigned s x :
  PyFloat.of_string s = Py.Ret x -> unsigned x.
Proof.
  unfold PyFloat.of_string.
  destruct (PyFloat.read_digits _ _ _) as [[ip ni] r1].
  destruct r1 as [|c r2].
  - destruct (Nat.eqb ni 0); intros H; inversion H; apply of_decimal_unsigned.
  - destruct (Str.is_char _ c); [|discriminate].
    destruct (PyFloat.read_digits _ _ _) as [[v nf] r3].
    destruct r3; [|discriminate].
    destruct (Nat.eqb _ 0); intros H; inversion H; apply of_decimal_unsigned.
Qed.

Lemma of_string_raises_ValueError s e :
  PyFloat.of_string s = Py.Raise e -> e = Py.ValueError.
Proof.
  unfold PyFloat.of_string.
  destruct (PyFloat.read_digits _ _ _) as [[ip ni] r1].
  destruct r1 as [|c r2].
  - destruct (Nat.eqb ni 0); intros H; inversion H; reflexivity.
  - destruct (Str.is_char _ c); [|intros H; inversion H; reflexivity].
    destruct (PyFloat.read_digits _ _ _) as [[v nf] r3].
    destruct r3; [|intros H; inversion H; reflexivity].
    destruct (Nat.eqb _ 0); intros H; inversion H; reflexivity.
Qed.

Lemma mul_int_unsigned x n m e :
  PyFloat.of_int n = S754_finite false m e ->
  unsigned x -> unsigned (PyFloat.mul_int x n).
Proof.
  intros Hn Hx. unfold PyFloat.mul_int. rewrite Hn.
  destruct x as [s|s| |s mx ex]; simpl; trivial.
  destruct s; [contradiction|].
  pose proof (round_keeps_sign (xorb false false)
                (Zpos (mx * m)) (ex + e) loc_Exact) as H.
  destruct (binary_round_aux _ _ _ _ _ _) as [| | |s' m' e']; trivial.
  simpl in H. subst s'. trivial.
Qed.

Lemma to_int_nonneg x n :
  unsigned x -> PyFloat.to_int x = Py.Ret n -> 0 <= n.
Proof.
  destruct x as [s|s| |s m e]; simpl; intros Hx H; inversion H; subst.
  - lia.
  - destruct s; [contradiction|]. apply Z.shiftl_nonneg. lia.
Qed.

Lemma to_int_raises x e :
  PyFloat.to_int x = Py.Raise e -> e = Py.OverflowError \/ e = Py.ValueError.
Proof.
  destruct x; simpl; intros H; inversion H; auto.
Qed.

Lemma scaled_nonneg num_str L factor m e n :
  PyFloat.of_int factor = S754_finite false m e ->
  scaled num_str L factor = Py.Ret n -> 0 <= n.
Proof.
  intros Hf. unfold scaled.
  destruct (PyFloat.of_string _) as [x|ex] eqn:Hx; simpl; [|discriminate].
  apply to_int_nonneg.
  eapply mul_int_unsigned; eauto using of_string_unsigned.
Qed.

Lemma scaled_raises num_str L factor e :
  scaled num_str L factor = Py.Raise e ->
  e = Py.OverflowError \/ e = Py.ValueError.
Proof.
  unfold scaled.
  destruct (PyFloat.of_string _) as [x|ex] eqn:Hx; simpl.
  - apply to_int_raises.
  - intros H. inversion H; subst. right.
    eapply of_string_raises_ValueError; eauto.
Qed.

End NormalizerFacts.

Section ExtractCount.

Import Normalizer.

Lemma factor_K : PyFloat.of_int 1000 = S754_finite false 8796093022208000 (-43).
Proof. vm_compute. reflexivity. Qed.
Lemma factor_M : PyFloat.of_int 1000000 = S754_finite false 8589934592000000 (-33).
Proof. vm_compute. reflexivity. Qed.
Lemma factor_B : PyFloat.of_int 1000000000 = S754_finite false 8388608000000000 (-23).
Proof. vm_compute. reflexivity. Qed.
Lemma factor_T : PyFloat.of_int 1000000000000 = S754_finite false 8192000000000000 (-13).
Proof. vm_compute. reflexivity. Qed.

Ltac split_scaled H :=
  match type of H with
  | context [scaled ?a ?b ?c] =>
      let E := fresh "E" in
      destruct (scaled a b c) eqn:E; simpl in H
  end.

Lemma count_try_nonneg s n : count_try s = Py.Ret (Some n) -> 0 <= n.
Proof.
  unfold count_try.
  destruct (Re.search count_pattern s) as [m|]; [|discriminate].
  destruct (Re.group 1 m) as [g|]; simpl; [|discriminate].
  set (num_str := Str.strip (Str.remove "," g)).
  destruct (Str.contains "K" _).
  { intros H. split_scaled H; inversion H; subst.
    eapply scaled_nonneg; [apply factor_K | eassumption]. }
  destruct (Str.contains "M" _).
  { intros H. split_scaled H; inversion H; subst.
    eapply scaled_nonneg; [apply factor_M | eassumption]. }
  destruct (Str.contains "B" _).
  { intros H. split_scaled H; inversion H; subst.
    eapply scaled_nonneg; [apply factor_B | eassumption]. }
  destruct (Str.contains "T" _).
  { intros H. split_scaled H; inversion H; subst.
    eapply scaled_nonneg; [apply factor_T | eassumption]. }
  destruct (PyFloat.of_string num_str) as [x|] eqn:Hx; simpl; [|discriminate].
  destruct (PyFloat.to_int x) as [k|] eqn:Hk; simpl; [|discriminate].
  intros H; inversion H; subst.
  eapply to_int_nonneg; eauto using of_string_unsigned.
Qed.

Lemma count_try_raises s e :
  count_try s = Py.Raise e ->
  e = Py.OverflowError \/ e = Py.ValueError \/ e = Py.AttributeError.
Proof.
  unfold count_try.
  destruct (Re.search count_pattern s) as [m|]; [|discriminate].
  destruct (Re.group 1 m) as [g|]; simpl;
    [|intros H; inversion H; auto].
  set (num_str := Str.strip (Str.remove "," g)).
  assert (Hs : forall L f, Py.bind (scaled num_str L f)
                             (fun n => Py.Ret (Some n)) = Py.Raise e ->
                           e = Py.OverflowError \/ e = Py.ValueError
                           \/ e = Py.AttributeError).
  { intros L f H. destruct (scaled num_str L f) eqn:E; simpl in H;
      [discriminate|]. inversion H; subst.
    destruct (scaled_raises _ _ _ _ E); auto. }
  destruct (Str.contains "K" _); [apply Hs|].
  destruct (Str.contains "M" _); [apply Hs|].
  destruct (Str.contains "B" _); [apply Hs|].
  destruct (Str.contains "T" _); [apply Hs|].
  destruct (PyFloat.of_string num_str) as [x|ex] eqn:Hx; simpl.
  - destruct (PyFloat.to_int x) as [k|ek] eqn:Hk; simpl; [discriminate|].
    intros H; inversion H; subst.
    destruct (to_int_raises _ _ Hk); auto.
  - intros H; inversion H; subst.
    right; left. eapply of_string_raises_ValueError; eauto.
Qed.

(** whenever [extract_count_from_string] returns, the count is not
    negative *)
Lemma extract_count_nonneg t n :
  extract_count_from_string t = Py.Ret n -> 0 <= n.
Proof.
  unfold extract_count_from_string.
  destruct t as [[|c s]|]; try (intros H; inversion H; lia).
  destruct (count_try (String c s)) as [[k|]|e] eqn:E; simpl.
  - intros H; inversion H; subst. eapply count_try_nonneg; eauto.
  - intros H; inversion H; lia.
  - destruct (count_try_raises _ _ E) as [->|[->| ->]]; simpl;
      intros H; inversion H; lia.
Qed.

(** the only exception that leaves [extract_count_from_string] is the
    [OverflowError] of [int] on an infinite float *)
Lemma extract_count_raises_only_overflow t e :
  extract_count_from_string t = Py.Raise e -> e = Py.OverflowError.
Proof.
  unfold extract_count_from_string.
  destruct t as [[|c s]|]; try discriminate.
  destruct (count_try (String c s)) as [[k|]|e'] eqn:E; simpl;
    try discriminate.
  destruct (count_try_raises _ _ E) as [->|[->| ->]]; simpl;
    try discriminate.
  intros H; inversion H; reflexivity.
Qed.

End ExtractCount.

(** C4. The reference examples of the magnitude parser: 1,234 gives 1234,
    1.2K gives 1200, 3M gives 3000000, the empty string and a text without
    digits give 0. *)
Theorem parseMagnitude_reference_examples :
  Normalizer.extract_count_from_string (Some "1,234") = Py.Ret 1234
  /\ Normalizer.extract_count_from_string (Some "1.2K") = Py.Ret 1200
  /\ Normalizer.extract_count_from_string (Some "3M") = Py.Ret 3000000
  /\ Normalizer.extract_count_from_string (Some "") = Py.Ret 0
  /\ Normalizer.extract_count_from_string (Some "no digits here") = Py.Ret 0.
Proof. repeat split; vm_compute; reflexivity. Qed.

(** C5. On a lower-case suffix the scaling is lost: the suffix is found in
    the upper-cased text, but only the upper-case letter is removed before
    [float], which then fails, so 1.2k gives 0 where 1.2K gives 1200, and
    likewise for m and b; and the pattern has no lower-case t, so 1.2t
    gives 1 where 1.2T gives 1200000000000. *)
Theorem lowercase_suffix_is_not_scaled :
  Normalizer.extract_count_from_string (Some "1.2k") = Py.Ret 0
  /\ Normalizer.extract_count_from_string (Some "1.2K") = Py.Ret 1200
  /\ Normalizer.extract_count_from_string (Some "3m") = Py.Ret 0
  /\ Normalizer.extract_count_from_string (Some "3M") = Py.Ret 3000000
  /\ Normalizer.extract_count_from_string (Some "2b") = Py.Ret 0
  /\ Normalizer.extract_count_from_string (Some "2B") = Py.Ret 2000000000
  /\ Normalizer.extract_count_from_string (Some "1.2t") = Py.Ret 1
  /\ Normalizer.extract_count_from_string (Some "1.2T") = Py.Ret 1200000000000.
Proof. repeat split; vm_compute; reflexivity. Qed.

(** C10. A run of digits too long for a binary64 makes [float] return
    infinity, and [int] of infinity raises [OverflowError], which the
    [except (ValueError, AttributeError)] clause lets through. *)
Theorem extract_count_overflow_escapes :
  Normalizer.extract_count_from_string (Some ten_to_the_309)
  = Py.Raise Py.OverflowError.
Proof. vm_compute. reflexivity. Qed.

(** ** The fallback selector resolver *)

Section ResolverFacts.

Import Resolver.

Variables (driver value : Type) (truthy : value -> bool).

Lemma call_from_skips_failure i c rest d :
  fails driver value truthy c d ->
  call_from driver value truthy i (c :: rest) d
  = (i :: fst (call_from driver value truthy (S i) rest d),
     snd (call_from driver value truthy (S i) rest d)).
Proof.
  intros [(v & Hv & Hf) | (e & He & Hx)]; simpl.
  - rewrite Hv, Hf. destruct (call_from _ _ _ _ _ _); reflexivity.
  - rewrite He, Hx. destruct (call_from _ _ _ _ _ _); reflexivity.
Qed.

Lemma call_from_exhausted conditions : forall i d,
  Forall (fun c => fails driver value truthy c d) conditions ->
  call_from driver value truthy i conditions d
  = (List.seq i (List.length conditions), Py.Ret None).
Proof.
  induction conditions as [|c rest IH]; intros i d Hall.
  - reflexivity.
  - inversion Hall as [|? ? Hc Hrest]; subst.
    rewrite call_from_skips_failure by assumption.
    rewrite (IH (S i) d Hrest). reflexivity.
Qed.

Lemma call_from_first_match pre : forall i c post d v,
  Forall (fun c' => fails driver value truthy c' d) pre ->
  matches_with driver value truthy c d v ->
  call_from driver value truthy i (pre ++ c :: post)%list d
  = (List.seq i (S (List.length pre)), Py.Ret (Some v)).
Proof.
  induction pre as [|p pre IH]; intros i c post d v Hpre [Hc Ht].
  - simpl. rewrite Hc, Ht. reflexivity.
  - inversion Hpre as [|? ? Hp Hrest]; subst.
    change ((p :: pre) ++ c :: post)%list with (p :: (pre ++ c :: post))%list.
    rewrite call_from_skips_failure by assumption.
    rewrite (IH (S i) c post d v Hrest (conj Hc Ht)). reflexivity.
Qed.

End ResolverFacts.

(** C3. One evaluation of [any_of_conditions] on a document state [d]:
    when the strategies before [c] all fail (a falsy result or an
    [Exception]) and [c] returns the truthy [v], the call returns [v] and
    has invoked exactly the strategies at positions [0 .. length pre], so
    none after [c]; when every strategy fails it returns [False] (here
    [None]) without raising, after invoking each once. *)
Theorem any_of_conditions_earliest_match :
  forall (driver value : Type) (truthy : value -> bool) (d : driver)
         (conditions : list (Resolver.condition driver value)),
    (forall pre c post v,
        conditions = (pre ++ c :: post)%list ->
        Forall (fun c' => Resolver.fails driver value truthy c' d) pre ->
        Resolver.matches_with driver value truthy c d v ->
        Resolver.any_of_conditions driver value truthy conditions d
        = (List.seq 0 (S (List.length pre)), Py.Ret (Some v)))
    /\ (Forall (fun c => Resolver.fails driver value truthy c d) conditions ->
        Resolver.any_of_conditions driver value truthy conditions d
        = (List.seq 0 (List.length conditions), Py.Ret None)).
Proof.
  intros driver value truthy d conditions. split.
  - intros pre c post v -> Hpre Hc.
    apply call_from_first_match; assumption.
  - apply call_from_exhausted.
Qed.

Lemma any_of_conditions_earliest_match_witness :
  Resolver.any_of_conditions unit Z nonzero
    [strategy_missing; strategy_seven; strategy_nine] tt
  = ([0%nat; 1%nat], Py.Ret (Some 7))
  /\ Resolver.any_of_conditions unit Z nonzero
       [strategy_missing; strategy_falsy] tt
     = ([0%nat; 1%nat], Py.Ret None).
Proof.
  split.
  - apply (proj1 (any_of_conditions_earliest_match unit Z nonzero tt
                    [strategy_missing; strategy_seven; strategy_nine])
             [strategy_missing] strategy_seven [strategy_nine] 7).
    + reflexivity.
    + constructor; [|constructor].
      right. exists Py.NoSuchElementException. split; reflexivity.
    + split; reflexivity.
  - apply (proj2 (any_of_conditions_earliest_match unit Z nonzero tt
                    [strategy_missing; strategy_falsy])).
    constructor; [|constructor; [|constructor]].
    + right. exists Py.NoSuchElementException. split; reflexivity.
    + left. exists 0. split; reflexivity.
Defined.

(** ** The timestamp parser *)

Section StrptimeFacts.

Import DateTime.

Lemma only_ValueError_ret {A} (a : A) : only_ValueError (Py.Ret a).
Proof. intros e H; discriminate. Qed.

Lemma only_ValueError_raise {A} : only_ValueError (@Py.Raise A Py.ValueError).
Proof. intros e H; inversion H; reflexivity. Qed.

Lemma only_ValueError_bind {A B} (m : Py.result A) (k : A -> Py.result B) :
  only_ValueError m -> (forall a, only_ValueError (k a)) ->
  only_ValueError (Py.bind m k).
Proof.
  intros Hm Hk e. destruct m as [a|e']; simpl.
  - apply Hk.
  - intros H; inversion H; subst. apply Hm; reflexivity.
Qed.

Lemma found_only_ValueError n m : only_ValueError (found n m).
Proof.
  unfold found. destruct (Re.group n m);
    [apply only_ValueError_ret | apply only_ValueError_raise].
Qed.

Lemma index_of_only_ValueError w l : forall i, only_ValueError (index_of w l i).
Proof.
  induction l as [|x l IH]; intros i; simpl.
  - apply only_ValueError_raise.
  - destruct (String.eqb x w); [apply only_ValueError_ret | apply IH].
Qed.

Lemma int_of_str_only_ValueError s : only_ValueError (int_of_str s).
Proof.
  unfold int_of_str.
  destruct (PyFloat.read_digits _ _ _) as [[v n] r].
  destruct r; [destruct (Nat.eqb n 0)|];
    auto using only_ValueError_ret, only_ValueError_raise.
Qed.

Lemma make_only_ValueError y m d h mi s us off :
  only_ValueError (make y m d h mi s us off).
Proof.
  unfold make. destruct (_ && _)%bool;
    [apply only_ValueError_ret | apply only_ValueError_raise].
Qed.

Lemma parse_z_only_ValueError z : only_ValueError (parse_z z).
Proof.
  unfold parse_z.
  destruct (String.eqb z "Z"); [apply only_ValueError_ret|].
  apply only_ValueError_bind.
  { destruct (char_at 3 z ":"); [|apply only_ValueError_ret].
    destruct (Nat.ltb 5 _); [|apply only_ValueError_ret].
    destruct (char_at 5 _ ":");
      [apply only_ValueError_ret | apply only_ValueError_raise]. }
  intros z1.
  apply only_ValueError_bind; [apply int_of_str_only_ValueError|intros hours].
  apply only_ValueError_bind; [apply int_of_str_only_ValueError|intros minutes].
  apply only_ValueError_bind.
  { destruct (String.eqb _ "");
      [apply only_ValueError_ret | apply int_of_str_only_ValueError]. }
  intros seconds.
  apply only_ValueError_bind; [apply int_of_str_only_ValueError|intros fraction].
  apply only_ValueError_ret.
Qed.

Lemma strptime_gab_only_ValueError s : only_ValueError (strptime_gab s).
Proof.
  unfold strptime_gab.
  destruct (Re.match_at gab_format_regex s) as [m|];
    [|apply only_ValueError_raise].
  destruct (Re.m_rest m); [|apply only_ValueError_raise].
  repeat (apply only_ValueError_bind;
          [first [ apply found_only_ValueError
                 | apply index_of_only_ValueError
                 | apply int_of_str_only_ValueError
                 | apply parse_z_only_ValueError ]
          | intros ?]).
  apply make_only_ValueError.
Qed.

End StrptimeFacts.

Section ParseGabDatetime.

Import DateTime Rescraper.

(** what [parse_gab_datetime] returns on a non-empty string *)
Lemma parse_gab_datetime_eq c r :
  parse_gab_datetime (Some (String c r))
  = Py.Ret match strptime_gab (clean_dt_string (String c r)) with
           | Py.Ret dt => Some (isoformat dt)
           | Py.Raise _ => None
           end.
Proof.
  unfold parse_gab_datetime.
  destruct (strptime_gab _) as [dt|e] eqn:E; simpl; [reflexivity|].
  rewrite (strptime_gab_only_ValueError _ _ E). reflexivity.
Qed.

Lemma parse_gab_datetime_returns t : exists r, parse_gab_datetime t = Py.Ret r.
Proof.
  destruct t as [[|c r]|].
  - exists None; reflexivity.
  - rewrite parse_gab_datetime_eq. eexists; reflexivity.
  - exists None; reflexivity.
Qed.

End ParseGabDatetime.

(** ** Stripping a trailing parenthesized gloss *)

Section GlossFacts.

Import Markup Rescraper.

Lemma append_cons c s t : String c s ++ t = String c (s ++ t).
Proof. reflexivity. Qed.

Lemma append_nil t : EmptyString ++ t = t.
Proof. reflexivity. Qed.

Lemma rstrip_cons c s :
  Str.rstrip (String c s)
  = match Str.rstrip s with
    | EmptyString => if Str.is_space c then EmptyString else String c EmptyString
    | t => String c t
    end.
Proof. reflexivity. Qed.

Lemma rstrip_idem s : Str.rstrip (Str.rstrip s) = Str.rstrip s.
Proof.
  induction s as [|c s IH]; [reflexivity|].
  rewrite rstrip_cons.
  destruct (Str.rstrip s) as [|c1 t1] eqn:E.
  - destruct (Str.is_space c) eqn:Hc; [reflexivity|].
    rewrite rstrip_cons. simpl. rewrite Hc. reflexivity.
  - rewrite rstrip_cons, IH. reflexivity.
Qed.

Lemma lstrip_rstrip s : Str.lstrip (Str.rstrip s) = Str.rstrip (Str.lstrip s).
Proof.
  induction s as [|c s IH]; [reflexivity|].
  rewrite rstrip_cons. simpl Str.lstrip at 2.
  destruct (Str.is_space c) eqn:Hc.
  - destruct (Str.rstrip s) as [|c1 t1] eqn:E.
    + rewrite <- IH. reflexivity.
    + rewrite <- IH. simpl. rewrite Hc. reflexivity.
  - rewrite rstrip_cons.
    destruct (Str.rstrip s) as [|c1 t1]; simpl; rewrite Hc; reflexivity.
Qed.

Lemma strip_rstrip s : Str.strip (Str.rstrip s) = Str.strip s.
Proof.
  unfold Str.strip. rewrite lstrip_rstrip, rstrip_idem. reflexivity.
Qed.

(** a string of white space only vanishes in front of what follows *)
Lemma lstrip_blank_app b x :
  Str.rstrip b = EmptyString -> Str.lstrip (b ++ x) = Str.lstrip x.
Proof.
  induction b as [|c b IH]; [reflexivity|].
  rewrite rstrip_cons.
  destruct (Str.rstrip b) eqn:E; [|discriminate].
  destruct (Str.is_space c) eqn:Hc; [|discriminate].
  intros _. simpl. rewrite Hc. apply IH. reflexivity.
Qed.

Lemma contains_lstrip a s :
  Str.contains a s = false -> starts_with_char a (Str.lstrip s) = false.
Proof.
  induction s as [|c s IH]; [reflexivity|].
  simpl. intros H. apply orb_false_elim in H as [Hc Hs].
  destruct (Str.is_space c); [apply IH; assumption|].
  simpl. assumption.
Qed.

(** with something visible in [b], the first visible character of
    [b ++ x] is that of [b] *)
Lemma lstrip_nonblank_app a b x :
  Str.rstrip b <> EmptyString -> Str.contains a b = false ->
  starts_with_char a (Str.lstrip (b ++ x)) = false.
Proof.
  induction b as [|c b IH]; [intros H; contradiction H; reflexivity|].
  rewrite rstrip_cons. simpl. intros Hr Hc.
  apply orb_false_elim in Hc as [Hc Hb].
  destruct (Str.is_space c) eqn:Hs.
  - apply IH; [|assumption].
    destruct (Str.rstrip b); [contradiction Hr; reflexivity | discriminate].
  - simpl. assumption.
Qed.

(** *** How [\s*] followed by a fixed first character matches *)

Lemma flat_map_snoc {A B} (f : A -> list B) l x :
  flat_map f (l ++ [x])%list = (flat_map f l ++ f x)%list.
Proof.
  induction l as [|a l IH]; simpl.
  - apply app_nil_r.
  - rewrite IH. apply app_assoc.
Qed.

Lemma run_spaces_then_char q R s :
  (forall c, Str.is_space c = true -> q c = false) ->
  Re.run (Re.Cat (Re.Many Str.is_space) (Re.Cat (Re.Cls q) R)) s
  = List.map (fun cs2 => (fst cs2, snd cs2))
             (Re.run (Re.Cat (Re.Cls q) R) (Str.lstrip s)).
Proof.
  intros Hq.
  change (Re.run (Re.Cat (Re.Many Str.is_space) (Re.Cat (Re.Cls q) R)) s)
    with (flat_map (fun cs1 =>
                      List.map (fun cs2 => ((fst cs1 ++ fst cs2)%list, snd cs2))
                               (Re.run (Re.Cat (Re.Cls q) R) (snd cs1)))
                   (List.map (fun s' => ([], s')) (Re.tails Str.is_space s))).
  induction s as [|c s IH].
  - reflexivity.
  - simpl Re.tails. simpl Str.lstrip. destruct (Str.is_space c) eqn:Hp.
    + rewrite map_app, flat_map_app, IH.
      assert (E : Re.run (Re.Cat (Re.Cls q) R) (String c s) = []).
      { simpl. rewrite (Hq c Hp). reflexivity. }
      cbn [flat_map List.map snd fst app]. rewrite E.
      cbn [List.map app]. rewrite app_nil_r. reflexivity.
    + cbn [flat_map List.map snd fst app]. rewrite app_nil_r. reflexivity.
Qed.

(** the gloss pattern finds nothing where the first visible character is
    not an opening parenthesis *)
Lemma gloss_no_match s :
  starts_with_char "(" (Str.lstrip s) = false ->
  Re.match_at gloss_pattern s = None.
Proof.
  intros H. unfold Re.match_at, gloss_pattern.
  change (DateTime.cat [ws0; DateTime.ch "("; Re.Many1 (is_not ")"); DateTime.ch ")"])
    with (Re.Cat (Re.Many Str.is_space)
            (Re.Cat (Re.Cls (Str.is_char "("))
                    (Re.Cat (Re.Many1 (is_not ")")) (DateTime.ch ")")))).
  rewrite run_spaces_then_char.
  - destruct (Str.lstrip s) as [|c r]; [reflexivity|].
    simpl in H. simpl. rewrite H. reflexivity.
  - intros c Hc. destruct (Str.is_char "(" c) eqn:E; [|reflexivity].
    apply Ascii.eqb_eq in E. subst c. discriminate.
Qed.

Lemma tails_head p s : exists l, Re.tails p s = Re.skip p s :: l.
Proof.
  induction s as [|c s [l IH]]; simpl.
  - exists []; reflexivity.
  - destruct (p c).
    + rewrite IH. eexists. reflexivity.
    + exists []; reflexivity.
Qed.

Lemma skip_gloss g tail :
  Str.contains ")" g = false ->
  Re.skip (is_not ")") (g ++ String ")" tail) = String ")" tail.
Proof.
  induction g as [|c g IH]; [reflexivity|].
  intros H. cbn [Str.contains] in H. apply orb_false_elim in H as [Hc Hg].
  rewrite append_cons. cbn [Re.skip]. unfold is_not at 1. rewrite Hc.
  cbn [negb]. apply IH. assumption.
Qed.

(** ... and where it is one, followed by a gloss and its closing
    parenthesis, the match ends right after that parenthesis *)
Lemma gloss_match s c g tail :
  Str.lstrip s = String "(" (String c g ++ String ")" tail) ->
  Str.contains ")" (String c g) = false ->
  exists m, Re.match_at gloss_pattern s = Some m /\ Re.m_rest m = tail.
Proof.
  intros Hs Hg. unfold Re.match_at, gloss_pattern.
  change (DateTime.cat [ws0; DateTime.ch "("; Re.Many1 (is_not ")"); DateTime.ch ")"])
    with (Re.Cat (Re.Many Str.is_space)
            (Re.Cat (Re.Cls (Str.is_char "("))
                    (Re.Cat (Re.Many1 (is_not ")")) (DateTime.ch ")")))).
  rewrite run_spaces_then_char.
  2:{ intros a Ha. destruct (Str.is_char "(" a) eqn:E; [|reflexivity].
      apply Ascii.eqb_eq in E. subst a. discriminate. }
  rewrite Hs.
  cbn [Str.contains] in Hg. apply orb_false_elim in Hg as [Hc Hg'].
  destruct (tails_head (is_not ")") (g ++ String ")" tail)) as [l El].
  rewrite (skip_gloss g tail Hg') in El.
  rewrite append_cons.
  cbn [Re.run Re.Many1 DateTime.ch].
  change (Str.is_char "(" "(") with true. cbv iota.
  cbn [flat_map List.map snd fst app].
  assert (Hn : is_not ")" c = true) by (unfold is_not; rewrite Hc; reflexivity).
  rewrite Hn. cbn [flat_map List.map snd fst app].
  rewrite El.
  cbn [flat_map List.map snd fst app].
  change (Str.is_char ")" ")") with true. cbv iota.
  cbn [flat_map List.map snd fst app].
  eexists. split; reflexivity.
Qed.

Lemma sub_empty_aux_nil r fuel : Re.sub_empty_aux r fuel EmptyString = EmptyString.
Proof. destruct fuel; reflexivity. Qed.

Lemma length_append s t :
  String.length (s ++ t) = (String.length s + String.length t)%nat.
Proof.
  induction s as [|c s IH]; [reflexivity|].
  rewrite append_cons. simpl. rewrite IH. reflexivity.
Qed.

Lemma sub_gloss_suffix c g body :
  Str.contains ")" (String c g) = false ->
  Str.contains "(" body = false ->
  forall fuel,
    (String.length (body ++ gloss_suffix c g) <= fuel)%nat ->
    Re.sub_empty_aux gloss_pattern fuel (body ++ gloss_suffix c g)
    = Str.rstrip body.
Proof.
  intros Hg. induction body as [|b body IH]; intros Hb fuel Hfuel.
  - rewrite append_nil in *. destruct fuel as [|fuel]; [simpl in Hfuel; lia|].
    destruct (gloss_match (gloss_suffix c g) c g EmptyString) as (m & Hm & Hr);
      [reflexivity | assumption |].
    unfold gloss_suffix in *. cbn [Re.sub_empty_aux].
    rewrite Hm, Hr. cbn [String.length Nat.ltb Nat.leb].
    apply sub_empty_aux_nil.
  - rewrite append_cons in *. cbn [String.length] in Hfuel.
    destruct fuel as [|fuel]; [lia|].
    cbn [Str.contains] in Hb. apply orb_false_elim in Hb as [Hbc Hbody].
    specialize (IH Hbody fuel ltac:(lia)).
    rewrite rstrip_cons. cbn [Re.sub_empty_aux].
    destruct (Str.is_space b) eqn:Hsp.
    + destruct (Str.rstrip body) as [|t0 t] eqn:Hrs.
      * (* the rest of the body is blank: the match starts here *)
        destruct (gloss_match (String b (body ++ gloss_suffix c g)) c g
                    EmptyString) as (m & Hm & Hr); [|assumption|].
        { cbn [Str.lstrip]. rewrite Hsp.
          rewrite (lstrip_blank_app body _ Hrs). reflexivity. }
        rewrite Hm, Hr. cbn [String.length Nat.ltb Nat.leb].
        apply sub_empty_aux_nil.
      * rewrite gloss_no_match.
        { rewrite IH. reflexivity. }
        cbn [Str.lstrip]. rewrite Hsp.
        apply lstrip_nonblank_app; [rewrite Hrs; discriminate | assumption].
    + rewrite gloss_no_match.
      { rewrite IH. destruct (Str.rstrip body); reflexivity. }
      cbn [Str.lstrip]. rewrite Hsp. exact Hbc.
Qed.

(** a trailing gloss, with the white space before it, is removed by
    [clean_dt_string] *)
Lemma clean_dt_string_gloss body c g :
  Str.contains "(" body = false ->
  Str.contains ")" (String c g) = false ->
  clean_dt_string (body ++ " (" ++ String c g ++ ")") = Str.strip body.
Proof.
  intros Hb Hg. unfold clean_dt_string, Re.sub_empty.
  change (body ++ " (" ++ String c g ++ ")") with (body ++ gloss_suffix c g).
  rewrite sub_gloss_suffix by (assumption || lia).
  apply strip_rstrip.
Qed.

End GlossFacts.

Lemma string_append_assoc (a b c : string) : a ++ (b ++ c) = (a ++ b) ++ c.
Proof.
  induction a as [|x a IH]; [reflexivity|].
  change (String x (a ++ (b ++ c)) = String x ((a ++ b) ++ c)).
  rewrite IH. reflexivity.
Qed.

Lemma isoformat_ends_with_offset dt off :
  DateTime.utcoffset dt = Some off ->
  exists front, DateTime.isoformat dt = front ++ DateTime.format_offset off.
Proof.
  intros H. unfold DateTime.isoformat. rewrite H.
  repeat rewrite string_append_assoc.
  eexists. reflexivity.
Qed.

Lemma all_below_spec n f :
  all_below n f = true -> forall z, 0 <= z < Z.of_nat n -> f z = true.
Proof.
  induction n as [|k IH]; intros H z Hz; [lia|].
  cbn [all_below] in H. apply andb_prop in H as [Hk Hrest].
  destruct (Z.eq_dec z (Z.of_nat k)) as [->|Hne]; [exact Hk|].
  apply IH; [exact Hrest | lia].
Qed.

Lemma offsets_checked_true negative : offsets_checked negative = true.
Proof. destruct negative; vm_compute; reflexivity. Qed.

(** every whole-minute offset within a day is written back as it was read
    (a negative zero comes back as [+00:00]) *)
Lemma whole_minute_offset_preserved negative hh mm :
  0 <= hh <= 23 -> 0 <= mm <= 59 ->
  offset_round negative hh mm = Py.Ret (offset_text negative hh mm).
Proof.
  intros Hh Hm.
  pose proof (all_below_spec 24 _ (offsets_checked_true negative) hh
                ltac:(lia)) as H1.
  pose proof (all_below_spec 60 _ H1 mm ltac:(lia)) as H2.
  unfold offset_kept in H2.
  destruct (offset_round negative hh mm) as [s|e]; [|discriminate].
  apply String.eqb_eq in H2. subst s. reflexivity.
Qed.

(** ** The record extractors *)

Section ImageFacts.

Import Markup.

Lemma list_set_NoDup l : NoDup (list_set l).
Proof. unfold list_set. apply NoDup_elements. Qed.

Lemma list_set_In l u : In u (list_set l) <-> In u l.
Proof.
  unfold list_set.
  rewrite <- !list_elem_of_In, elem_of_elements, elem_of_list_to_set.
  reflexivity.
Qed.

Lemma scrape_image_urls_NoDup h l :
  scrape_image_urls h = Py.Ret l -> NoDup l.
Proof.
  unfold scrape_image_urls.
  destruct h as [[html|]|e].
  - intros H; inversion H. apply list_set_NoDup.
  - intros H; inversion H. constructor.
  - destruct (Py.is_Exception e); intros H; inversion H. constructor.
Qed.

Lemma scrape_image_urls_html html l :
  scrape_image_urls (Py.Ret (Some html)) = Py.Ret l ->
  l = list_set (matched_urls html).
Proof. intros H; inversion H; reflexivity. Qed.

End ImageFacts.

Section RescraperFacts.

Import Markup Rescraper.

Lemma or_skip_some {A B} (m : Py.result A) (k : A -> Py.result (option B)) b :
  or_skip m k = Py.Ret (Some b) ->
  exists a, m = Py.Ret a /\ k a = Py.Ret (Some b).
Proof.
  unfold or_skip. destruct m as [a|e].
  - intros H. exists a. split; [reflexivity | assumption].
  - destruct (Py.is_Exception e); discriminate.
Qed.

Lemma bind_ret {A B} (m : Py.result A) (k : A -> Py.result B) b :
  Py.bind m k = Py.Ret b -> exists a, m = Py.Ret a /\ k a = Py.Ret b.
Proof.
  destruct m as [a|e]; simpl; [|discriminate].
  intros H. exists a. split; [reflexivity | assumption].
Qed.

(** a timestamp block that lets the record through has resolved the
    element and normalized its text *)
Lemma scrape_timestamp_some pg el raw iso :
  scrape_timestamp pg el = Py.Ret (Some (raw, iso)) ->
  exists te,
    time_elem el = Py.Ret te
    /\ raw = or_text (datetime_attr te) (Str.strip (time_text te))
    /\ parse_gab_datetime (Some raw) = Py.Ret (Some iso).
Proof.
  unfold scrape_timestamp. intros H.
  apply or_skip_some in H as (te & Hte & H).
  apply or_skip_some in H as (r & Hparse & H).
  destruct r as [[|c r]|]; try discriminate.
  apply or_skip_some in H as (dt & Hdt & H).
  destruct (_ <? _); [discriminate|].
  inversion H; subst. exists te. repeat split; assumption.
Qed.

(** what a returned record says about the page it was read from *)
Lemma get_post_details_some url pg p :
  get_post_details url pg = Py.Ret (Some p) ->
  exists el,
    main_post pg (post_id_of_url url) = Py.Ret el
    /\ post_id p = post_id_of_url url
    /\ post_url p = url
    /\ scrape_image_urls (outer_html el) = Py.Ret (image_urls p)
    /\ scrape_timestamp pg el = Py.Ret (Some (timestamp p, timestamp_iso p))
    /\ replies_section pg = Py.Ret (replies p).
Proof.
  unfold get_post_details. intros H.
  apply or_skip_some in H as (u & Hopen & H).
  apply or_skip_some in H as (el & Hel & H).
  apply or_skip_some in H as (txt & Htxt & H).
  apply or_skip_some in H as (imgs & Himgs & H).
  apply bind_ret in H as (stamp & Hstamp & H).
  destruct stamp as [[raw iso]|]; [|discriminate].
  apply or_skip_some in H as (src & Hsrc & H).
  apply or_skip_some in H as (n1 & H1 & H).
  apply or_skip_some in H as (n2 & H2 & H).
  apply or_skip_some in H as (n3 & H3 & H).
  apply or_skip_some in H as (n4 & H4 & H).
  apply bind_ret in H as (u' & Hscroll & H).
  apply bind_ret in H as (rs & Hrs & H).
  destruct (Nat.ltb _ _); [discriminate|].
  inversion H; subst; simpl.
  exists el. repeat split; assumption.
Qed.

Lemma scrape_reply_images ident el r :
  scrape_reply ident el = Py.Ret r -> NoDup (reply_image_urls r).
Proof.
  unfold scrape_reply. intros H.
  apply bind_ret in H as (txt & _ & H).
  apply bind_ret in H as (stamp & _ & H).
  apply bind_ret in H as (imgs & Himgs & H).
  inversion H; subst; simpl.
  eapply scrape_image_urls_NoDup; eassumption.
Qed.

Lemma scrape_replies_images els : forall rs,
  scrape_replies els = Py.Ret rs ->
  Forall (fun r => NoDup (reply_image_urls r)) rs.
Proof.
  induction els as [|[ident el] els IH]; intros rs H.
  - inversion H. constructor.
  - cbn [scrape_replies] in H.
    apply bind_ret in H as (r & Hr & H).
    apply bind_ret in H as (rs' & Hrs & H).
    inversion H; subst. constructor.
    + eapply scrape_reply_images; eassumption.
    + apply IH; assumption.
Qed.

Lemma replies_section_images pg rs :
  replies_section pg = Py.Ret rs ->
  Forall (fun r => NoDup (reply_image_urls r)) rs.
Proof.
  unfold replies_section.
  destruct (Py.bind (reply_wait pg) _) as [uniq|e].
  - apply scrape_replies_images.
  - destruct (Py.is_Exception e); intros H; inversion H. constructor.
Qed.

End RescraperFacts.

Section Gab14Facts.

Import Markup Gab14.

Lemma or_skip14_some {A B} (m : Py.result A) (k : A -> Py.result (option B)) b :
  or_skip m k = Py.Ret (Some b) ->
  exists a, m = Py.Ret a /\ k a = Py.Ret (Some b).
Proof.
  unfold or_skip. destruct m as [a|e].
  - intros H. exists a. split; [reflexivity | assumption].
  - destruct (Py.is_Exception e); discriminate.
Qed.

Lemma get_post_details14_some url pg p :
  get_post_details url pg = Py.Ret (Some p) ->
  exists el,
    main_post pg (post_id_of_url url) = Py.Ret el
    /\ post_id p = post_id_of_url url
    /\ post_url p = url
    /\ scrape_image_urls (outer_html el) = Py.Ret (image_urls p).
Proof.
  unfold get_post_details. intros H.
  apply or_skip14_some in H as (u & Hopen & H).
  apply or_skip14_some in H as (el & Hel & H).
  apply or_skip14_some in H as (txt & Htxt & H).
  apply or_skip14_some in H as (imgs & Himgs & H).
  apply or_skip14_some in H as (stamp & Hstamp & H).
  apply or_skip14_some in H as (src & Hsrc & H).
  apply or_skip14_some in H as (n1 & H1 & H).
  apply or_skip14_some in H as (n2 & H2 & H).
  apply or_skip14_some in H as (n3 & H3 & H).
  apply or_skip14_some in H as (n4 & H4 & H).
  apply bind_ret in H as (rs & Hrs & H).
  inversion H; subst; simpl.
  exists el. repeat split; assumption.
Qed.

End Gab14Facts.

Section FourChanFacts.

Import FourChan.

Lemma fix_image_urls_map srcs :
  fix_image_urls (List.map Some srcs) = Py.Ret (List.map fix_url srcs).
Proof.
  induction srcs as [|u srcs IH]; [reflexivity|].
  cbn [List.map fix_image_urls]. rewrite IH. reflexivity.
Qed.

Lemma fix_image_urls_ret l : forall r,
  fix_image_urls l = Py.Ret r ->
  exists srcs, l = List.map Some srcs /\ r = List.map fix_url srcs.
Proof.
  induction l as [|[u|] l IH]; intros r H.
  - inversion H. exists []. split; reflexivity.
  - cbn [fix_image_urls] in H.
    destruct (fix_image_urls l) as [fixed|e]; [|discriminate].
    destruct (IH fixed eq_refl) as (srcs & -> & ->).
    inversion H. exists (u :: srcs). split; reflexivity.
  - discriminate.
Qed.

Lemma scrape_pol_thread_some url pg t :
  scrape_pol_thread url pg = Py.Ret (Some t) ->
  exists th srcs,
    thread_article pg = Py.Ret th
    /\ post_id t = id_attr th
    /\ post_url t = url
    /\ img_srcs th = List.map Some srcs
    /\ image_urls t = List.map fix_url srcs.
Proof.
  unfold scrape_pol_thread.
  destruct (scrape_body url pg) as [t'|e] eqn:E;
    [|destruct (Py.is_Exception e); discriminate].
  intros H; inversion H; subst t'. clear H.
  unfold scrape_body in E.
  apply bind_ret in E as (u & Hload & E).
  apply bind_ret in E as (th & Hth & E).
  apply bind_ret in E as (imgs & Himgs & E).
  apply bind_ret in E as (rs & Hrs & E).
  inversion E; subst; simpl.
  destruct (fix_image_urls_ret _ _ Himgs) as (srcs & Hs & ->).
  exists th, srcs. repeat split; assumption.
Qed.

End FourChanFacts.

(** ** Sample pages *)

Lemma sample_page_extracts :
  Rescraper.get_post_details sample_url sample_page = Py.Ret (Some sample_post).
Proof. vm_compute. reflexivity. Qed.

Section DatasetInvariant.

Import Rescraper.

Lemma extracted_is_dated url pg p :
  get_post_details url pg = Py.Ret (Some p) -> dated p.
Proof.
  intros H.
  destruct (get_post_details_some _ _ _ H) as (el & _ & _ & _ & _ & Hs & _).
  destruct (scrape_timestamp_some _ _ _ _ Hs) as (te & _ & _ & Hiso).
  exact Hiso.
Qed.

(** the loop keeps the dataset dated *)
Lemma crawl_keeps_dated todo : forall dataset,
  Forall dated dataset -> Forall dated (fst (crawl todo dataset)).
Proof.
  induction todo as [|[url v] todo IH]; intros dataset Hd; [exact Hd|].
  cbn [crawl]. destruct v as [|pg|e]; [apply IH; exact Hd| |exact Hd].
  destruct (get_post_details url pg) as [[p|]|e] eqn:E;
    [|apply IH; exact Hd|exact Hd].
  apply IH. apply Forall_app. split; [exact Hd|].
  constructor; [|constructor]. eapply extracted_is_dated; eassumption.
Qed.

(** a handler is given the dataset of the run *)
Lemma handle_persisted write e dataset entered k d r :
  In (k, d, r) (persisted (handle write e dataset entered)) ->
  In (k, d, r) entered \/ d = dataset.
Proof.
  unfold handle. destruct (handler_of e) as [kind code]. cbn [persisted].
  intros H. apply in_app_or in H. destruct H as [H|[H|[]]]; [left; exact H|].
  right. inversion H; reflexivity.
Qed.

(** every block a run enters is given the dataset the loop has built *)
Lemma persisted_is_the_dataset start startup quit write k d r :
  In (k, d, r) (persisted (main start startup quit write)) ->
  d = fst match startup with
          | Py.Ret gab_urls => crawl gab_urls []
          | Py.Raise e => ([], Py.Raise e)
          end.
Proof.
  unfold main. destruct start as [u|e]; [|intros []].
  destruct (match startup with
            | Py.Ret gab_urls => crawl gab_urls []
            | Py.Raise e => ([], Py.Raise e)
            end) as [ds res].
  cbn [fst].
  destruct (Py.bind res (fun _ => quit)) as [u'|e].
  - destruct ds as [|p ds]; [intros []|].
    destruct (write Completed) as [u''|e].
    + intros [H|[]]. inversion H; reflexivity.
    + intros H. apply handle_persisted in H.
      destruct H as [[H|[]]|H]; [inversion H; reflexivity | exact H].
  - intros H. apply handle_persisted in H. destruct H as [[]|H]. exact H.
Qed.

Lemma persisted_is_dated start startup quit write kind dataset r :
  In (kind, dataset, r) (persisted (main start startup quit write)) ->
  Forall dated dataset.
Proof.
  intros H. apply persisted_is_the_dataset in H. subst dataset.
  destruct startup as [urls|e]; [|constructor].
  apply crawl_keeps_dated. constructor.
Qed.

End DatasetInvariant.

(** C8. In the rescraper every record that [get_post_details] returns has
    a timestamp element that was resolved and a timestamp that
    [parse_gab_datetime] normalized; so when the element is never resolved,
    or the parser returns null, no record is returned and the crawl loop
    leaves the dataset as it was; and every record given to a block that
    writes a file, in any run, has a normalized timestamp. *)
Theorem unnormalized_timestamp_disqualifies :
  (forall url pg p,
      Rescraper.get_post_details url pg = Py.Ret (Some p) ->
      exists el te,
        Rescraper.main_post pg (Markup.post_id_of_url url) = Py.Ret el
        /\ Rescraper.time_elem el = Py.Ret te
        /\ Rescraper.timestamp p
           = Rescraper.or_text (Rescraper.datetime_attr te)
                               (Str.strip (Rescraper.time_text te))
        /\ Rescraper.parse_gab_datetime (Some (Rescraper.timestamp p))
           = Py.Ret (Some (Rescraper.timestamp_iso p)))
  /\ (forall url pg el,
         Rescraper.main_post pg (Markup.post_id_of_url url) = Py.Ret el ->
         (exists e, Rescraper.time_elem el = Py.Raise e)
         \/ (exists te,
                Rescraper.time_elem el = Py.Ret te
                /\ Rescraper.parse_gab_datetime
                     (Some (Rescraper.or_text (Rescraper.datetime_attr te)
                              (Str.strip (Rescraper.time_text te))))
                   = Py.Ret None) ->
         (forall p, Rescraper.get_post_details url pg <> Py.Ret (Some p))
         /\ (forall dataset,
                fst (Rescraper.crawl [(url, Rescraper.Tab pg)] dataset)
                = dataset))
  /\ (forall start startup quit write kind dataset r,
         In (kind, dataset, r)
            (Rescraper.persisted (Rescraper.main start startup quit write)) ->
         Forall dated dataset).
Proof.
  assert (H1 : forall url pg p,
             Rescraper.get_post_details url pg = Py.Ret (Some p) ->
             exists el te,
               Rescraper.main_post pg (Markup.post_id_of_url url) = Py.Ret el
               /\ Rescraper.time_elem el = Py.Ret te
               /\ Rescraper.timestamp p
                  = Rescraper.or_text (Rescraper.datetime_attr te)
                                      (Str.strip (Rescraper.time_text te))
               /\ Rescraper.parse_gab_datetime (Some (Rescraper.timestamp p))
                  = Py.Ret (Some (Rescraper.timestamp_iso p))).
  { intros url pg p Hp.
    destruct (get_post_details_some _ _ _ Hp)
      as (el & Hel & _ & _ & _ & Hstamp & _).
    destruct (scrape_timestamp_some _ _ _ _ Hstamp) as (te & Hte & Hraw & Hiso).
    exists el, te. repeat split; assumption. }
  split; [exact H1|]. split; [|apply persisted_is_dated].
  intros url pg el Hel Hbad.
  assert (Hnone : forall p,
             Rescraper.get_post_details url pg <> Py.Ret (Some p)).
  { intros p Hp.
    destruct (H1 url pg p Hp) as (el' & te & Hel' & Hte & Hraw & Hiso).
    rewrite Hel in Hel'. inversion Hel'; subst el'.
    destruct Hbad as [[e He] | (te' & Hte' & Hnull)].
    - rewrite He in Hte. discriminate.
    - rewrite Hte in Hte'. inversion Hte'; subst te'.
      rewrite <- Hraw, Hiso in Hnull. discriminate. }
  split; [exact Hnone|].
  intros dataset. cbn [Rescraper.crawl].
  destruct (Rescraper.get_post_details url pg) as [[p|]|e] eqn:E;
    [exfalso; exact (Hnone p eq_refl) | reflexivity | reflexivity].
Qed.

Lemma unnormalized_timestamp_disqualifies_witness :
  fst (Rescraper.crawl [(sample_url, Rescraper.Tab undated_page)] [sample_post])
  = [sample_post].
Proof.
  refine (proj2 (proj1 (proj2 unnormalized_timestamp_disqualifies)
                   sample_url undated_page _ eq_refl _) [sample_post]).
  right. eexists. split; reflexivity.
Defined.

(** ** Identifiers *)

(** C7, as stated, fails on the 4chan extractor: the same canonical URL
    yields two identifiers when the markup differs. *)
Lemma identifier_follows_markup_on_4chan :
  option_map FourChan.post_id
    (option_of (FourChan.scrape_pol_thread thread_url_example
                  (thread_page_with "509876543" [])))
  = Some (Some "509876543")
  /\ option_map FourChan.post_id
       (option_of (FourChan.scrape_pol_thread thread_url_example
                     (thread_page_with "p509876543" [])))
     = Some (Some "p509876543")
  /\ FourChan.scrape_pol_thread thread_url_example
       (thread_page_with "509876543" [])
     <> FourChan.scrape_pol_thread thread_url_example
          (thread_page_with "p509876543" []).
Proof.
  split; [vm_compute; reflexivity|].
  split; [vm_compute; reflexivity|].
  vm_compute. intros H. discriminate H.
Qed.

(** C7, amended. In the two Gab extractors the identifier of a returned
    record is [post_id_of_url] of its URL, whatever the page shows, so two
    extractions from one URL agree on it; in the 4chan extractor the
    identifier is the [id] attribute of the root article of the rendered
    page. *)
Theorem gab_identifier_is_derived_from_url :
  (forall url pg p,
      Gab14.get_post_details url pg = Py.Ret (Some p) ->
      Gab14.post_id p = Markup.post_id_of_url url /\ Gab14.post_url p = url)
  /\ (forall url pg p,
         Rescraper.get_post_details url pg = Py.Ret (Some p) ->
         Rescraper.post_id p = Markup.post_id_of_url url
         /\ Rescraper.post_url p = url)
  /\ (forall url pg1 pg2 p1 p2,
         Rescraper.get_post_details url pg1 = Py.Ret (Some p1) ->
         Rescraper.get_post_details url pg2 = Py.Ret (Some p2) ->
         Rescraper.post_id p1 = Rescraper.post_id p2)
  /\ (forall url pg t,
         FourChan.scrape_pol_thread url pg = Py.Ret (Some t) ->
         exists th,
           FourChan.thread_article pg = Py.Ret th
           /\ FourChan.post_id t = FourChan.id_attr th
           /\ FourChan.post_url t = url).
Proof.
  split; [|split; [|split]].
  - intros url pg p H.
    destruct (get_post_details14_some _ _ _ H) as (el & _ & Hid & Hurl & _).
    split; assumption.
  - intros url pg p H.
    destruct (get_post_details_some _ _ _ H) as (el & _ & Hid & Hurl & _).
    split; assumption.
  - intros url pg1 pg2 p1 p2 H1 H2.
    destruct (get_post_details_some _ _ _ H1) as (_ & _ & Hid1 & _).
    destruct (get_post_details_some _ _ _ H2) as (_ & _ & Hid2 & _).
    rewrite Hid1, Hid2. reflexivity.
  - intros url pg t H.
    destruct (scrape_pol_thread_some _ _ _ H) as (th & srcs & Hth & Hid & Hurl & _).
    exists th. repeat split; assumption.
Qed.

Lemma gab_identifier_is_derived_from_url_witness :
  Rescraper.post_id sample_post = "114812345678901234"
  /\ Rescraper.post_url sample_post = sample_url.
Proof.
  exact (proj1 (proj2 gab_identifier_is_derived_from_url)
           sample_url sample_page sample_post sample_page_extracts).
Defined.

(** ** Media lists *)


Section MatchedOnce.

Import Markup.






End MatchedOnce.



(** ** The crawl loops and the persisted output *)

Section RescraperMain.

Import Rescraper.

Lemma crawl_cons url v rest dataset :
  crawl ((url, v) :: rest) dataset
  = match visit_result url v with
    | Py.Ret (Some p) => crawl rest (dataset ++ [p])%list
    | Py.Ret None => crawl rest dataset
    | Py.Raise e => (dataset, Py.Raise e)
    end.
Proof. destruct v; reflexivity. Qed.

Lemma crawl_calm_app pre : forall post dataset,
  calm pre ->
  crawl (pre ++ post)%list dataset = crawl post (dataset ++ records pre)%list.
Proof.
  induction pre as [|[url v] pre IH]; intros post dataset Hcalm.
  - simpl. rewrite app_nil_r. reflexivity.
  - inversion Hcalm as [|? ? [o Ho] Hrest]; subst. simpl in Ho.
    change (((url, v) :: pre) ++ post)%list with ((url, v) :: (pre ++ post))%list.
    rewrite crawl_cons. cbn [records]. rewrite Ho. destruct o as [p|].
    + rewrite (IH post _ Hrest), <- app_assoc. reflexivity.
    + rewrite (IH post _ Hrest). reflexivity.
Qed.

Lemma crawl_calm todo dataset :
  calm todo -> crawl todo dataset = ((dataset ++ records todo)%list, Py.Ret tt).
Proof.
  intros H. rewrite <- (app_nil_r todo) at 1.
  rewrite crawl_calm_app by assumption. reflexivity.
Qed.





End RescraperMain.

Section Gab14Main.

Import Gab14.

Lemma gab14_crawl_bound target todo : forall dataset,
  (List.length dataset <= target)%nat ->
  (List.length (fst (crawl target todo dataset)) <= target)%nat.
Proof.
  induction todo as [|[url v] todo IH]; intros dataset H; [exact H|].
  cbn [crawl].
  destruct (Nat.leb target (List.length dataset)) eqn:E; [exact H|].
  apply Nat.leb_gt in E.
  destruct v as [pg|e]; [|exact H].
  destruct (get_post_details url pg) as [[p|]|e]; [|apply IH; exact H|exact H].
  apply IH. rewrite length_app. simpl. lia.
Qed.



Lemma gab14_persisted_bound target p quit write l r :
  In (l, r) (persisted (main_with target p quit write)) ->
  (List.length l <= target)%nat.
Proof.
  unfold main_with, quit_then.
  destruct p as [|[|uv urls]|e]; try (destruct quit; intros []); try (intros []).
  pose proof (gab14_crawl_bound target (uv :: urls) [] (Nat.le_0_l target)) as Hb.
  destruct (crawl target (uv :: urls) []) as [dataset [u|e]];
    [|intros []].
  destruct quit as [u'|e]; [|intros []].
  destruct dataset as [|d ds]; [intros []|].
  intros [H|[]]. inversion H; subst. exact Hb.
Qed.

End Gab14Main.

Section FourChanMain.

Import FourChan.



Lemma fourchan_persisted_bound w target l :
  In l (persisted (run w target)) -> (List.length l <= target)%nat.
Proof.
  unfold run.
  destruct (scrape_pages w target _ []) as [data r].
  destruct data; simpl; [contradiction|].
  intros [<-|[]]. rewrite length_firstn. lia.
Qed.

End FourChanMain.

(** ** Sample runs *)

Lemma sample_page14_extracts :
  Gab14.get_post_details sample_url sample_page14 = Py.Ret (Some sample_post14).
Proof. vm_compute. reflexivity. Qed.


(** a run of the rescraper interrupted while it writes the completion
    file enters a second block, the interrupt dump, with the same record *)
Example rescraper_interrupted_while_writing :
  Rescraper.main (Py.Ret tt)
    (Py.Ret [(sample_url, Rescraper.Tab sample_page)]) (Py.Ret tt)
    interrupted_completion
  = {| Rescraper.persisted :=
         [(Rescraper.Completed, [sample_post],
           Py.Raise Py.KeyboardInterrupt);
          (Rescraper.InterruptDump, [sample_post], Py.Ret tt)];
       Rescraper.exit := Rescraper.SysExit 0 |}.
Proof. vm_compute. reflexivity. Qed.



(** the sample page shows a valid post under any URL *)
Lemma sample_page_accepts url :
  exists p, Rescraper.get_post_details url sample_page = Py.Ret (Some p).
Proof.
  assert (E1 : Markup.scrape_image_urls (Rescraper.outer_html sample_main)
               = Py.Ret [sample_image]) by (vm_compute; reflexivity).
  assert (E2 : Rescraper.scrape_timestamp sample_page sample_main
               = Py.Ret (Some (gab_example, "2025-07-07T07:59:42-07:00")))
    by (vm_compute; reflexivity).
  assert (E3 : Markup.scrape_likes "12 Reposts 3 Quotes 1.2K views" = Py.Ret 0)
    by (vm_compute; reflexivity).
  assert (E4 : Markup.scrape_reposts "12 Reposts 3 Quotes 1.2K views" = Py.Ret 12)
    by (vm_compute; reflexivity).
  assert (E5 : Markup.scrape_quotes "12 Reposts 3 Quotes 1.2K views" = Py.Ret 3)
    by (vm_compute; reflexivity).
  assert (E6 : Rescraper.scrape_views "12 Reposts 3 Quotes 1.2K views"
               = Py.Ret 1200) by (vm_compute; reflexivity).
  assert (E7 : Rescraper.replies_section sample_page = Py.Ret [sample_reply])
    by (vm_compute; reflexivity).
  unfold Rescraper.get_post_details.
  change (Rescraper.open_post sample_page (Markup.post_id_of_url url))
    with (Py.Ret tt).
  change (Rescraper.main_post sample_page (Markup.post_id_of_url url))
    with (Py.Ret sample_main).
  change (Rescraper.page_source sample_page)
    with (Py.Ret "12 Reposts 3 Quotes 1.2K views").
  change (Rescraper.scroll_comments sample_page) with (Py.Ret tt).
  change (Rescraper.body sample_main)
    with (Py.Ret "A first post about nothing in particular").
  cbn [Rescraper.or_skip Rescraper.scrape_text].
  rewrite E1. cbn [Rescraper.or_skip]. rewrite E2. cbn [Py.bind Rescraper.or_skip].
  rewrite E3. cbn [Rescraper.or_skip]. rewrite E4. cbn [Rescraper.or_skip].
  rewrite E5. cbn [Rescraper.or_skip]. rewrite E6. cbn [Rescraper.or_skip Py.bind].
  rewrite E7. cbn [Py.bind]. eexists. reflexivity.
Qed.

Lemma good_visits_calm n : Rescraper.calm (good_visits n).
Proof.
  unfold good_visits. generalize (List.seq 1 n). intros l.
  induction l as [|i l IH]; constructor; [|exact IH].
  destruct (sample_page_accepts (nth_url i)) as [p Hp].
  exists (Some p). exact Hp.
Qed.

Lemma good_visits_records n : List.length (Rescraper.records (good_visits n)) = n.
Proof.
  unfold good_visits.
  assert (H : forall l,
             List.length
               (Rescraper.records (List.map (fun i => (nth_url i, Rescraper.Tab sample_page)) l))
             = List.length l).
  { induction l as [|i l IH]; [reflexivity|].
    cbn [List.map Rescraper.records Rescraper.visit_result].
    destruct (sample_page_accepts (nth_url i)) as [p Hp].
    rewrite Hp. cbn [List.length]. rewrite IH. reflexivity. }
  rewrite H. apply length_seq.
Qed.

(** C2. The rescraper's loop never looks at [POSTS_TO_SCRAPE]: a list of
    1001 URLs that all show a valid post gives a dataset, and a file, of
    1001 records, one more than the target of 1000. *)
Theorem rescraper_exceeds_posts_to_scrape :
  exists dataset,
    Rescraper.main (Py.Ret tt) (Py.Ret (good_visits 1001)) (Py.Ret tt)
                   (fun _ => Py.Ret tt)
    = {| Rescraper.persisted := [(Rescraper.Completed, dataset, Py.Ret tt)];
         Rescraper.exit := Rescraper.Returned |}
    /\ List.length dataset = 1001%nat
    /\ (Rescraper.POSTS_TO_SCRAPE < List.length dataset)%nat.
Proof.
  exists (Rescraper.records (good_visits 1001)).
  pose proof (good_visits_records 1001) as Hlen.
  split; [|split; [exact Hlen | rewrite Hlen; unfold Rescraper.POSTS_TO_SCRAPE; lia]].
  unfold Rescraper.main.
  rewrite (crawl_calm _ [] (good_visits_calm 1001)). cbn [app Py.bind].
  destruct (Rescraper.records (good_visits 1001)); [discriminate Hlen | reflexivity].
Qed.

(** * Further properties *)

(** ** More on the field normalizer *)

Section CountEdges.

Import Normalizer.

Lemma run_count_pattern_no_digit c s :
  Str.is_digit c = false -> Re.run count_pattern (String c s) = [].
Proof. intros H. unfold count_pattern. cbn [Re.run]. rewrite H. reflexivity. Qed.

Lemma search_count_pattern_no_digit s :
  Text.any_char Str.is_digit s = false -> Re.search count_pattern s = None.
Proof.
  induction s as [|c s IH]; intros H.
  - reflexivity.
  - cbn [Text.any_char] in H. apply orb_false_elim in H as [Hc Hs].
    cbn [Re.search]. unfold Re.match_at.
    rewrite (run_count_pattern_no_digit c s Hc). apply IH. exact Hs.
Qed.

End CountEdges.

(** X1. Whatever it is given, [extract_count_from_string] returns a count
    that is not negative, or raises [OverflowError]; no other exception
    leaves it. *)
Theorem extract_count_nonneg_or_overflow :
  forall t,
    (exists n, Normalizer.extract_count_from_string t = Py.Ret n /\ 0 <= n)
    \/ Normalizer.extract_count_from_string t = Py.Raise Py.OverflowError.
Proof.
  intros t.
  destruct (Normalizer.extract_count_from_string t) as [n|e] eqn:E.
  - left. exists n. split; [reflexivity|].
    eapply extract_count_nonneg; eassumption.
  - right. f_equal. eapply extract_count_raises_only_overflow; eassumption.
Qed.

(** X2. A text of characters below U+0100 none of which is one of the
    digits 0 to 9 counts as 0: the pattern finds nothing and the function
    falls through to its last line. *)
Theorem extract_count_without_digit :
  forall s,
    Text.any_char Str.is_digit s = false ->
    Normalizer.extract_count_from_string (Some s) = Py.Ret 0.
Proof.
  intros [|c s] H; [reflexivity|].
  unfold Normalizer.extract_count_from_string, Normalizer.count_try.
  rewrite (search_count_pattern_no_digit _ H). reflexivity.
Qed.

Lemma extract_count_without_digit_witness :
  Normalizer.extract_count_from_string (Some "N/A (Timeout)") = Py.Ret 0.
Proof. apply (extract_count_without_digit "N/A (Timeout)"). reflexivity. Defined.

(** ** Counts of a record *)

Section RecordCounts.

Import Markup.

Lemma count_of_nonneg m n : count_of m = Py.Ret n -> 0 <= n.
Proof.
  destruct m as [mo|]; simpl.
  - apply extract_count_nonneg.
  - intros H; inversion H; lia.
Qed.

Lemma scrape_likes_nonneg src n : scrape_likes src = Py.Ret n -> 0 <= n.
Proof.
  unfold scrape_likes.
  destruct (Re.search reactions_pattern src); apply count_of_nonneg.
Qed.

Lemma rescraper_views_nonneg src n : Rescraper.scrape_views src = Py.Ret n -> 0 <= n.
Proof.
  unfold Rescraper.scrape_views.
  destruct (Re.search views_button_pattern src); [apply count_of_nonneg|].
  destruct (Re.search Rescraper.views_span_pattern src); apply count_of_nonneg.
Qed.

Lemma gab14_views_nonneg src n : Gab14.scrape_views src = Py.Ret n -> 0 <= n.
Proof.
  unfold Gab14.scrape_views.
  destruct (Re.search views_button_pattern src); apply count_of_nonneg.
Qed.

(** the counts of a returned record are those read from the page source *)
Lemma rescraper_counts url pg p :
  Rescraper.get_post_details url pg = Py.Ret (Some p) ->
  exists src,
    Rescraper.page_source pg = Py.Ret src
    /\ scrape_likes src = Py.Ret (Rescraper.likes p)
    /\ scrape_reposts src = Py.Ret (Rescraper.reposts_count p)
    /\ scrape_quotes src = Py.Ret (Rescraper.quotes_count p)
    /\ Rescraper.scrape_views src = Py.Ret (Rescraper.views p).
Proof.
  unfold Rescraper.get_post_details. intros H.
  apply or_skip_some in H as (u & Hopen & H).
  apply or_skip_some in H as (el & Hel & H).
  apply or_skip_some in H as (txt & Htxt & H).
  apply or_skip_some in H as (imgs & Himgs & H).
  apply bind_ret in H as (stamp & Hstamp & H).
  destruct stamp as [[raw iso]|]; [|discriminate].
  apply or_skip_some in H as (src & Hsrc & H).
  apply or_skip_some in H as (n1 & H1 & H).
  apply or_skip_some in H as (n2 & H2 & H).
  apply or_skip_some in H as (n3 & H3 & H).
  apply or_skip_some in H as (n4 & H4 & H).
  apply bind_ret in H as (u' & Hscroll & H).
  apply bind_ret in H as (rs & Hrs & H).
  destruct (Nat.ltb _ _); [discriminate|].
  inversion H; subst; simpl.
  exists src. repeat split; assumption.
Qed.

Lemma gab14_counts url pg p :
  Gab14.get_post_details url pg = Py.Ret (Some p) ->
  exists src,
    Gab14.page_source pg = Py.Ret src
    /\ scrape_likes src = Py.Ret (Gab14.likes p)
    /\ scrape_reposts src = Py.Ret (Gab14.reposts_count p)
    /\ scrape_quotes src = Py.Ret (Gab14.quotes_count p)
    /\ Gab14.scrape_views src = Py.Ret (Gab14.views p).
Proof.
  unfold Gab14.get_post_details. intros H.
  apply or_skip14_some in H as (u & Hopen & H).
  apply or_skip14_some in H as (el & Hel & H).
  apply or_skip14_some in H as (txt & Htxt & H).
  apply or_skip14_some in H as (imgs & Himgs & H).
  apply or_skip14_some in H as (stamp & Hstamp & H).
  apply or_skip14_some in H as (src & Hsrc & H).
  apply or_skip14_some in H as (n1 & H1 & H).
  apply or_skip14_some in H as (n2 & H2 & H).
  apply or_skip14_some in H as (n3 & H3 & H).
  apply or_skip14_some in H as (n4 & H4 & H).
  apply bind_ret in H as (rs & Hrs & H).
  inversion H; subst; simpl.
  exists src. repeat split; assumption.
Qed.

End RecordCounts.

(** X3. In a record returned by either Gab extractor the four interaction
    counts (likes, reposts, quotes, views) are not negative. *)
Theorem gab_record_counts_are_nonneg :
  (forall url pg p,
      Rescraper.get_post_details url pg = Py.Ret (Some p) ->
      0 <= Rescraper.likes p /\ 0 <= Rescraper.reposts_count p
      /\ 0 <= Rescraper.quotes_count p /\ 0 <= Rescraper.views p)
  /\ (forall url pg p,
         Gab14.get_post_details url pg = Py.Ret (Some p) ->
         0 <= Gab14.likes p /\ 0 <= Gab14.reposts_count p
         /\ 0 <= Gab14.quotes_count p /\ 0 <= Gab14.views p).
Proof.
  split; intros url pg p H.
  - destruct (rescraper_counts _ _ _ H) as (src & _ & H1 & H2 & H3 & H4).
    repeat split.
    + eapply scrape_likes_nonneg; eassumption.
    + eapply count_of_nonneg; exact H2.
    + eapply count_of_nonneg; exact H3.
    + eapply rescraper_views_nonneg; eassumption.
  - destruct (gab14_counts _ _ _ H) as (src & _ & H1 & H2 & H3 & H4).
    repeat split.
    + eapply scrape_likes_nonneg; eassumption.
    + eapply count_of_nonneg; exact H2.
    + eapply count_of_nonneg; exact H3.
    + eapply gab14_views_nonneg; eassumption.
Qed.

Lemma gab_record_counts_are_nonneg_witness :
  0 <= Rescraper.likes sample_post /\ 0 <= Rescraper.reposts_count sample_post
  /\ 0 <= Rescraper.quotes_count sample_post /\ 0 <= Rescraper.views sample_post.
Proof.
  exact (proj1 gab_record_counts_are_nonneg
           sample_url sample_page sample_post sample_page_extracts).
Defined.

(** ** Reply identifiers *)

Section ReplyIds.

Import Rescraper.

Lemma unique_reply_elements_ids els : forall seen l,
  unique_reply_elements els seen = Py.Ret l ->
  NoDup (List.map fst l)
  /\ Forall (fun ident => (ident ∉ seen) /\ ident <> "") (List.map fst l).
Proof.
  induction els as [|elem els IH]; intros seen l H.
  - inversion H. split; constructor.
  - cbn [unique_reply_elements] in H.
    destruct (data_comment elem) as [[[|c r]|]|e].
    + apply IH; exact H.
    + destruct (bool_decide (String c r ∈ seen)) eqn:Hseen.
      * apply IH; exact H.
      * apply bind_ret in H as (more & Hmore & H). inversion H; subst l.
        destruct (IH _ _ Hmore) as [Hnd Hall].
        apply bool_decide_eq_false in Hseen.
        cbn [List.map fst]. split.
        -- apply NoDup_cons. split; [|exact Hnd].
           intros Hin.
           rewrite Forall_forall in Hall.
           destruct (Hall _ Hin) as [Hnot _].
           apply Hnot. apply elem_of_union_l, elem_of_singleton. reflexivity.
        -- constructor; [split; [exact Hseen | discriminate]|].
           eapply Forall_impl; [exact Hall|].
           intros ident [Hnot Hne]. split; [|exact Hne].
           intros Hin. apply Hnot. apply elem_of_union_r. exact Hin.
    + apply IH; exact H.
    + destruct e; try discriminate. apply IH; exact H.
Qed.

Lemma scrape_reply_id ident el r :
  scrape_reply ident el = Py.Ret r -> reply_id r = ident.
Proof.
  unfold scrape_reply. intros H.
  apply bind_ret in H as (txt & _ & H).
  apply bind_ret in H as (stamp & _ & H).
  apply bind_ret in H as (imgs & _ & H).
  inversion H; reflexivity.
Qed.

Lemma scrape_replies_ids els : forall rs,
  scrape_replies els = Py.Ret rs ->
  List.map reply_id rs = List.map fst els.
Proof.
  induction els as [|[ident el] els IH]; intros rs H.
  - inversion H. reflexivity.
  - cbn [scrape_replies] in H.
    apply bind_ret in H as (r & Hr & H).
    apply bind_ret in H as (rs' & Hrs & H).
    inversion H; subst. cbn [List.map fst].
    rewrite (scrape_reply_id _ _ _ Hr), (IH _ Hrs). reflexivity.
Qed.

Lemma replies_section_ids pg rs :
  replies_section pg = Py.Ret rs ->
  NoDup (List.map reply_id rs)
  /\ Forall (fun ident => ident <> "") (List.map reply_id rs).
Proof.
  unfold replies_section.
  destruct (Py.bind (reply_wait pg) _) as [uniq|e] eqn:E.
  - intros H. rewrite (scrape_replies_ids _ _ H).
    apply bind_ret in E as (u & _ & E).
    apply bind_ret in E as (els & _ & E).
    destruct (unique_reply_elements_ids _ _ _ E) as [Hnd Hall].
    split; [exact Hnd|].
    eapply Forall_impl; [exact Hall|]. intros ident [_ Hne]. exact Hne.
  - destruct (Py.is_Exception e); intros H; inversion H. split; constructor.
Qed.

End ReplyIds.

(** X4. In a record returned by the rescraper no two replies carry the same
    identifier, and no reply identifier is empty: one element is kept per
    [data-comment] value, and elements without one are left out. *)
Theorem rescraper_reply_ids_are_distinct :
  forall url pg p,
    Rescraper.get_post_details url pg = Py.Ret (Some p) ->
    NoDup (List.map Rescraper.reply_id (Rescraper.replies p))
    /\ Forall (fun ident => ident <> "")
              (List.map Rescraper.reply_id (Rescraper.replies p)).
Proof.
  intros url pg p H.
  destruct (get_post_details_some _ _ _ H) as (el & _ & _ & _ & _ & _ & Hrs).
  apply (replies_section_ids pg). exact Hrs.
Qed.

Lemma rescraper_reply_ids_are_distinct_witness :
  NoDup (List.map Rescraper.reply_id (Rescraper.replies sample_post))
  /\ Forall (fun ident => ident <> "")
            (List.map Rescraper.reply_id (Rescraper.replies sample_post)).
Proof.
  exact (rescraper_reply_ids_are_distinct
           sample_url sample_page sample_post sample_page_extracts).
Defined.

(** ** The age filter *)

Section AgeFilter.

Import DateTime Rescraper.

Lemma age_is_negative a b :
  (days_between a b <? MIN_POST_AGE_DAYS) = negb (instant_us b <=? instant_us a).
Proof.
  unfold days_between, MIN_POST_AGE_DAYS, day_us.
  destruct (instant_us b <=? instant_us a) eqn:E; cbn [negb].
  - apply Z.leb_le in E. apply Z.ltb_ge. apply Z.div_pos; lia.
  - apply Z.leb_gt in E. apply Z.ltb_lt.
    apply Z.div_lt_upper_bound; lia.
Qed.

Lemma scrape_timestamp_age pg el raw iso :
  scrape_timestamp pg el = Py.Ret (Some (raw, iso)) ->
  exists dt,
    fromisoformat iso = Py.Ret dt /\ instant_us dt <= instant_us (now pg).
Proof.
  unfold scrape_timestamp. intros H.
  apply or_skip_some in H as (te & Hte & H).
  apply or_skip_some in H as (r & Hparse & H).
  destruct r as [[|c r]|]; try discriminate.
  apply or_skip_some in H as (dt & Hdt & H).
  rewrite age_is_negative in H.
  destruct (instant_us dt <=? instant_us (now pg)) eqn:E; [|discriminate].
  inversion H; subst. exists dt. split; [exact Hdt|].
  apply Z.leb_le. exact E.
Qed.

Lemma scrape_timestamp_filter pg el te c r dt :
  time_elem el = Py.Ret te ->
  parse_gab_datetime
    (Some (or_text (datetime_attr te) (Str.strip (time_text te))))
  = Py.Ret (Some (String c r)) ->
  fromisoformat (String c r) = Py.Ret dt ->
  scrape_timestamp pg el
  = Py.Ret (if instant_us dt <=? instant_us (now pg)
            then Some (or_text (datetime_attr te) (Str.strip (time_text te)),
                       String c r)
            else None).
Proof.
  intros Hte Hparse Hdt. unfold scrape_timestamp.
  rewrite Hte. cbn [or_skip]. rewrite Hparse. cbn [or_skip].
  rewrite Hdt. cbn [or_skip]. rewrite age_is_negative.
  destruct (instant_us dt <=? instant_us (now pg)); reflexivity.
Qed.

End AgeFilter.

(** X5. With [MIN_POST_AGE_DAYS = 0] the age filter of the rescraper drops
    exactly the posts dated after the clock reading [now]: the normalized
    timestamp of a returned record reads back as an instant that is not
    later than [now], and a post whose timestamp parses is let through by
    the timestamp block when its instant is not later than [now] and dropped
    when it is. *)
Theorem rescraper_age_filter_drops_future_posts :
  (forall url pg p,
      Rescraper.get_post_details url pg = Py.Ret (Some p) ->
      exists dt,
        DateTime.fromisoformat (Rescraper.timestamp_iso p) = Py.Ret dt
        /\ DateTime.instant_us dt <= DateTime.instant_us (Rescraper.now pg))
  /\ (forall pg el te c r dt,
         Rescraper.time_elem el = Py.Ret te ->
         Rescraper.parse_gab_datetime
           (Some (Rescraper.or_text (Rescraper.datetime_attr te)
                                    (Str.strip (Rescraper.time_text te))))
         = Py.Ret (Some (String c r)) ->
         DateTime.fromisoformat (String c r) = Py.Ret dt ->
         Rescraper.scrape_timestamp pg el
         = Py.Ret (if DateTime.instant_us dt <=? DateTime.instant_us (Rescraper.now pg)
                   then Some (Rescraper.or_text (Rescraper.datetime_attr te)
                                (Str.strip (Rescraper.time_text te)),
                              String c r)
                   else None)).
Proof.
  split.
  - intros url pg p H.
    destruct (get_post_details_some _ _ _ H) as (el & _ & _ & _ & _ & Hs & _).
    eapply scrape_timestamp_age; eassumption.
  - apply scrape_timestamp_filter.
Qed.

Lemma rescraper_age_filter_drops_future_posts_witness :
  Rescraper.scrape_timestamp early_page sample_main = Py.Ret None.
Proof.
  refine (proj2 rescraper_age_filter_drops_future_posts
            early_page sample_main sample_time
            "2"%char "025-07-07T07:59:42-07:00" sample_instant eq_refl _ _);
    vm_compute; reflexivity.
Defined.

(** ** The two loops that stop at their target *)

(** X6. A run of [gab_scraper_14.py] writes at most one file, and a file it
    writes holds at least one record and at most [POSTS_TO_SCRAPE] of
    them. *)
Theorem gab14_persists_at_most_the_target :
  forall p quit write,
    (List.length (Gab14.persisted (Gab14.main p quit write)) <= 1)%nat
    /\ (forall l r,
           In (l, r) (Gab14.persisted (Gab14.main p quit write)) ->
           l <> [] /\ (List.length l <= Gab14.POSTS_TO_SCRAPE)%nat).
Proof.
  intros p quit write. split.
  - unfold Gab14.main, Gab14.main_with, Gab14.quit_then.
    destruct p as [|[|uv urls]|e];
      try (destruct quit; cbn [Gab14.persisted List.length]; lia);
      try (cbn [Gab14.persisted List.length]; lia).
    destruct (Gab14.crawl _ _ _) as [dataset [u|e]];
      [|cbn [Gab14.persisted List.length]; lia].
    destruct quit; [|cbn [Gab14.persisted List.length]; lia].
    destruct dataset; cbn [Gab14.persisted List.length]; lia.
  - intros l r Hl. split.
    + intros ->. revert Hl. unfold Gab14.main, Gab14.main_with, Gab14.quit_then.
      destruct p as [|[|uv urls]|e];
        try (destruct quit; intros []); try (intros []).
      destruct (Gab14.crawl _ _ _) as [dataset [u|e]]; [|intros []].
      destruct quit; [|intros []].
      destruct dataset; [intros []|]. intros [H|[]]. discriminate H.
    + exact (gab14_persisted_bound Gab14.POSTS_TO_SCRAPE p quit write l r Hl).
Qed.

Lemma gab14_persists_at_most_the_target_witness :
  [sample_post14] <> [] /\ (List.length [sample_post14] <= Gab14.POSTS_TO_SCRAPE)%nat.
Proof.
  apply (proj2 (gab14_persists_at_most_the_target
                  (Gab14.Collected [(sample_url, Gab14.Tab sample_page14)])
                  (Py.Ret tt) (Py.Ret tt))
               [sample_post14] (Py.Ret tt)).
  vm_compute. left. reflexivity.
Defined.



(** ** Thumbnail URLs of the 4chan extractor *)

Section FixUrl.

Import FourChan.

Lemma append_nil_r (s : string) : s ++ "" = s.
Proof.
  induction s as [|c s IH]; [reflexivity|].
  rewrite append_cons, IH. reflexivity.
Qed.

Lemma replace_aux_nil old new fuel : Str.replace_aux old new fuel "" = "".
Proof. destruct fuel; reflexivity. Qed.

Lemma length_drop_le n : forall s,
  (String.length (Str.drop n s) <= String.length s)%nat.
Proof.
  induction n as [|n IH]; intros s; destruct s as [|c s];
    cbn [Str.drop String.length]; try lia.
  specialize (IH s). lia.
Qed.

(** with fuel to spare the result is that of [replace] *)
Lemma replace_aux_enough a old new s : forall fuel,
  (String.length s <= fuel)%nat ->
  Str.replace_aux (String a old) new fuel s = Str.replace (String a old) new s.
Proof.
  unfold Str.replace.
  remember (String.length s) as n eqn:Hn.
  revert s Hn. induction n as [n IH] using lt_wf_ind.
  intros s Hn fuel Hf.
  destruct s as [|c s'].
  - rewrite !replace_aux_nil. reflexivity.
  - cbn [String.length] in Hn. subst n.
    destruct fuel as [|fuel]; [lia|].
    cbn [Str.replace_aux].
    destruct (Str.starts_with (String a old) (String c s')).
    + f_equal. cbn [String.length Str.drop].
      pose proof (length_drop_le (String.length old) s') as Hd.
      rewrite (IH (String.length (Str.drop (String.length old) s')));
        [|lia|reflexivity|lia].
      symmetry.
      apply (IH (String.length (Str.drop (String.length old) s')));
        [lia|reflexivity|lia].
    + f_equal.
      rewrite (IH (String.length s')); [|lia|reflexivity|lia].
      reflexivity.
Qed.

(** an occurrence of the thumbnail suffix that begins inside [p] lies
    inside [p] *)
Lemma thumb_suffix_no_straddle c p rest :
  Str.starts_with "s.jpg" (String c p ++ "s.jpg" ++ rest) = true ->
  Str.starts_with "s.jpg" (String c p) = true.
Proof.
  rewrite append_cons.
  destruct p as [|c1 [|c2 [|c3 [|c4 p]]]];
    rewrite ?append_cons, ?append_nil;
    cbn [Str.starts_with]; unfold Str.is_char; cbn [Ascii.eqb Bool.eqb];
    rewrite ?andb_false_r; try discriminate; trivial.
Qed.

Lemma drop_append (a b : string) : Str.drop (String.length a) (a ++ b) = b.
Proof.
  induction a as [|c a IH]; [rewrite append_nil; destruct b; reflexivity|].
  rewrite append_cons. cbn [String.length Str.drop]. exact IH.
Qed.

Lemma starts_with_append (a b : string) : Str.starts_with a (a ++ b) = true.
Proof.
  induction a as [|c a IH]; [reflexivity|].
  rewrite append_cons. cbn [Str.starts_with].
  unfold Str.is_char. rewrite Ascii.eqb_refl. exact IH.
Qed.

(** every occurrence is rewritten: up to the first one the text is kept,
    the occurrence loses its first letter, and the rest is rewritten in
    turn *)
Lemma replace_thumb p : forall rest,
  Text.occurs "s.jpg" p = false ->
  Str.replace "s.jpg" ".jpg" (p ++ "s.jpg" ++ rest)
  = p ++ ".jpg" ++ Str.replace "s.jpg" ".jpg" rest.
Proof.
  induction p as [|c p IH]; intros rest Hp.
  - rewrite !append_nil. unfold Str.replace at 1.
    change (String.length ("s.jpg" ++ rest))
      with (S (String.length (String "." (String "j" (String "p" (String "g" rest)))))).
    change ("s.jpg" ++ rest) with (String "s" (".jpg" ++ rest)) at 1.
    cbn [Str.replace_aux].
    change (String "s" (".jpg" ++ rest)) with ("s.jpg" ++ rest).
    rewrite starts_with_append.
    change (String.length "s.jpg") with (String.length "s.jpg").
    rewrite drop_append.
    rewrite replace_aux_enough; [reflexivity|].
    cbn [String.length]. lia.
  - cbn [Text.occurs] in Hp. apply orb_false_elim in Hp as [Hc Hp].
    unfold Str.replace at 1.
    rewrite !(append_cons c p). cbn [String.length Str.replace_aux].
    rewrite <- (append_cons c p).
    destruct (Str.starts_with "s.jpg" (String c p ++ "s.jpg" ++ rest)) eqn:E.
    + apply thumb_suffix_no_straddle in E. congruence.
    + f_equal.
      rewrite replace_aux_enough by lia.
      apply IH. exact Hp.
Qed.

Lemma ends_with_aux_append (a p : string) :
  Str.ends_with_aux (String.length a) p (a ++ p) = true.
Proof.
  induction a as [|c a IH].
  - rewrite append_nil. cbn [String.length Str.ends_with_aux].
    apply String.eqb_refl.
  - rewrite append_cons. cbn [String.length Str.ends_with_aux]. exact IH.
Qed.

Lemma ends_with_append (a p : string) : Str.ends_with p (a ++ p) = true.
Proof.
  unfold Str.ends_with. rewrite length_append.
  replace (String.length a + String.length p - String.length p)%nat
    with (String.length a) by lia.
  apply ends_with_aux_append.
Qed.

End FixUrl.

(** X8. [fix_url] leaves alone a URL that does not end in [s.jpg]; in one
    that does, [str.replace] rewrites every occurrence of [s.jpg], not only
    the suffix: a thumbnail URL with no other occurrence loses just the [s]
    before the extension, and one with an occurrence further left loses
    that [s] too. *)
Theorem fix_url_rewrites_every_occurrence :
  (forall url,
      Str.ends_with "s.jpg" url = false -> FourChan.fix_url url = url)
  /\ (forall p,
         Text.occurs "s.jpg" p = false ->
         FourChan.fix_url (p ++ "s.jpg") = p ++ ".jpg")
  /\ (forall p p',
         Text.occurs "s.jpg" p = false ->
         Text.occurs "s.jpg" p' = false ->
         FourChan.fix_url (p ++ "s.jpg" ++ p' ++ "s.jpg")
         = p ++ ".jpg" ++ p' ++ ".jpg").
Proof.
  split; [|split].
  - intros url H. unfold FourChan.fix_url. rewrite H. reflexivity.
  - intros p Hp. unfold FourChan.fix_url.
    rewrite ends_with_append.
    rewrite <- (append_nil_r "s.jpg") at 2.
    rewrite (replace_thumb p "" Hp). reflexivity.
  - intros p p' Hp Hp'. unfold FourChan.fix_url.
    rewrite string_append_assoc, (string_append_assoc (p ++ "s.jpg")).
    rewrite ends_with_append.
    rewrite <- !string_append_assoc.
    rewrite (replace_thumb p _ Hp).
    rewrite <- (append_nil_r "s.jpg") at 2.
    rewrite (replace_thumb p' "" Hp'). reflexivity.
Qed.

Lemma fix_url_rewrites_every_occurrence_witness :
  FourChan.fix_url full_example = full_example
  /\ FourChan.fix_url thumb_example = full_example
  /\ FourChan.fix_url "https://i.4pcdn.org/pol/thumbs.jpg/1751913011123s.jpg"
     = "https://i.4pcdn.org/pol/thumb.jpg/1751913011123.jpg".
Proof.
  split; [|split].
  - apply (proj1 fix_url_rewrites_every_occurrence full_example).
    vm_compute. reflexivity.
  - apply (proj1 (proj2 fix_url_rewrites_every_occurrence)
             "https://i.4pcdn.org/pol/1751913011123").
    vm_compute. reflexivity.
  - apply (proj2 (proj2 fix_url_rewrites_every_occurrence)
             "https://i.4pcdn.org/pol/thumb" "/1751913011123");
      vm_compute; reflexivity.
Defined.

(** ** The identifier cut from a URL *)

Section PostIdOfUrl.

Import Markup.

Lemma contains_append a (s t : string) :
  Str.contains a (s ++ t) = (Str.contains a s || Str.contains a t)%bool.
Proof.
  induction s as [|c s IH]; [rewrite append_nil; reflexivity|].
  rewrite append_cons. cbn [Str.contains]. rewrite IH, orb_assoc. reflexivity.
Qed.

Lemma contains_drop a n : forall s,
  Str.contains a (Str.drop n s) = true -> Str.contains a s = true.
Proof.
  induction n as [|n IH]; intros s; destruct s as [|c s];
    cbn [Str.drop]; trivial.
  intros H. cbn [Str.contains]. rewrite (IH s H). apply orb_true_r.
Qed.

Lemma split_aux_nonempty sep fuel : forall cur s,
  Str.split_aux sep fuel cur s <> [].
Proof.
  induction fuel as [|fuel IH]; intros cur s; [discriminate|].
  cbn [Str.split_aux]. destruct s as [|c s]; [discriminate|].
  destruct (Str.starts_with sep (String c s)); [discriminate | apply IH].
Qed.

(** the pieces cut at the character [a] do not contain it *)
Lemma split_aux_free a fuel : forall cur s,
  (String.length s <= fuel)%nat ->
  Str.contains a cur = false ->
  Forall (fun p => Str.contains a p = false)
         (Str.split_aux (String a "") fuel cur s).
Proof.
  induction fuel as [|fuel IH]; intros cur s Hf Hcur.
  - destruct s; [|cbn [String.length] in Hf; lia].
    cbn [Str.split_aux]. rewrite append_nil_r.
    constructor; [exact Hcur | constructor].
  - cbn [Str.split_aux]. destruct s as [|c s].
    + constructor; [exact Hcur | constructor].
    + cbn [String.length] in Hf.
      cbn [Str.starts_with String.length Str.drop].
      rewrite andb_true_r.
      destruct (Str.is_char a c) eqn:E.
      * constructor; [exact Hcur|].
        apply IH; [destruct s; cbn [Str.drop]; lia | reflexivity].
      * apply IH; [lia|].
        rewrite contains_append, Hcur. cbn [Str.contains orb].
        rewrite E. reflexivity.
Qed.

(** every piece is made of characters of the text that was cut *)
Lemma split_aux_within sep b fuel : forall cur s,
  Forall (fun p => Str.contains b p = true ->
                   Str.contains b cur = true \/ Str.contains b s = true)
         (Str.split_aux sep fuel cur s).
Proof.
  induction fuel as [|fuel IH]; intros cur s.
  - cbn [Str.split_aux]. constructor; [|constructor].
    rewrite contains_append. intros H. apply orb_true_iff. exact H.
  - cbn [Str.split_aux]. destruct s as [|c s].
    + constructor; [|constructor]. intros H. left. exact H.
    + destruct (Str.starts_with sep (String c s)).
      * constructor; [intros H; left; exact H|].
        eapply Forall_impl; [apply IH|].
        intros p Hp H. destruct (Hp H) as [H'|H']; [discriminate|].
        right. eapply contains_drop. exact H'.
      * eapply Forall_impl; [apply IH|].
        intros p Hp H. destruct (Hp H) as [H'|H'].
        -- rewrite contains_append in H'.
           apply orb_true_iff in H' as [H'|H']; [left; exact H'|].
           right. cbn [Str.contains] in *.
           rewrite orb_false_r in H'. rewrite H'. reflexivity.
        -- right. cbn [Str.contains]. rewrite H'. apply orb_true_r.
Qed.

Lemma first_piece_free a s :
  Str.contains a (Str.first_piece (Str.split (String a "") s)) = false.
Proof.
  pose proof (split_aux_free a (String.length s) "" s (Nat.le_refl _) eq_refl) as H.
  unfold Str.first_piece, Str.split.
  destruct (Str.split_aux _ _ _ _); [reflexivity|].
  inversion H; assumption.
Qed.

Lemma last_piece_free a s :
  Str.contains a (Str.last_piece (Str.split (String a "") s)) = false.
Proof.
  pose proof (split_aux_free a (String.length s) "" s (Nat.le_refl _) eq_refl) as H.
  unfold Str.last_piece, Str.split.
  induction H as [|p l Hp Hl IH]; [reflexivity|].
  cbn [List.last]. destruct l; [exact Hp | exact IH].
Qed.

Lemma first_piece_within sep b s :
  Str.contains b s = false ->
  Str.contains b (Str.first_piece (Str.split sep s)) = false.
Proof.
  intros Hs.
  pose proof (split_aux_within sep b (String.length s) "" s) as H.
  unfold Str.first_piece, Str.split.
  destruct (Str.split_aux _ _ _ _) as [|p l]; [reflexivity|].
  inversion H as [|? ? Hp _]; subst. cbn [List.hd].
  destruct (Str.contains b p) eqn:E; [|reflexivity].
  destruct (Hp eq_refl) as [H'|H']; [discriminate | congruence].
Qed.

(** a text without the character is one piece *)
Lemma split_aux_whole a fuel : forall cur s,
  (String.length s <= fuel)%nat ->
  Str.contains a s = false ->
  Str.split_aux (String a "") fuel cur s = [cur ++ s].
Proof.
  induction fuel as [|fuel IH]; intros cur s Hf Hs; [reflexivity|].
  cbn [Str.split_aux]. destruct s as [|c s]; [rewrite append_nil_r; reflexivity|].
  cbn [String.length] in Hf.
  cbn [Str.contains] in Hs. apply orb_false_elim in Hs as [Hc Hs].
  cbn [Str.starts_with]. rewrite Hc. cbn [andb].
  rewrite IH by (assumption || lia).
  rewrite <- string_append_assoc. reflexivity.
Qed.

(** the first piece of a text is what precedes the first [a] *)
Lemma split_aux_first a x y fuel : forall cur,
  (String.length (x ++ String a y) <= fuel)%nat ->
  Str.contains a x = false ->
  List.hd "" (Str.split_aux (String a "") fuel cur (x ++ String a y)) = cur ++ x.
Proof.
  revert fuel. induction x as [|c x IH]; intros fuel cur Hf Hx.
  - rewrite append_nil in *. rewrite append_nil_r.
    destruct fuel as [|fuel]; [cbn [String.length] in Hf; lia|].
    cbn [Str.split_aux Str.starts_with].
    unfold Str.is_char at 1. rewrite Ascii.eqb_refl. reflexivity.
  - rewrite append_cons in *.
    destruct fuel as [|fuel]; [cbn [String.length] in Hf; lia|].
    cbn [String.length] in Hf.
    cbn [Str.contains] in Hx. apply orb_false_elim in Hx as [Hc Hx].
    cbn [Str.split_aux Str.starts_with]. rewrite Hc. cbn [andb].
    rewrite IH by (assumption || lia).
    rewrite <- string_append_assoc. reflexivity.
Qed.

(** the last piece of a text is what follows the last [a] *)
Lemma split_aux_last a x y fuel : forall cur,
  (String.length (x ++ String a y) <= fuel)%nat ->
  Str.contains a y = false ->
  List.last (Str.split_aux (String a "") fuel cur (x ++ String a y)) "" = y.
Proof.
  revert fuel. induction x as [|c x IH]; intros fuel cur Hf Hy.
  - rewrite append_nil in *.
    destruct fuel as [|fuel]; [cbn [String.length] in Hf; lia|].
    cbn [String.length] in Hf.
    cbn [Str.split_aux Str.starts_with].
    unfold Str.is_char at 1. rewrite Ascii.eqb_refl. cbn [andb].
    cbn [String.length Str.drop].
    rewrite split_aux_whole by (assumption || lia).
    rewrite append_nil. reflexivity.
  - rewrite append_cons in *.
    destruct fuel as [|fuel]; [cbn [String.length] in Hf; lia|].
    cbn [String.length] in Hf.
    cbn [Str.split_aux].
    destruct (Str.starts_with (String a "") (String c (x ++ String a y))) eqn:E.
    + cbn [String.length Str.drop].
      pose proof (split_aux_nonempty (String a "") fuel "" (x ++ String a y)) as Hne.
      pose proof (IH fuel "" ltac:(lia) Hy) as Hl.
      cbn [List.last].
      destruct (Str.split_aux (String a "") fuel "" (x ++ String a y));
        [contradiction | exact Hl].
    + apply IH; [lia | exact Hy].
Qed.

End PostIdOfUrl.

Section PostIdRoundTrip.

Import Markup.

Lemma contains_cut a t :
  Str.contains a t = true ->
  exists t1 t2, t = t1 ++ String a t2 /\ Str.contains a t1 = false.
Proof.
  induction t as [|c t IH]; [discriminate|].
  cbn [Str.contains]. destruct (Str.is_char a c) eqn:E.
  - intros _. exists "", t. split; [|reflexivity].
    unfold Str.is_char in E. apply Ascii.eqb_eq in E. subst c.
    rewrite append_nil. reflexivity.
  - cbn [orb]. intros H. destruct (IH H) as (t1 & t2 & -> & H1).
    exists (String c t1), t2. split; [rewrite append_cons; reflexivity|].
    cbn [Str.contains]. rewrite E, H1. reflexivity.
Qed.

Lemma first_piece_whole a s :
  Str.contains a s = false ->
  Str.first_piece (Str.split (String a "") s) = s.
Proof.
  intros H. unfold Str.first_piece, Str.split.
  rewrite split_aux_whole by (lia || assumption).
  rewrite append_nil. reflexivity.
Qed.

Lemma first_piece_cut a x y :
  Str.contains a x = false ->
  Str.first_piece (Str.split (String a "") (x ++ String a y)) = x.
Proof.
  intros H. unfold Str.first_piece, Str.split.
  rewrite split_aux_first by (lia || assumption).
  rewrite append_nil. reflexivity.
Qed.

Lemma last_piece_cut a x y :
  Str.contains a y = false ->
  Str.last_piece (Str.split (String a "") (x ++ String a y)) = y.
Proof.
  intros H. unfold Str.last_piece, Str.split.
  apply split_aux_last; [lia | assumption].
Qed.

Lemma post_id_plain base ident :
  Str.contains "/" ident = false ->
  Str.contains "?" ident = false ->
  Str.contains "#" ident = false ->
  post_id_of_url (base ++ String "/" ident) = ident.
Proof.
  intros H1 H2 H3. unfold post_id_of_url.
  rewrite (last_piece_cut "/" base ident H1).
  rewrite (first_piece_whole "?" ident H2).
  apply (first_piece_whole "#" ident H3).
Qed.

Lemma post_id_query base ident t :
  Str.contains "/" ident = false ->
  Str.contains "?" ident = false ->
  Str.contains "#" ident = false ->
  Str.contains "/" t = false ->
  post_id_of_url (base ++ String "/" (ident ++ String "?" t)) = ident.
Proof.
  intros H1 H2 H3 Ht. unfold post_id_of_url.
  rewrite (last_piece_cut "/" base (ident ++ String "?" t));
    [|rewrite contains_append, H1; cbn [Str.contains orb]; rewrite Ht; reflexivity].
  rewrite (first_piece_cut "?" ident t H2).
  apply (first_piece_whole "#" ident H3).
Qed.

Lemma post_id_fragment base ident t :
  Str.contains "/" ident = false ->
  Str.contains "?" ident = false ->
  Str.contains "#" ident = false ->
  Str.contains "/" t = false ->
  post_id_of_url (base ++ String "/" (ident ++ String "#" t)) = ident.
Proof.
  intros H1 H2 H3 Ht. unfold post_id_of_url.
  rewrite (last_piece_cut "/" base (ident ++ String "#" t));
    [|rewrite contains_append, H1; cbn [Str.contains orb]; rewrite Ht; reflexivity].
  destruct (Str.contains "?" t) eqn:E.
  - destruct (contains_cut _ _ E) as (t1 & t2 & -> & Ht1).
    replace (ident ++ String "#" (t1 ++ String "?" t2))
      with ((ident ++ String "#" t1) ++ String "?" t2)
      by (rewrite <- string_append_assoc, append_cons; reflexivity).
    rewrite (first_piece_cut "?" (ident ++ String "#" t1) t2);
      [|rewrite contains_append, H2; cbn [Str.contains orb]; exact Ht1].
    apply (first_piece_cut "#" ident t1 H3).
  - rewrite (first_piece_whole "?" (ident ++ String "#" t));
      [|rewrite contains_append, H2; cbn [Str.contains orb]; exact E].
    apply (first_piece_cut "#" ident t H3).
Qed.

End PostIdRoundTrip.

(** X9. The identifier [post_id_of_url] cuts from a URL never contains a
    slash, a question mark or a hash sign.  It is the last path segment:
    from a URL that ends in a slash followed by an identifier free of these
    three characters it gives back that identifier, also when a query or a
    fragment without a slash follows; so a URL that ends in a slash gives
    the empty identifier. *)
Theorem post_id_is_the_last_path_segment :
  (forall url,
      Str.contains "/" (Markup.post_id_of_url url) = false
      /\ Str.contains "?" (Markup.post_id_of_url url) = false
      /\ Str.contains "#" (Markup.post_id_of_url url) = false)
  /\ (forall base ident,
         Str.contains "/" ident = false ->
         Str.contains "?" ident = false ->
         Str.contains "#" ident = false ->
         Markup.post_id_of_url (base ++ String "/" ident) = ident
         /\ forall c t,
              c = "?"%char \/ c = "#"%char ->
              Str.contains "/" t = false ->
              Markup.post_id_of_url (base ++ String "/" (ident ++ String c t))
              = ident).
Proof.
  split.
  - intros url. unfold Markup.post_id_of_url. repeat split.
    + apply first_piece_within, first_piece_within, last_piece_free.
    + apply first_piece_within, first_piece_free.
    + apply first_piece_free.
  - intros base ident H1 H2 H3. split.
    + apply post_id_plain; assumption.
    + intros c t [-> | ->] Ht.
      * apply post_id_query; assumption.
      * apply post_id_fragment; assumption.
Qed.

Lemma post_id_is_the_last_path_segment_witness :
  Markup.post_id_of_url "https://gab.com/someone/posts/" = ""
  /\ Markup.post_id_of_url "https://gab.com/someone/posts/1148#top?x" = "1148".
Proof.
  split.
  - apply (proj1 (proj2 post_id_is_the_last_path_segment
                    "https://gab.com/someone/posts" "" eq_refl eq_refl eq_refl)).
  - apply (proj2 (proj2 post_id_is_the_last_path_segment
                    "https://gab.com/someone/posts" "1148" eq_refl eq_refl eq_refl)
             "#"%char "top?x"); [right; reflexivity | reflexivity].
Defined.

(** ** Replies and images of a 4chan thread *)

Section FourChanThread.

Import FourChan.

Lemma scrape_reply_list_length l : forall rs,
  scrape_reply_list l = Py.Ret rs -> List.length rs = List.length l.
Proof.
  induction l as [|ra l IH]; intros rs H.
  - inversion H. reflexivity.
  - cbn [scrape_reply_list] in H.
    apply bind_ret in H as (r & _ & H).
    apply bind_ret in H as (rs' & Hrs & H).
    inversion H; subst. cbn [List.length]. rewrite (IH _ Hrs). reflexivity.
Qed.

Lemma fix_image_urls_missing urls :
  In None urls -> fix_image_urls urls = Py.Raise Py.AttributeError.
Proof.
  induction urls as [|[u|] urls IH]; intros H.
  - contradiction.
  - destruct H as [H|H]; [discriminate|].
    cbn [fix_image_urls]. rewrite (IH H). reflexivity.
  - reflexivity.
Qed.

Lemma fix_image_urls_raises urls : forall e,
  fix_image_urls urls = Py.Raise e -> e = Py.AttributeError.
Proof.
  induction urls as [|[u|] urls IH]; intros e H.
  - discriminate.
  - cbn [fix_image_urls] in H.
    destruct (fix_image_urls urls) as [fixed|e']; [discriminate|].
    inversion H; subst. apply IH. reflexivity.
  - inversion H. reflexivity.
Qed.

Lemma scrape_reply_list_missing l :
  Exists (fun ra => In None (img_srcs ra)) l ->
  scrape_reply_list l = Py.Raise Py.AttributeError.
Proof.
  induction 1 as [ra l H | ra l H IH]; cbn [scrape_reply_list].
  - unfold scrape_reply. rewrite (fix_image_urls_missing _ H). reflexivity.
  - rewrite IH. destruct (scrape_reply ra) as [r|e] eqn:E; [reflexivity|].
    unfold scrape_reply in E.
    destruct (fix_image_urls (img_srcs ra)) as [imgs|e'] eqn:E'.
    + discriminate.
    + apply fix_image_urls_raises in E'. simpl in E.
      inversion E; subst. reflexivity.
Qed.

End FourChanThread.

(** X10. A thread the 4chan extractor returns counts its replies rightly:
    [reply_count] is the number of reply dictionaries, one per reply
    article of the page.  And one image without a [src], in the opening post
    or in any reply, costs the whole thread: [endswith] fails on it, the
    extractor returns its empty dictionary, and the loop skips the thread. *)
Theorem fourchan_thread_replies_and_missing_src :
  (forall url pg t,
      FourChan.scrape_pol_thread url pg = Py.Ret (Some t) ->
      FourChan.reply_count t = List.length (FourChan.replies t)
      /\ List.length (FourChan.replies t)
         = List.length (FourChan.reply_articles pg))
  /\ (forall url pg u th,
         FourChan.load pg = Py.Ret u ->
         FourChan.thread_article pg = Py.Ret th ->
         In None (FourChan.img_srcs th)
         \/ Exists (fun ra => In None (FourChan.img_srcs ra))
                   (FourChan.reply_articles pg) ->
         FourChan.scrape_pol_thread url pg = Py.Ret None
         /\ forall w target rest data,
              FourChan.thread_at w url = pg ->
              (List.length data < target)%nat ->
              FourChan.scrape_threads w target (url :: rest) data
              = FourChan.scrape_threads w target rest data).
Proof.
  split.
  - intros url pg t H. unfold FourChan.scrape_pol_thread in H.
    destruct (FourChan.scrape_body url pg) as [t'|e] eqn:E;
      [|destruct (Py.is_Exception e); discriminate].
    inversion H; subst t'. clear H.
    unfold FourChan.scrape_body in E.
    apply bind_ret in E as (u & _ & E).
    apply bind_ret in E as (th & _ & E).
    apply bind_ret in E as (imgs & _ & E).
    apply bind_ret in E as (rs & Hrs & E).
    inversion E; subst; simpl.
    rewrite (scrape_reply_list_length _ _ Hrs). split; reflexivity.
  - intros url pg u th Hload Hth Hmiss.
    assert (Hnone : FourChan.scrape_pol_thread url pg = Py.Ret None).
    { unfold FourChan.scrape_pol_thread, FourChan.scrape_body.
      rewrite Hload, Hth. cbn [Py.bind].
      destruct Hmiss as [Hm|Hm].
      - rewrite (fix_image_urls_missing _ Hm). reflexivity.
      - destruct (FourChan.fix_image_urls (FourChan.img_srcs th)) as [imgs|e] eqn:E.
        + cbn [Py.bind]. rewrite (scrape_reply_list_missing _ Hm). reflexivity.
        + apply fix_image_urls_raises in E. subst e. reflexivity. }
    split; [exact Hnone|].
    intros w target rest data Hw Hlt.
    cbn [FourChan.scrape_threads].
    apply Nat.leb_gt in Hlt. rewrite Hlt, Hw, Hnone. reflexivity.
Qed.

Lemma fourchan_thread_replies_and_missing_src_witness :
  FourChan.scrape_pol_thread thread_url_example srcless_thread_page = Py.Ret None.
Proof.
  refine (proj1 (proj2 fourchan_thread_replies_and_missing_src
                   thread_url_example srcless_thread_page tt
                   (article_with_id "509876543" [Some full_example])
                   eq_refl eq_refl _)).
  right. apply Exists_cons_tl, Exists_cons_hd. left. reflexivity.
Defined.

(** ** A post without a timestamp in [gab_scraper_14.py] *)

(** X11. In [gab_scraper_14.py] a timestamp that cannot be found does not
    cost the record: when a page yields a record, the same page with a
    timestamp wait that fails with an [Exception] yields the same record,
    its timestamp replaced by one of the three markers.  (The rescraper
    drops such a post.) *)
Theorem gab14_keeps_posts_without_timestamp :
  forall url pg p e,
    Gab14.get_post_details url pg = Py.Ret (Some p) ->
    Py.is_Exception e = true ->
    exists stamp,
      In stamp ["N/A (Timeout)"; "N/A"; "Error"]
      /\ Gab14.get_post_details url (retimed pg (Py.Raise e))
         = Py.Ret (Some (with_timestamp p stamp)).
Proof.
  intros url pg p e H He.
  unfold Gab14.get_post_details in H.
  apply or_skip14_some in H as (u & Hopen & H).
  apply or_skip14_some in H as (el & Hel & H).
  apply or_skip14_some in H as (txt & Htxt & H).
  apply or_skip14_some in H as (imgs & Himgs & H).
  apply or_skip14_some in H as (stamp0 & Hstamp & H).
  apply or_skip14_some in H as (src & Hsrc & H).
  apply or_skip14_some in H as (n1 & H1 & H).
  apply or_skip14_some in H as (n2 & H2 & H).
  apply or_skip14_some in H as (n3 & H3 & H).
  apply or_skip14_some in H as (n4 & H4 & H).
  apply bind_ret in H as (rs & Hrs & H).
  inversion H; subst p; clear H.
  assert (Hs : exists stamp,
             In stamp ["N/A (Timeout)"; "N/A"; "Error"]
             /\ Gab14.scrape_timestamp (Py.Raise e) = Py.Ret stamp).
  { destruct e; try discriminate He; cbn [Gab14.scrape_timestamp Py.is_Exception];
      eexists; (split; [|reflexivity]); cbn [In]; auto. }
  destruct Hs as (stamp & Hin & Hs).
  exists stamp. split; [exact Hin|].
  unfold Gab14.get_post_details, retimed.
  cbn [Gab14.open_post Gab14.main_post Gab14.page_source Gab14.replies_built].
  rewrite Hopen. cbn [Gab14.or_skip]. rewrite Hel. cbn [Py.bind Gab14.or_skip].
  cbn [Gab14.body Gab14.outer_html Gab14.time_elem].
  rewrite Htxt. cbn [Gab14.or_skip]. rewrite Himgs. cbn [Gab14.or_skip].
  rewrite Hs. cbn [Gab14.or_skip]. rewrite Hsrc. cbn [Gab14.or_skip].
  rewrite H1. cbn [Gab14.or_skip]. rewrite H2. cbn [Gab14.or_skip].
  rewrite H3. cbn [Gab14.or_skip]. rewrite H4. cbn [Gab14.or_skip].
  rewrite Hrs. reflexivity.
Qed.

Lemma gab14_keeps_posts_without_timestamp_witness :
  exists stamp,
    In stamp ["N/A (Timeout)"; "N/A"; "Error"]
    /\ Gab14.get_post_details sample_url
         (retimed sample_page14 (Py.Raise Py.TimeoutException))
       = Py.Ret (Some (with_timestamp sample_post14 stamp)).
Proof.
  exact (gab14_keeps_posts_without_timestamp
           sample_url sample_page14 sample_post14 Py.TimeoutException
           sample_page14_extracts eq_refl).
Defined.

(** ** More on the fallback selector resolver *)

Section ResolverConverse.

Import Resolver.

Variables (driver value : Type) (truthy : value -> bool).

Lemma call_from_result conditions : forall i d log r,
  call_from driver value truthy i conditions d = (log, r) ->
  match r with
  | Py.Ret (Some v) =>
      truthy v = true
      /\ exists pre c post,
           conditions = (pre ++ c :: post)%list
           /\ Forall (fun c' => fails driver value truthy c' d) pre
           /\ c d = Py.Ret v
  | Py.Ret None => Forall (fun c => fails driver value truthy c d) conditions
  | Py.Raise e =>
      Py.is_Exception e = false
      /\ exists pre c post,
           conditions = (pre ++ c :: post)%list
           /\ Forall (fun c' => fails driver value truthy c' d) pre
           /\ c d = Py.Raise e
  end.
Proof.
  induction conditions as [|c rest IH]; intros i d log r H.
  - inversion H; subst. constructor.
  - cbn [call_from] in H.
    destruct (c d) as [v|e] eqn:Hc.
    + destruct (truthy v) eqn:Ht.
      * inversion H; subst. split; [exact Ht|].
        exists [], c, rest. repeat split; [constructor | exact Hc].
      * destruct (call_from driver value truthy (S i) rest d) as [log' r'] eqn:E.
        inversion H; subst. specialize (IH _ _ _ _ E).
        assert (Hf : fails driver value truthy c d)
          by (left; exists v; split; assumption).
        destruct r as [[v'|]|e'].
        -- destruct IH as (Hv & pre & c' & post & -> & Hpre & Hc').
           split; [exact Hv|].
           exists (c :: pre), c', post. repeat split;
             [constructor; assumption | exact Hc'].
        -- constructor; assumption.
        -- destruct IH as (He & pre & c' & post & -> & Hpre & Hc').
           split; [exact He|].
           exists (c :: pre), c', post. repeat split;
             [constructor; assumption | exact Hc'].
    + destruct (Py.is_Exception e) eqn:He.
      * destruct (call_from driver value truthy (S i) rest d) as [log' r'] eqn:E.
        inversion H; subst. specialize (IH _ _ _ _ E).
        assert (Hf : fails driver value truthy c d)
          by (right; exists e; split; assumption).
        destruct r as [[v'|]|e'].
        -- destruct IH as (Hv & pre & c' & post & -> & Hpre & Hc').
           split; [exact Hv|].
           exists (c :: pre), c', post. repeat split;
             [constructor; assumption | exact Hc'].
        -- constructor; assumption.
        -- destruct IH as (He' & pre & c' & post & -> & Hpre & Hc').
           split; [exact He'|].
           exists (c :: pre), c', post. repeat split;
             [constructor; assumption | exact Hc'].
      * inversion H; subst. split; [exact He|].
        exists [], c, rest. repeat split; [constructor | exact Hc].
Qed.

Lemma call_from_interrupted pre : forall i c post d e,
  Forall (fun c' => fails driver value truthy c' d) pre ->
  c d = Py.Raise e -> Py.is_Exception e = false ->
  call_from driver value truthy i (pre ++ c :: post)%list d
  = (List.seq i (S (List.length pre)), Py.Raise e).
Proof.
  induction pre as [|p pre IH]; intros i c post d e Hpre Hc He.
  - simpl. rewrite Hc, He. reflexivity.
  - inversion Hpre as [|? ? Hp Hrest]; subst.
    change ((p :: pre) ++ c :: post)%list with (p :: (pre ++ c :: post))%list.
    rewrite call_from_skips_failure by assumption.
    rewrite (IH (S i) c post d e Hrest Hc He). reflexivity.
Qed.

End ResolverConverse.

(** X12. What [any_of_conditions] hands back tells what happened: a value
    it returns is truthy and is the result of a strategy before which every
    strategy failed; it returns [False] only when every strategy failed; and
    it raises only what is not an [Exception], raised by a strategy before
    which every strategy failed. *)
Theorem any_of_conditions_result_is_earned :
  forall (driver value : Type) (truthy : value -> bool) (d : driver)
         (conditions : list (Resolver.condition driver value)) log r,
    Resolver.any_of_conditions driver value truthy conditions d = (log, r) ->
    match r with
    | Py.Ret (Some v) =>
        truthy v = true
        /\ exists pre c post,
             conditions = (pre ++ c :: post)%list
             /\ Forall (fun c' => Resolver.fails driver value truthy c' d) pre
             /\ c d = Py.Ret v
    | Py.Ret None =>
        Forall (fun c => Resolver.fails driver value truthy c d) conditions
    | Py.Raise e =>
        Py.is_Exception e = false
        /\ exists pre c post,
             conditions = (pre ++ c :: post)%list
             /\ Forall (fun c' => Resolver.fails driver value truthy c' d) pre
             /\ c d = Py.Raise e
    end.
Proof.
  intros driver value truthy d conditions log r.
  apply call_from_result.
Qed.

Lemma any_of_conditions_result_is_earned_witness :
  nonzero 7 = true
  /\ exists pre c post,
       [strategy_missing; strategy_seven; strategy_nine] = (pre ++ c :: post)%list
       /\ Forall (fun c' => Resolver.fails unit Z nonzero c' tt) pre
       /\ c tt = Py.Ret 7.
Proof.
  exact (any_of_conditions_result_is_earned unit Z nonzero tt
           [strategy_missing; strategy_seven; strategy_nine]
           [0%nat; 1%nat] (Py.Ret (Some 7)) eq_refl).
Defined.

(** X13. [any_of_conditions] does not swallow an interruption: when the
    strategies before one all fail and that one raises what is not an
    [Exception] (a [KeyboardInterrupt]), the call raises it at once, without
    invoking the strategies after it. *)
Theorem any_of_conditions_passes_interruptions :
  forall (driver value : Type) (truthy : value -> bool) (d : driver)
         pre c post e,
    Forall (fun c' => Resolver.fails driver value truthy c' d) pre ->
    c d = Py.Raise e ->
    Py.is_Exception e = false ->
    Resolver.any_of_conditions driver value truthy (pre ++ c :: post)%list d
    = (List.seq 0 (S (List.length pre)), Py.Raise e).
Proof.
  intros driver value truthy d pre c post e Hpre Hc He.
  apply call_from_interrupted; assumption.
Qed.

Lemma any_of_conditions_passes_interruptions_witness :
  Resolver.any_of_conditions unit Z nonzero
    [strategy_missing; strategy_interrupted; strategy_seven] tt
  = ([0%nat; 1%nat], Py.Raise Py.KeyboardInterrupt).
Proof.
  apply (any_of_conditions_passes_interruptions unit Z nonzero tt
           [strategy_missing] strategy_interrupted [strategy_seven]
           Py.KeyboardInterrupt).
  - constructor; [|constructor].
    right. exists Py.NoSuchElementException. split; reflexivity.
  - reflexivity.
  - reflexivity.
Defined.

(** ** Scrolling *)

Section ScrollFacts.

Import Scroll.

Lemma scroll_loop_bound t remaining : forall scroll_count last_height,
  (fst (scroll_loop t remaining scroll_count last_height)
   <= scroll_count + remaining)%nat.
Proof.
  induction remaining as [|remaining IH]; intros scroll_count last_height;
    cbn [scroll_loop].
  - cbn [fst]. lia.
  - destruct (scroll t scroll_count); [|cbn [fst]; lia].
    destruct (height t (S scroll_count)) as [new_height|e]; [|cbn [fst]; lia].
    destruct (new_height =? last_height); [cbn [fst]; lia|].
    specialize (IH (S scroll_count) new_height). lia.
Qed.

Lemma scroll_to_end_bound t max_scrolls :
  (fst (scroll_to_end t max_scrolls) <= max_scrolls)%nat.
Proof.
  unfold scroll_to_end. destruct (height t 0); [|cbn [fst]; lia].
  apply (scroll_loop_bound t max_scrolls 0).
Qed.

(** on a page that answers every query, the loop from [scroll_count]
    scrolls on *)
Lemma scroll_loop_stops t hs remaining : forall scroll_count k,
  (forall i, scroll t i = Py.Ret tt) ->
  (forall i, height t i = Py.Ret (hs i)) ->
  (scroll_count <= k < scroll_count + remaining)%nat ->
  (forall j, (scroll_count <= j < k)%nat -> hs (S j) <> hs j) ->
  hs (S k) = hs k ->
  scroll_loop t remaining scroll_count (hs scroll_count) = (S k, Py.Ret tt).
Proof.
  induction remaining as [|remaining IH];
    intros scroll_count k Hs Hh Hk Hgrow Hstop; [lia|].
  cbn [scroll_loop]. rewrite Hs, Hh.
  destruct (hs (S scroll_count) =? hs scroll_count) eqn:E.
  - apply Z.eqb_eq in E.
    destruct (Nat.eq_dec k scroll_count) as [->|Hne]; [reflexivity|].
    exfalso. apply (Hgrow scroll_count); [lia | exact E].
  - apply Z.eqb_neq in E.
    destruct (Nat.eq_dec k scroll_count) as [->|Hne]; [congruence|].
    apply IH; try assumption; [lia|].
    intros j Hj. apply Hgrow. lia.
Qed.

Lemma scroll_loop_exhausts t hs remaining : forall scroll_count,
  (forall i, scroll t i = Py.Ret tt) ->
  (forall i, height t i = Py.Ret (hs i)) ->
  (forall j, (scroll_count <= j < scroll_count + remaining)%nat ->
             hs (S j) <> hs j) ->
  scroll_loop t remaining scroll_count (hs scroll_count)
  = ((scroll_count + remaining)%nat, Py.Ret tt).
Proof.
  induction remaining as [|remaining IH]; intros scroll_count Hs Hh Hgrow.
  - cbn [scroll_loop]. rewrite Nat.add_0_r. reflexivity.
  - cbn [scroll_loop]. rewrite Hs, Hh.
    destruct (hs (S scroll_count) =? hs scroll_count) eqn:E.
    + apply Z.eqb_eq in E. exfalso. apply (Hgrow scroll_count); [lia | exact E].
    + rewrite IH; try assumption.
      * f_equal. lia.
      * intros j Hj. apply Hgrow. lia.
Qed.

Lemma scroll_element_bound c max_scrolls :
  (fst (scroll_element_to_end c max_scrolls) <= max_scrolls)%nat.
Proof.
  unfold scroll_element_to_end.
  destruct (located c).
  - pose proof (scroll_to_end_bound (content c) max_scrolls) as H.
    destruct (scroll_to_end (content c) max_scrolls) as [n r]. exact H.
  - cbn [fst]. lia.
Qed.

Lemma scroll_first_bound containers :
  (fst (scroll_first containers) <= 7 * List.length containers)%nat.
Proof.
  induction containers as [|c rest IH]; cbn [scroll_first]; [cbn [fst]; lia|].
  pose proof (scroll_element_bound c 7) as Hc.
  destruct (scroll_element_to_end c 7) as [n [[|]|e]]; cbn [fst] in Hc;
    cbn [List.length]; try (cbn [fst]; lia).
  destruct (scroll_first rest) as [m r]. cbn [fst] in *. lia.
Qed.

End ScrollFacts.

(** X14. [scroll_to_end] of [gab_scraper_14.py] runs the scroll script at
    most [max_scrolls] times.  On a page that answers every query it stops
    right after the first scroll that leaves the height as it was, and
    after [max_scrolls] scrolls when every one of them changes the height. *)
Theorem scroll_to_end_stops_when_the_height_stays :
  forall t max_scrolls,
    (fst (Scroll.scroll_to_end t max_scrolls) <= max_scrolls)%nat
    /\ forall hs,
         (forall i, Scroll.scroll t i = Py.Ret tt) ->
         (forall i, Scroll.height t i = Py.Ret (hs i)) ->
         (forall k,
             (k < max_scrolls)%nat ->
             (forall j, (j < k)%nat -> hs (S j) <> hs j) ->
             hs (S k) = hs k ->
             Scroll.scroll_to_end t max_scrolls = (S k, Py.Ret tt))
         /\ ((forall j, (j < max_scrolls)%nat -> hs (S j) <> hs j) ->
             Scroll.scroll_to_end t max_scrolls = (max_scrolls, Py.Ret tt)).
Proof.
  intros t max_scrolls. split; [apply scroll_to_end_bound|].
  intros hs Hs Hh. split.
  - intros k Hk Hgrow Hstop. unfold Scroll.scroll_to_end. rewrite Hh.
    apply (scroll_loop_stops t hs); try assumption; [lia|].
    intros j Hj. apply Hgrow. lia.
  - intros Hgrow. unfold Scroll.scroll_to_end. rewrite Hh.
    rewrite (scroll_loop_exhausts t hs); try assumption; [reflexivity|].
    intros j Hj. apply Hgrow. lia.
Qed.

Lemma scroll_to_end_stops_when_the_height_stays_witness :
  Scroll.scroll_to_end short_feed Scroll.MAX_SCROLLS = (2%nat, Py.Ret tt).
Proof.
  refine (proj1 (proj2 (scroll_to_end_stops_when_the_height_stays
                          short_feed Scroll.MAX_SCROLLS)
                   (fun k => if Nat.eqb k 0 then 100 else 200)
                   (fun _ => eq_refl) (fun _ => eq_refl))
            1%nat _ _ eq_refl).
  - unfold Scroll.MAX_SCROLLS. lia.
  - intros j Hj. assert (j = 0%nat) as -> by lia. discriminate.
Defined.

Section ScrollComments.

Import Scroll.

Lemma scroll_element_no_Exception c max_scrolls e :
  snd (scroll_element_to_end c max_scrolls) = Py.Raise e ->
  Py.is_Exception e = false.
Proof.
  unfold scroll_element_to_end.
  destruct (match located c with
            | Py.Ret _ => scroll_to_end (content c) max_scrolls
            | Py.Raise e0 => (O, Py.Raise e0)
            end) as [n [u|e']]; cbn [snd]; [discriminate|].
  destruct (Py.is_Exception e') eqn:E; [discriminate|].
  intros H; inversion H; subst. exact E.
Qed.

Lemma scroll_first_no_Exception containers : forall e,
  snd (scroll_first containers) = Py.Raise e -> Py.is_Exception e = false.
Proof.
  induction containers as [|c rest IH]; intros e; cbn [scroll_first].
  - discriminate.
  - pose proof (scroll_element_no_Exception c 7) as Hc.
    destruct (scroll_element_to_end c 7) as [n [[|]|e']]; cbn [snd] in *.
    + discriminate.
    + destruct (scroll_first rest) as [m r]. cbn [snd] in *. apply IH.
    + intros H; inversion H; subst. apply Hc. reflexivity.
Qed.

Lemma scroll_first_absent containers :
  Forall (fun c => exists e, located c = Py.Raise e /\ Py.is_Exception e = true)
         containers ->
  scroll_first containers = (O, Py.Ret false).
Proof.
  induction 1 as [|c rest (e & He & Hx) _ IH]; [reflexivity|].
  cbn [scroll_first]. unfold scroll_element_to_end.
  rewrite He, Hx, IH. reflexivity.
Qed.

End ScrollComments.

(** X15. [scroll_element_to_end] runs its scroll script at most
    [max_scrolls] times and lets no [Exception] out: it answers [False] when
    the container is not found, without scrolling.  So the search for a
    comment container in [get_post_details] of the rescraper runs at most
    seven scroll scripts per candidate and one on the window, raises no
    [Exception] of a container, and scrolls the window, once, when no
    candidate is on the page. *)
Theorem comment_scroll_is_bounded_and_quiet :
  (forall c max_scrolls,
      (fst (Scroll.scroll_element_to_end c max_scrolls) <= max_scrolls)%nat
      /\ (forall e,
             snd (Scroll.scroll_element_to_end c max_scrolls) = Py.Raise e ->
             Py.is_Exception e = false)
      /\ (forall e,
             Scroll.located c = Py.Raise e -> Py.is_Exception e = true ->
             Scroll.scroll_element_to_end c max_scrolls = (O, Py.Ret false)))
  /\ (forall containers window_scroll,
         (fst (Scroll.scroll_comments containers window_scroll)
          <= 7 * List.length containers + 1)%nat
         /\ (forall e,
                snd (Scroll.scroll_comments containers window_scroll)
                = Py.Raise e ->
                Py.is_Exception e = false \/ window_scroll = Py.Raise e)
         /\ (Forall (fun c => exists e, Scroll.located c = Py.Raise e
                                        /\ Py.is_Exception e = true)
                    containers ->
             Scroll.scroll_comments containers window_scroll
             = (1%nat, window_scroll))).
Proof.
  split.
  - intros c max_scrolls. split; [apply scroll_element_bound|].
    split; [apply scroll_element_no_Exception|].
    intros e He Hx. unfold Scroll.scroll_element_to_end.
    rewrite He, Hx. reflexivity.
  - intros containers window_scroll. unfold Scroll.scroll_comments.
    pose proof (scroll_first_bound containers) as Hb.
    pose proof (scroll_first_no_Exception containers) as Hq.
    split; [|split].
    + destruct (Scroll.scroll_first containers) as [n [[|]|e]];
        cbn [fst] in *; lia.
    + intros e.
      destruct (Scroll.scroll_first containers) as [n [[|]|e']];
        cbn [snd] in *.
      * discriminate.
      * intros H. right. exact H.
      * intros H. inversion H; subst. left. apply Hq. reflexivity.
    + intros Habs. rewrite (scroll_first_absent _ Habs). reflexivity.
Qed.

Lemma comment_scroll_is_bounded_and_quiet_witness :
  Scroll.scroll_comments [absent_container; absent_container] (Py.Ret tt)
  = (1%nat, Py.Ret tt).
Proof.
  apply (proj2 (proj2 (proj2 comment_scroll_is_bounded_and_quiet
                         [absent_container; absent_container] (Py.Ret tt)))).
  repeat constructor; exists Py.TimeoutException; split; reflexivity.
Defined.

(** ** The collection loop of [gab_scraper_14.py] *)

Section ExploreFacts.

Import Explore.

Lemma any_char_filter p s :
  Text.any_char p (Text.filter (fun c => negb (p c)) s) = false.
Proof.
  induction s as [|c s IH]; [reflexivity|].
  cbn [Text.filter]. destruct (p c) eqn:E; cbn [negb]; [exact IH|].
  cbn [Text.any_char]. rewrite E, IH. reflexivity.
Qed.

Lemma lstrip_spaceless s :
  Text.any_char Str.is_space s = false -> Str.lstrip s = s.
Proof.
  destruct s as [|c s]; [reflexivity|].
  cbn [Text.any_char Str.lstrip]. intros H.
  apply orb_false_elim in H as [-> _]. reflexivity.
Qed.

Lemma rstrip_spaceless s :
  Text.any_char Str.is_space s = false -> Str.rstrip s = s.
Proof.
  induction s as [|c s IH]; [reflexivity|].
  cbn [Text.any_char]. intros H. apply orb_false_elim in H as [Hc Hs].
  cbn [Str.rstrip]. rewrite (IH Hs), Hc. destruct s; reflexivity.
Qed.

Lemma normalize_spaceless joined :
  Text.any_char Str.is_space (normalize joined) = false.
Proof.
  unfold normalize, Str.strip.
  pose proof (any_char_filter Str.is_space joined) as H.
  rewrite lstrip_spaceless, rstrip_spaceless; assumption.
Qed.

Lemma accepted_collectable joined processed :
  accepted (normalize joined) processed = true ->
  collectable (normalize joined) /\ normalize joined ∉ processed.
Proof.
  unfold accepted.
  destruct (negb _ && _ && _)%bool eqn:E1; [|discriminate].
  intros E2.
  apply andb_true_iff in E1 as [E1 Hstart].
  apply andb_true_iff in E1 as [_ Hocc].
  apply andb_true_iff in E2 as [E2 Hnew].
  apply andb_true_iff in E2 as [Hlen Halnum].
  split.
  - repeat split; try assumption.
    + apply normalize_spaceless.
    + apply Nat.ltb_lt. exact Hlen.
  - apply negb_true_iff, bool_decide_eq_false in Hnew. exact Hnew.
Qed.

Lemma pass_keeps target elements : forall urls processed result,
  kept target urls processed ->
  pass target elements urls processed = Finished result ->
  NoDup result /\ (List.length result <= target)%nat
  /\ Forall collectable result.
Proof.
  induction elements as [|link_elem rest IH];
    intros urls processed result (Hnd & Hsub & Hlen & Hall) H.
  - inversion H; subst. repeat split; assumption.
  - cbn [pass] in H.
    destruct (Nat.ltb (List.length urls) target) eqn:Hlt;
      [|inversion H; subst; repeat split; assumption].
    apply Nat.ltb_lt in Hlt.
    assert (Hsame : kept target urls processed) by (repeat split; assumption).
    destruct link_elem as [joined|e].
    + destruct (accepted (normalize joined) processed) eqn:Ha;
        [|exact (IH _ _ _ Hsame H)].
      destruct (accepted_collectable _ _ Ha) as [Hc Hnew].
      apply (IH _ _ _) in H; [exact H|].
      repeat split.
      * apply NoDup_app. split; [exact Hnd|]. split.
        -- intros u Hu Hin. apply list_elem_of_singleton in Hin. subst u.
           apply Hnew, Hsub, Hu.
        -- apply NoDup_singleton.
      * intros u Hu. apply elem_of_app in Hu as [Hu|Hu].
        -- apply elem_of_union_r, Hsub, Hu.
        -- apply list_elem_of_singleton in Hu. subst u.
           apply elem_of_union_l, elem_of_singleton. reflexivity.
      * rewrite length_app. cbn [List.length]. lia.
      * apply Forall_app. split; [exact Hall|].
        constructor; [exact Hc | constructor].
    + destruct e; cbn [Py.is_Exception] in H;
        try discriminate H; exact (IH _ _ _ Hsame H).
Qed.

Lemma collect_keeps fuel target find_links : forall k result,
  collect fuel target find_links k = Some (Py.Ret result) ->
  NoDup result /\ (List.length result <= target)%nat
  /\ Forall collectable result.
Proof.
  induction fuel as [|fuel IH]; intros k result H; [discriminate|].
  cbn [collect] in H.
  destruct (find_links k) as [elements|e]; [|discriminate].
  destruct (pass target elements [] ∅) as [urls| |e] eqn:E.
  - inversion H; subst. apply (pass_keeps target elements [] ∅); [|exact E].
    repeat split; [constructor | | cbn [List.length]; lia | constructor].
    intros u Hu. inversion Hu.
  - apply (IH (S k)). exact H.
  - discriminate.
Qed.

(** a reading without a stale element ends the loop *)
Lemma pass_without_stale target elements : forall urls processed,
  Forall (fun l => l <> Py.Raise Py.StaleElementReferenceException) elements ->
  pass target elements urls processed <> Stale.
Proof.
  induction elements as [|link_elem rest IH]; intros urls processed Hall;
    [discriminate|].
  inversion Hall as [|? ? Hl Hrest]; subst.
  cbn [pass]. destruct (Nat.ltb _ _); [|discriminate].
  destruct link_elem as [joined|e].
  - destruct (accepted _ _); apply IH; assumption.
  - destruct e; cbn [Py.is_Exception]; try discriminate;
      try (apply IH; assumption).
    contradiction Hl. reflexivity.
Qed.

End ExploreFacts.

(** X16. The collection loop of [gab_scraper_14.py]: a reading of the
    links in which no element is stale ends the loop, whatever came before;
    and however the loop ends, the list it hands over has no duplicate, at
    most [target] entries, and only URLs that start with
    [https://gab.com/], contain [/posts/], hold no white space, and whose
    identifier, the text between the last [/posts/] and the next [/], [#]
    or [?], is alphanumeric and longer than five characters.  What follows
    the identifier in the URL is not looked at. *)
Theorem collected_urls_are_distinct_and_valid :
  (forall fuel target find_links k elements,
      find_links k = Py.Ret elements ->
      Forall (fun l => l <> Py.Raise Py.StaleElementReferenceException)
             elements ->
      exists r, Explore.collect (S fuel) target find_links k = Some r)
  /\ (forall fuel target find_links k result,
         Explore.collect fuel target find_links k = Some (Py.Ret result) ->
         NoDup result /\ (List.length result <= target)%nat
         /\ Forall collectable result).
Proof.
  split.
  - intros fuel target find_links k elements Hk Hall.
    cbn [Explore.collect]. rewrite Hk.
    pose proof (pass_without_stale target elements [] ∅ Hall) as Hp.
    destruct (Explore.pass target elements [] ∅) as [urls| |e];
      [eexists; reflexivity | contradiction Hp; reflexivity
       | eexists; reflexivity].
  - apply collect_keeps.
Qed.

Lemma collected_urls_are_distinct_and_valid_witness :
  Explore.collect 2 Gab14.POSTS_TO_SCRAPE stale_once 0
  = Some (Py.Ret [sample_url;
                  "https://gab.com/other/posts/114812345678905555?x=1"])
  /\ NoDup [sample_url; "https://gab.com/other/posts/114812345678905555?x=1"]
  /\ (List.length [sample_url;
                   "https://gab.com/other/posts/114812345678905555?x=1"]
      <= Gab14.POSTS_TO_SCRAPE)%nat
  /\ Forall collectable
       [sample_url; "https://gab.com/other/posts/114812345678905555?x=1"].
Proof.
  split; [vm_compute; reflexivity|].
  apply (proj2 collected_urls_are_distinct_and_valid
           2%nat Gab14.POSTS_TO_SCRAPE stale_once 0%nat).
  vm_compute. reflexivity.
Defined.

Section DeadBreak.

Import Gab14.

Lemma crawl_within_target target t' todo : forall dataset,
  (List.length dataset + List.length todo <= target)%nat ->
  (target <= t')%nat ->
  crawl t' todo dataset = crawl target todo dataset.
Proof.
  induction todo as [|[url v] todo IH]; intros dataset Hlen Ht; [reflexivity|].
  cbn [List.length] in Hlen. cbn [crawl].
  assert (E1 : Nat.leb target (List.length dataset) = false)
    by (apply Nat.leb_gt; lia).
  assert (E2 : Nat.leb t' (List.length dataset) = false)
    by (apply Nat.leb_gt; lia).
  rewrite E1, E2.
  destruct v as [pg|e]; [|reflexivity].
  destruct (get_post_details url pg) as [[p|]|e]; [| |reflexivity].
  - apply IH; [rewrite length_app; cbn [List.length]; lia | exact Ht].
  - apply IH; [lia | exact Ht].
Qed.

Lemma main_within_target target t' urls :
  (List.length urls <= target)%nat -> (target <= t')%nat ->
  main_with t' (Collected urls) = main_with target (Collected urls).
Proof.
  intros Hlen Ht. unfold main_with.
  destruct urls as [|uv urls]; [reflexivity|].
  rewrite (crawl_within_target target t' (uv :: urls) []); [reflexivity| |exact Ht].
  cbn [List.length] in *. lia.
Qed.

End DeadBreak.

(** X17. In [gab_scraper_14.py] the target check of the crawl loop never
    stops it: the collection loop hands over at most [POSTS_TO_SCRAPE] URLs
    and each visit appends at most one record, so whatever the visits show,
    the run is the one a crawl loop with any larger target, or none, would
    make: every collected URL is visited unless an exception ends the
    run. *)
Theorem gab14_visits_every_collected_url :
  forall fuel find_links k result visits larger,
    Explore.collect fuel Gab14.POSTS_TO_SCRAPE find_links k
    = Some (Py.Ret result) ->
    (Gab14.POSTS_TO_SCRAPE <= larger)%nat ->
    Gab14.main_with larger (Gab14.Collected (List.combine result visits))
    = Gab14.main (Gab14.Collected (List.combine result visits)).
Proof.
  intros fuel find_links k result visits larger H Hl.
  destruct (collect_keeps _ _ _ _ _ H) as (_ & Hlen & _).
  apply main_within_target; [|exact Hl].
  rewrite length_combine. lia.
Qed.

Lemma gab14_visits_every_collected_url_witness :
  Gab14.main_with 1000
    (Gab14.Collected
       (List.combine
          [sample_url; "https://gab.com/other/posts/114812345678905555?x=1"]
          [Gab14.Tab sample_page14; Gab14.Tab sample_page14]))
  = Gab14.main
      (Gab14.Collected
         (List.combine
            [sample_url; "https://gab.com/other/posts/114812345678905555?x=1"]
            [Gab14.Tab sample_page14; Gab14.Tab sample_page14])).
Proof.
  apply (gab14_visits_every_collected_url 2%nat stale_once 0%nat).
  - vm_compute. reflexivity.
  - unfold Gab14.POSTS_TO_SCRAPE. lia.
Defined.

(** ** The replies of [gab_scraper_14.py] *)

Section Gab14ReplyFacts.

Import Gab14Replies.

Lemma starts_with_at s : Str.starts_with "@" ("@" ++ s) = true.
Proof. apply (starts_with_append "@" s). Qed.

Lemma handle_in_at text h :
  handle_in text = Py.Ret (Some h) -> Str.starts_with "@" h = true.
Proof.
  unfold handle_in.
  destruct (Re.search handle_pattern text) as [m|]; [|discriminate].
  destruct (Re.group 1 m) as [g|]; [|discriminate].
  intros H; inversion H. apply starts_with_at.
Qed.

Lemma from_name_settled a r : from_name a = Py.Ret r -> settled r.
Proof.
  unfold from_name.
  destruct (name_text a) as [t|e]; cbn [Py.bind Py.try_except].
  - destruct (Str.starts_with "@" (Str.strip t)) eqn:E; cbn [Py.try_except].
    + intros H; inversion H; subst. right. exact E.
    + destruct (handle_text a) as [[ht|]|e]; cbn [Py.bind Py.try_except].
      * destruct (Str.starts_with "@" (Str.strip ht)) eqn:E';
          intros H; inversion H; subst; right;
          [exact E' | apply starts_with_at].
      * intros H; inversion H; subst. left. reflexivity.
      * destruct (existsb _ _); [|discriminate].
        intros H; inversion H; subst. left. reflexivity.
  - destruct (existsb _ _); [|discriminate].
    intros H; inversion H; subst. left. reflexivity.
Qed.

Lemma from_link_text_settled a r r' :
  settled r -> from_link_text a r = Py.Ret r' -> settled r'.
Proof.
  intros Hr. unfold from_link_text.
  destruct (unresolved r); [|intros H; inversion H; subst; exact Hr].
  destruct (link_text a) as [t|e]; cbn [Py.bind]; [|discriminate].
  destruct (String.eqb (Str.strip t) ""); [intros H; inversion H; subst; exact Hr|].
  destruct (handle_in (Str.strip t)) as [[h|]|e] eqn:E; cbn [Py.bind];
    [| |discriminate].
  - intros H; inversion H; subst. right. eapply handle_in_at; eassumption.
  - destruct (Str.starts_with "@" (Str.strip t));
      intros H; inversion H; subst; [exact Hr|].
    right. apply starts_with_at.
Qed.

Lemma from_aria_label_settled a r r' :
  settled r -> from_aria_label a r = Py.Ret r' -> settled r'.
Proof.
  intros Hr. unfold from_aria_label.
  destruct (unresolved r); [|intros H; inversion H; subst; exact Hr].
  destruct (aria_label a) as [[[|c l]|]|e]; cbn [Py.bind].
  - intros H; inversion H; subst; exact Hr.
  - destruct (handle_in (String c l)) as [[h|]|e] eqn:E; cbn [Py.bind];
      [| |discriminate].
    + intros H; inversion H; subst. right. eapply handle_in_at; eassumption.
    + intros H; inversion H; subst. exact Hr.
  - intros H; inversion H; subst; exact Hr.
  - discriminate.
Qed.

(** the last test changes nothing: the name is settled before it *)
Lemma with_at_settled r : settled r -> with_at r = r.
Proof.
  unfold with_at. intros [-> | H]; [reflexivity|].
  rewrite H. cbn [negb]. rewrite andb_false_r. reflexivity.
Qed.

Lemma scrape_reply_author_shape link r :
  scrape_reply_author link = Py.Ret r -> handle_or_marker r.
Proof.
  unfold scrape_reply_author.
  destruct (Py.bind link _) as [r0|e] eqn:E.
  - intros H; inversion H; subst r0. clear H.
    apply bind_ret in E as (a & _ & E).
    apply bind_ret in E as (r1 & H1 & E).
    apply bind_ret in E as (r2 & H2 & E).
    apply bind_ret in E as (r3 & H3 & E).
    inversion E; subst r. clear E.
    assert (Hs : settled r3).
    { eapply from_aria_label_settled; [|exact H3].
      eapply from_link_text_settled; [|exact H2].
      eapply from_name_settled; exact H1. }
    rewrite (with_at_settled _ Hs).
    destruct Hs as [-> | Hs]; [left; left; reflexivity | right; exact Hs].
  - destruct e; cbn [Py.is_Exception]; intros H; inversion H; subst;
      left; cbn [In]; auto.
Qed.

Lemma scrape_reply_author_quiet link e :
  scrape_reply_author link = Py.Raise e -> Py.is_Exception e = false.
Proof.
  unfold scrape_reply_author.
  destruct (Py.bind link _) as [r0|e0]; [discriminate|].
  destruct e0; cbn [Py.is_Exception]; try discriminate.
  intros H; inversion H; reflexivity.
Qed.

End Gab14ReplyFacts.

(** X18. The author recorded for a reply in [gab_scraper_14.py] is a
    handle, starting with an at sign, or one of the markers [N/A],
    [N/A (Timeout/Not Found)] and [Error]; no [Exception] leaves the block
    that finds it.  The name is settled before the block's last test, which
    therefore never changes it. *)
Theorem gab14_reply_author_is_handle_or_marker :
  forall link,
    (forall r,
        Gab14Replies.scrape_reply_author link = Py.Ret r -> handle_or_marker r)
    /\ (forall e,
           Gab14Replies.scrape_reply_author link = Py.Raise e ->
           Py.is_Exception e = false)
    /\ (forall a r1 r2 r3,
           link = Py.Ret a ->
           Gab14Replies.from_name a = Py.Ret r1 ->
           Gab14Replies.from_link_text a r1 = Py.Ret r2 ->
           Gab14Replies.from_aria_label a r2 = Py.Ret r3 ->
           Gab14Replies.with_at r3 = r3).
Proof.
  intros link. split; [|split].
  - intros r. apply scrape_reply_author_shape.
  - intros e. apply scrape_reply_author_quiet.
  - intros a r1 r2 r3 _ H1 H2 H3.
    apply with_at_settled.
    eapply from_aria_label_settled; [|exact H3].
    eapply from_link_text_settled; [|exact H2].
    eapply from_name_settled; exact H1.
Qed.

Lemma gab14_reply_author_is_handle_or_marker_witness :
  Gab14Replies.scrape_reply_author (Py.Ret sample_author_link)
  = Py.Ret "@someone"
  /\ handle_or_marker "@someone".
Proof.
  split; [vm_compute; reflexivity|].
  apply (proj1 (gab14_reply_author_is_handle_or_marker
                  (Py.Ret sample_author_link))).
  vm_compute. reflexivity.
Defined.

Section Gab14ReplySection.

Import Gab14Replies.

Lemma scrape_reply_likes_nonneg html n :
  scrape_reply_likes html = Py.Ret n -> 0 <= n.
Proof.
  unfold scrape_reply_likes.
  destruct (Py.bind html _) as [k|e] eqn:E.
  - intros H; inversion H; subst k.
    apply bind_ret in E as ([s|] & _ & E); [|discriminate].
    eapply count_of_nonneg; exact E.
  - destruct (Py.is_Exception e); intros H; inversion H; lia.
Qed.

Lemma scrape_reply_id_nonempty v i txt author el ident :
  scrape_reply_id v i txt author el = Py.Ret ident -> ident <> "".
Proof.
  unfold scrape_reply_id. intros H.
  apply bind_ret in H as (c & _ & H).
  apply bind_ret in H as (reply_id & _ & H).
  destruct reply_id as [[|a r]|]; inversion H; discriminate.
Qed.

Lemma scrape_reply_shape v i el r :
  scrape_reply v i el = Py.Ret (Some r) ->
  handle_or_marker (Gab14.reply_author r)
  /\ Gab14.reply_id r <> "" /\ 0 <= Gab14.reply_likes r.
Proof.
  unfold scrape_reply.
  destruct (Py.bind (scrape_reply_author (profile_link el)) _) as [r0|e] eqn:E;
    [|destruct (Py.is_Exception e); discriminate].
  intros H; inversion H; subst r0. clear H.
  apply bind_ret in E as (author & Ha & E).
  apply bind_ret in E as (txt & _ & E).
  apply bind_ret in E as (stamp & _ & E).
  apply bind_ret in E as (ident & Hi & E).
  apply bind_ret in E as (n & Hn & E).
  inversion E; subst r; cbn.
  split; [eapply scrape_reply_author_shape; exact Ha|].
  split; [eapply scrape_reply_id_nonempty; exact Hi|].
  eapply scrape_reply_likes_nonneg; exact Hn.
Qed.

Lemma scrape_reply_quiet v i el e :
  scrape_reply v i el = Py.Raise e -> Py.is_Exception e = false.
Proof.
  unfold scrape_reply.
  destruct (Py.bind (scrape_reply_author (profile_link el)) _) as [r0|e0];
    [discriminate|].
  destruct (Py.is_Exception e0) eqn:E; [discriminate|].
  intros H; inversion H; subst. exact E.
Qed.

Lemma filter_replies_length els : forall kept,
  filter_replies els = Py.Ret kept ->
  (List.length kept <= List.length els)%nat.
Proof.
  induction els as [|r_elem rest IH]; intros kept H.
  - inversion H. cbn. lia.
  - cbn [filter_replies] in H. cbn [List.length].
    destruct (probe r_elem) as [[|]|e].
    + apply bind_ret in H as (more & Hm & H). inversion H; subst.
      specialize (IH _ Hm). cbn [List.length]. lia.
    + specialize (IH _ H). lia.
    + destruct (Py.is_Exception e); [|discriminate].
      specialize (IH _ H). lia.
Qed.

Lemma filter_replies_quiet els : forall e,
  filter_replies els = Py.Raise e -> Py.is_Exception e = false.
Proof.
  induction els as [|r_elem rest IH]; intros e H; [discriminate|].
  cbn [filter_replies] in H.
  destruct (probe r_elem) as [[|]|e0].
  - destruct (filter_replies rest) as [more|e1]; [discriminate|].
    inversion H; subst. apply IH. reflexivity.
  - apply IH. exact H.
  - destruct (Py.is_Exception e0) eqn:E; [apply IH; exact H|].
    inversion H; subst. exact E.
Qed.

Lemma scrape_from_shape v els : forall i rs,
  scrape_from v i els = Py.Ret rs ->
  (List.length rs <= List.length els)%nat
  /\ Forall (fun r => handle_or_marker (Gab14.reply_author r)
                      /\ Gab14.reply_id r <> "" /\ 0 <= Gab14.reply_likes r) rs.
Proof.
  induction els as [|el rest IH]; intros i rs H.
  - inversion H. split; [cbn; lia | constructor].
  - cbn [scrape_from] in H.
    apply bind_ret in H as (r & Hr & H).
    apply bind_ret in H as (more & Hm & H).
    destruct (IH _ _ Hm) as [Hlen Hall].
    inversion H; subst rs. cbn [List.length].
    destruct r as [reply_info|].
    + split; [cbn [List.length]; lia|].
      constructor; [eapply scrape_reply_shape; exact Hr | exact Hall].
    + split; [lia | exact Hall].
Qed.

Lemma scrape_from_quiet v els : forall i e,
  scrape_from v i els = Py.Raise e -> Py.is_Exception e = false.
Proof.
  induction els as [|el rest IH]; intros i e H; [discriminate|].
  cbn [scrape_from] in H.
  destruct (scrape_reply v i el) as [r|e0] eqn:E; cbn [Py.bind] in H.
  - destruct (scrape_from v (S i) rest) as [more|e1] eqn:E1; [discriminate|].
    inversion H; subst. eapply IH. exact E1.
  - inversion H; subst. eapply scrape_reply_quiet. exact E.
Qed.

End Gab14ReplySection.

(** X19. The replies section of [gab_scraper_14.py] lets no [Exception]
    out; it records at most one reply per reply element found, and every
    recorded reply has an identifier that is not empty, a count of likes
    that is not negative (0 when the count cannot be read, also when it
    overflows), and an author that is a handle or a marker. *)
Theorem gab14_replies_section_is_quiet :
  forall v,
    (forall e,
        Gab14Replies.replies_section v = Py.Raise e ->
        Py.is_Exception e = false)
    /\ (forall rs,
           Gab14Replies.replies_section v = Py.Ret rs ->
           (List.length rs
            <= match Gab14Replies.reply_elements v with
               | Py.Ret els => List.length els
               | Py.Raise _ => 0
               end)%nat
           /\ Forall (fun r => handle_or_marker (Gab14.reply_author r)
                               /\ Gab14.reply_id r <> ""
                               /\ 0 <= Gab14.reply_likes r) rs).
Proof.
  intros v. unfold Gab14Replies.replies_section. split.
  - intros e.
    destruct (Py.bind (Gab14Replies.reply_wait v) _) as [rs|e0]; [discriminate|].
    destruct (Py.is_Exception e0) eqn:E; [discriminate|].
    intros H; inversion H; subst. exact E.
  - intros rs.
    destruct (Py.bind (Gab14Replies.reply_wait v) _) as [rs0|e0] eqn:E.
    + intros H; inversion H; subst rs0. clear H.
      apply bind_ret in E as (u & _ & E).
      apply bind_ret in E as (els & Hels & E).
      apply bind_ret in E as (kept & Hk & E).
      rewrite Hels.
      destruct (scrape_from_shape _ _ _ _ E) as [Hlen Hall].
      pose proof (filter_replies_length _ _ Hk). split; [lia | exact Hall].
    + destruct (Py.is_Exception e0); [|discriminate].
      intros H; inversion H; subst. split; [cbn; lia | constructor].
Qed.

Lemma gab14_replies_section_is_quiet_witness :
  Gab14Replies.replies_section sample_replies_view = Py.Ret [sample_reply14]
  /\ Forall (fun r => handle_or_marker (Gab14.reply_author r)
                      /\ Gab14.reply_id r <> ""
                      /\ 0 <= Gab14.reply_likes r) [sample_reply14].
Proof.
  split; [vm_compute; reflexivity|].
  refine (proj2 (proj2 (gab14_replies_section_is_quiet sample_replies_view)
                   [sample_reply14] _)).
  vm_compute. reflexivity.
Defined.

(** ** The OCR passes *)

Section CountedFacts.

Import Counted.




End CountedFacts.


Section JsonFacts.

Import Json.



End JsonFacts.

Section GabOcrFacts.

Import Json Counted GabOcr.





End GabOcrFacts.



Section GabOcrTotal.

Import Json Counted GabOcr.

Variable w : world.
Hypothesis quiet :
  forall n url e, image_to_string w n url = Py.Raise e -> Py.is_Exception e = true.







End GabOcrTotal.



(** ** The 4chan OCR pass *)

Section TightTexts.



Lemma tight_strip s : tight s -> Str.strip s = s.
Proof.
  intros [(c & s' & -> & Hc) Hr]. unfold Str.strip.
  cbn [Str.lstrip]. rewrite Hc. exact Hr.
Qed.

Lemma rstrip_app_tight x s : tight s -> Str.rstrip (x ++ s) = x ++ s.
Proof.
  intros [(c & s' & -> & Hc) Hr].
  induction x as [|a x IH]; [rewrite append_nil; exact Hr|].
  rewrite append_cons, rstrip_cons, IH.
  destruct x; reflexivity.
Qed.



End TightTexts.

Section FourChanOcrFacts.

Import Json Counted FourChanOcr.




End FourChanOcrFacts.



(** ** How the patterns match *)

Section RegexFacts.

Lemma in_run_cls p s c rest :
  In (c, rest) (Re.run (Re.Cls p) s) ->
  exists a, s = String a rest /\ p a = true /\ c = [].
Proof.
  cbn [Re.run]. destruct s as [|a s']; [intros []|].
  destruct (p a) eqn:E; [|intros []].
  intros [H|[]]. inversion H; subst. exists a. repeat split. exact E.
Qed.

Lemma in_run_cat r1 r2 s c rest :
  In (c, rest) (Re.run (Re.Cat r1 r2) s) ->
  exists c1 s1 c2,
    In (c1, s1) (Re.run r1 s) /\ In (c2, rest) (Re.run r2 s1)
    /\ c = (c1 ++ c2)%list.
Proof.
  cbn [Re.run]. intros H.
  apply in_flat_map in H as ([c1 s1] & H1 & H).
  apply in_map_iff in H as ([c2 s2] & E & H2).
  cbn [fst snd] in *. inversion E; subst.
  exists c1, s1, c2. repeat split; assumption.
Qed.

Lemma in_run_lit w : forall s c rest,
  In (c, rest) (Re.run (Re.lit w) s) -> s = w ++ rest /\ c = [].
Proof.
  induction w as [|a w IH]; intros s c rest H.
  - cbn [Re.lit Re.run] in H. destruct H as [H|[]]. inversion H; subst.
    split; reflexivity.
  - cbn [Re.lit] in H.
    apply in_run_cat in H as (c1 & s1 & c2 & H1 & H2 & ->).
    apply in_run_cls in H1 as (a' & -> & Ha & ->).
    unfold Str.is_char in Ha. apply Ascii.eqb_eq in Ha. subst a'.
    destruct (IH _ _ _ H2) as [-> ->]. split; reflexivity.
Qed.

Lemma in_tails p s rest :
  In rest (Re.tails p s) ->
  exists w, s = w ++ rest /\ Text.all_chars p w = true.
Proof.
  revert rest. induction s as [|a s IH]; intros rest H.
  - cbn [Re.tails] in H. destruct H as [<-|[]]. exists "". split; reflexivity.
  - cbn [Re.tails] in H. destruct (p a) eqn:E.
    + apply in_app_or in H as [H|[<-|[]]].
      * destruct (IH _ H) as (w & -> & Hw).
        exists (String a w). split; [reflexivity|].
        cbn [Text.all_chars]. rewrite E, Hw. reflexivity.
      * exists "". split; reflexivity.
    + destruct H as [<-|[]]. exists "". split; reflexivity.
Qed.

Lemma in_run_many p s c rest :
  In (c, rest) (Re.run (Re.Many p) s) ->
  c = [] /\ exists w, s = w ++ rest /\ Text.all_chars p w = true.
Proof.
  cbn [Re.run]. intros H. apply in_map_iff in H as (s' & E & H).
  inversion E; subst. split; [reflexivity|]. apply in_tails. exact H.
Qed.

Lemma in_run_many1 p s c rest :
  In (c, rest) (Re.run (Re.Many1 p) s) ->
  c = [] /\ exists a w, s = String a w ++ rest /\ p a = true
                        /\ Text.all_chars p w = true.
Proof.
  unfold Re.Many1. intros H.
  apply in_run_cat in H as (c1 & s1 & c2 & H1 & H2 & ->).
  apply in_run_cls in H1 as (a & -> & Ha & ->).
  apply in_run_many in H2 as (-> & w & -> & Hw).
  split; [reflexivity|]. exists a, w. repeat split; assumption.
Qed.

Lemma in_run_opt r s c rest :
  In (c, rest) (Re.run (Re.Opt r) s) ->
  In (c, rest) (Re.run r s) \/ (c = [] /\ rest = s).
Proof.
  cbn [Re.run]. intros H. apply in_app_or in H as [H|[H|[]]].
  - left. exact H.
  - right. inversion H; split; reflexivity.
Qed.

Lemma in_run_grp n r s c rest :
  In (c, rest) (Re.run (Re.Grp n r) s) ->
  exists c1, In (c1, rest) (Re.run r s)
             /\ c = (n, Str.consumed s rest) :: c1.
Proof.
  cbn [Re.run]. intros H. apply in_map_iff in H as ([c1 s1] & E & H).
  cbn [fst snd] in E. inversion E; subst. exists c1. split; [exact H | reflexivity].
Qed.

Lemma take_append (w rest : string) : Str.take (String.length w) (w ++ rest) = w.
Proof.
  induction w as [|a w IH]; [destruct rest; reflexivity|].
  rewrite append_cons. cbn [String.length Str.take]. rewrite IH. reflexivity.
Qed.

Lemma consumed_append (w rest : string) : Str.consumed (w ++ rest) rest = w.
Proof.
  unfold Str.consumed. rewrite length_append.
  replace (String.length w + String.length rest - String.length rest)%nat
    with (String.length w) by lia.
  apply take_append.
Qed.

(** a match found by [search] or [finditer] is a match at some place *)
Lemma search_match_at r s m :
  Re.search r s = Some m -> exists s', Re.match_at r s' = Some m.
Proof.
  induction s as [|a s IH]; cbn [Re.search].
  - destruct (Re.match_at r "") as [m'|] eqn:E; [|discriminate].
    intros H; inversion H; subst. exists "". exact E.
  - destruct (Re.match_at r (String a s)) as [m'|] eqn:E.
    + intros H; inversion H; subst. exists (String a s). exact E.
    + exact IH.
Qed.

Lemma finditer_aux_match_at r fuel : forall s m,
  In m (Re.finditer_aux r fuel s) -> exists s', Re.match_at r s' = Some m.
Proof.
  induction fuel as [|fuel IH]; intros s m H; [destruct H|].
  cbn [Re.finditer_aux] in H.
  destruct (Re.search r s) as [m0|] eqn:E; [|destruct H].
  destruct H as [<-|H]; [eapply search_match_at; exact E|].
  destruct (Nat.ltb _ _); [eapply IH; exact H|].
  destruct (Re.m_from m0); [destruct H | eapply IH; exact H].
Qed.

Lemma match_at_run r s m :
  Re.match_at r s = Some m ->
  In (Re.m_groups m, Re.m_rest m) (Re.run r s).
Proof.
  unfold Re.match_at. destruct (Re.run r s) as [|[c rest] l]; [discriminate|].
  intros H; inversion H; subst. left. reflexivity.
Qed.

End RegexFacts.

(** ** The image URLs of the Gab extractors *)

Section MediaUrls.

Import DateTime Markup.

Lemma all_not_contains q w :
  Text.all_chars (is_not q) w = true -> Str.contains q w = false.
Proof.
  induction w as [|a w IH]; [reflexivity|].
  cbn [Text.all_chars Str.contains]. intros H.
  apply andb_true_iff in H as [Ha Hw].
  unfold is_not in Ha. apply negb_true_iff in Ha.
  rewrite Ha, (IH Hw). reflexivity.
Qed.

Lemma in_run_extension s c rest :
  In (c, rest)
     (Re.run (alt (Re.lit "jpg")
                  [Re.lit "jpeg"; Re.lit "png"; Re.lit "gif"; Re.lit "webp"]) s) ->
  c = [] /\ exists ext,
    s = ext ++ rest /\ In ext ["jpg"; "jpeg"; "png"; "gif"; "webp"].
Proof.
  cbn [alt]. cbn [Re.run]. intros H.
  repeat (apply in_app_or in H as [H|H]);
    apply in_run_lit in H as [-> ->]; (split; [reflexivity|]);
    eexists; (split; [reflexivity|]); cbn [In]; auto 10.
Qed.

(** after the scheme: the host and path prefix, a name, a dot, an
    extension, and what follows up to the closing quote *)
Lemma in_run_media_tail s c rest :
  In (c, rest)
     (Re.run (cat [Re.lit "://m3.gab.com/media_attachments/";
                   Re.Many1 (is_not dquote); ch ".";
                   alt (Re.lit "jpg")
                       [Re.lit "jpeg"; Re.lit "png"; Re.lit "gif";
                        Re.lit "webp"];
                   Re.Many (is_not dquote)]) s) ->
  c = [] /\ exists name ext back,
    s = "://m3.gab.com/media_attachments/" ++ name ++ "." ++ ext ++ back ++ rest
    /\ In ext ["jpg"; "jpeg"; "png"; "gif"; "webp"]
    /\ Str.contains dquote (name ++ "." ++ ext ++ back) = false.
Proof.
  cbn [cat]. intros H.
  apply in_run_cat in H as (c3 & s3 & k3 & H3 & H & ->).
  apply in_run_lit in H3 as [-> ->].
  apply in_run_cat in H as (c4 & s4 & k4 & H4 & H & ->).
  apply in_run_many1 in H4 as (-> & a & w & -> & Ha & Hw).
  apply in_run_cat in H as (c5 & s5 & k5 & H5 & H & ->).
  apply in_run_cls in H5 as (dot' & -> & Hdot & ->).
  unfold Str.is_char in Hdot. apply Ascii.eqb_eq in Hdot. subst dot'.
  apply in_run_cat in H as (c6 & s6 & c7 & H6 & H7 & ->).
  apply in_run_extension in H6 as (-> & ext & -> & Hext).
  apply in_run_many in H7 as (-> & w' & -> & Hw').
  assert (Hq : Str.contains dquote (String a w) = false).
  { apply all_not_contains. cbn [Text.all_chars]. rewrite Ha, Hw. reflexivity. }
  assert (Hq' : Str.contains dquote w' = false)
    by (apply all_not_contains; exact Hw').
  assert (Hqe : Str.contains dquote ext = false).
  { cbn [In] in Hext.
    destruct Hext as [<-|[<-|[<-|[<-|[<-|[]]]]]]; vm_compute; reflexivity. }
  split; [reflexivity|].
  exists (String a w), ext, w'. split; [|split; [exact Hext|]].
  - rewrite <- ?string_append_assoc; reflexivity.
  - rewrite !contains_append, Hq, Hqe, Hq'. vm_compute. reflexivity.
Qed.

Lemma in_run_media s c rest :
  In (c, rest)
     (Re.run (cat [Re.lit "http"; Re.Opt (ch "s");
                   Re.lit "://m3.gab.com/media_attachments/";
                   Re.Many1 (is_not dquote); ch ".";
                   alt (Re.lit "jpg")
                       [Re.lit "jpeg"; Re.lit "png"; Re.lit "gif";
                        Re.lit "webp"];
                   Re.Many (is_not dquote)]) s) ->
  c = [] /\ exists u, s = u ++ rest /\ media_url u.
Proof.
  change (cat [Re.lit "http"; Re.Opt (ch "s");
               Re.lit "://m3.gab.com/media_attachments/";
               Re.Many1 (is_not dquote); ch ".";
               alt (Re.lit "jpg")
                   [Re.lit "jpeg"; Re.lit "png"; Re.lit "gif"; Re.lit "webp"];
               Re.Many (is_not dquote)])
    with (Re.Cat (Re.lit "http")
            (Re.Cat (Re.Opt (ch "s"))
               (cat [Re.lit "://m3.gab.com/media_attachments/";
                     Re.Many1 (is_not dquote); ch ".";
                     alt (Re.lit "jpg")
                         [Re.lit "jpeg"; Re.lit "png"; Re.lit "gif";
                          Re.lit "webp"];
                     Re.Many (is_not dquote)]))).
  intros H.
  apply in_run_cat in H as (c1 & s1 & k1 & H1 & H & ->).
  apply in_run_lit in H1 as [-> ->].
  apply in_run_cat in H as (c2 & s2 & k2 & H2 & H & ->).
  apply in_run_media_tail in H as (-> & name & ext & back & -> & Hext & Hq).
  apply in_run_opt in H2 as [H2 | [-> <-]].
  - apply in_run_cls in H2 as (s' & -> & Hs & ->).
    unfold Str.is_char in Hs. apply Ascii.eqb_eq in Hs. subst s'.
    split; [reflexivity|].
    exists ("https://m3.gab.com/media_attachments/"
            ++ name ++ "." ++ ext ++ back).
    split; [|split; [|split]].
    + rewrite <- ?string_append_assoc; reflexivity.
    + right. apply starts_with_append.
    + rewrite contains_append, Hq. vm_compute. reflexivity.
    + exists ("https://m3.gab.com/media_attachments/" ++ name), ext, back.
      split; [|exact Hext].
      rewrite <- ?string_append_assoc; reflexivity.
  - split; [reflexivity|].
    exists ("http://m3.gab.com/media_attachments/"
            ++ name ++ "." ++ ext ++ back).
    split; [|split; [|split]].
    + rewrite <- ?string_append_assoc; reflexivity.
    + left. apply starts_with_append.
    + rewrite contains_append, Hq. vm_compute. reflexivity.
    + exists ("http://m3.gab.com/media_attachments/" ++ name), ext, back.
      split; [|exact Hext].
      rewrite <- ?string_append_assoc; reflexivity.
Qed.

Lemma in_run_img_src s c rest :
  In (c, rest) (Re.run img_src_pattern s) ->
  exists u, Re.assoc 1 c = Some u /\ media_url u.
Proof.
  unfold img_src_pattern. cbn [cat]. intros H.
  apply in_run_cat in H as (c1 & s1 & k6 & H1 & H & ->).
  apply in_run_lit in H1 as [-> ->].
  apply in_run_cat in H as (c2 & s2 & k7 & H2 & H & ->).
  apply in_run_cls in H2 as (q1 & -> & _ & ->).
  apply in_run_cat in H as (c3 & s3 & c4 & H3 & H4 & ->).
  apply in_run_cls in H4 as (q2 & -> & _ & ->).
  apply in_run_grp in H3 as (cg & Hg & ->).
  apply in_run_media in Hg as (-> & u & -> & Hu).
  exists u. split; [|exact Hu].
  cbn [app Re.assoc Nat.eqb]. rewrite consumed_append. reflexivity.
Qed.

Lemma matched_urls_media html u :
  In u (matched_urls html) -> media_url u.
Proof.
  unfold matched_urls. intros H.
  apply list_elem_of_In, list_elem_of_omap in H as (m & Hm & Hg).
  apply list_elem_of_In in Hm.
  unfold Re.finditer in Hm.
  apply finditer_aux_match_at in Hm as (s' & Hs').
  apply match_at_run in Hs'.
  apply in_run_img_src in Hs' as (u' & Hu' & Hmedia).
  unfold Re.group in Hg. rewrite Hu' in Hg. inversion Hg; subst. exact Hmedia.
Qed.

Lemma scrape_image_urls_media h l :
  scrape_image_urls h = Py.Ret l -> Forall media_url l.
Proof.
  unfold scrape_image_urls. destruct h as [[html|]|e].
  - intros H; inversion H; subst. apply Forall_forall. intros u Hu.
    apply list_elem_of_In in Hu.
    apply (proj1 (list_set_In (matched_urls html) u)) in Hu.
    eapply matched_urls_media; exact Hu.
  - intros H; inversion H. constructor.
  - destruct (Py.is_Exception e); intros H; inversion H. constructor.
Qed.

Lemma scrape_reply_media ident el r :
  Rescraper.scrape_reply ident el = Py.Ret r ->
  Forall media_url (Rescraper.reply_image_urls r).
Proof.
  unfold Rescraper.scrape_reply. intros H.
  apply bind_ret in H as (txt & _ & H).
  apply bind_ret in H as (stamp & _ & H).
  apply bind_ret in H as (imgs & Himgs & H).
  inversion H; subst; simpl.
  eapply scrape_image_urls_media; eassumption.
Qed.

Lemma scrape_replies_media els : forall rs,
  Rescraper.scrape_replies els = Py.Ret rs ->
  Forall (fun r => Forall media_url (Rescraper.reply_image_urls r)) rs.
Proof.
  induction els as [|[ident el] els IH]; intros rs H.
  - inversion H. constructor.
  - cbn [Rescraper.scrape_replies] in H.
    apply bind_ret in H as (r & Hr & H).
    apply bind_ret in H as (rs' & Hrs & H).
    inversion H; subst. constructor.
    + eapply scrape_reply_media; eassumption.
    + apply IH; assumption.
Qed.

Lemma replies_section_media pg rs :
  Rescraper.replies_section pg = Py.Ret rs ->
  Forall (fun r => Forall media_url (Rescraper.reply_image_urls r)) rs.
Proof.
  unfold Rescraper.replies_section.
  destruct (Py.bind (Rescraper.reply_wait pg) _) as [uniq|e].
  - apply scrape_replies_media.
  - destruct (Py.is_Exception e); intros H; inversion H. constructor.
Qed.

End MediaUrls.

(** X23. Every image URL in a record of either Gab extractor, and in a
    reply of the rescraper, is an attachment on Gab's media host: it starts
    with [http://m3.gab.com/media_attachments/] or with the [https] form of
    that, holds no double quote, and carries one of the five image
    extensions after a dot. *)
Theorem gab_image_urls_are_media_attachments :
  (forall url pg p,
      Gab14.get_post_details url pg = Py.Ret (Some p) ->
      Forall media_url (Gab14.image_urls p))
  /\ (forall url pg p,
         Rescraper.get_post_details url pg = Py.Ret (Some p) ->
         Forall media_url (Rescraper.image_urls p)
         /\ Forall (fun r => Forall media_url (Rescraper.reply_image_urls r))
                   (Rescraper.replies p)).
Proof.
  split.
  - intros url pg p H.
    destruct (get_post_details14_some _ _ _ H) as (el & _ & _ & _ & Himgs).
    eapply scrape_image_urls_media; exact Himgs.
  - intros url pg p H.
    destruct (get_post_details_some _ _ _ H)
      as (el & _ & _ & _ & Himgs & _ & Hrs).
    split; [eapply scrape_image_urls_media; exact Himgs|].
    apply (replies_section_media pg). exact Hrs.
Qed.

Lemma gab_image_urls_are_media_attachments_witness :
  Forall media_url (Rescraper.image_urls sample_post)
  /\ Forall (fun r => Forall media_url (Rescraper.reply_image_urls r))
            (Rescraper.replies sample_post).
Proof.
  exact (proj2 gab_image_urls_are_media_attachments
           sample_url sample_page sample_post sample_page_extracts).
Defined.

(** ** The author cut from a URL *)

Section FirstMatch.

Lemma first_cat r1 r2 s c1 s1 c2 s2 :
  first_match r1 s = Some (c1, s1) ->
  first_match r2 s1 = Some (c2, s2) ->
  first_match (Re.Cat r1 r2) s = Some ((c1 ++ c2)%list, s2).
Proof.
  unfold first_match. cbn [Re.run].
  destruct (Re.run r1 s) as [|[c1' s1'] l1]; [discriminate|].
  intros H1; inversion H1; subst.
  destruct (Re.run r2 s1) as [|[c2' s2'] l2] eqn:E; [discriminate|].
  intros H2; inversion H2; subst.
  cbn [flat_map fst snd]. rewrite E. reflexivity.
Qed.

Lemma first_cls p a s :
  p a = true -> first_match (Re.Cls p) (String a s) = Some ([], s).
Proof. intros H. unfold first_match. cbn [Re.run]. rewrite H. reflexivity. Qed.

Lemma first_lit w s : first_match (Re.lit w) (w ++ s) = Some ([], s).
Proof.
  induction w as [|a w IH]; [reflexivity|].
  rewrite append_cons. cbn [Re.lit].
  apply (first_cat _ _ _ [] (w ++ s) [] s); [|exact IH].
  apply first_cls. unfold Str.is_char. apply Ascii.eqb_refl.
Qed.

Lemma first_many p s : first_match (Re.Many p) s = Some ([], Re.skip p s).
Proof.
  unfold first_match. cbn [Re.run].
  destruct (tails_head p s) as [l ->]. reflexivity.
Qed.

Lemma first_grp n r s c rest :
  first_match r s = Some (c, rest) ->
  first_match (Re.Grp n r) s = Some ((n, Str.consumed s rest) :: c, rest).
Proof.
  unfold first_match. cbn [Re.run].
  destruct (Re.run r s) as [|[c' rest'] l]; [discriminate|].
  intros H; inversion H; subst. reflexivity.
Qed.

Lemma skip_run p u : forall a y,
  Text.all_chars p u = true -> p a = false ->
  Re.skip p (u ++ String a y) = String a y.
Proof.
  induction u as [|c u IH]; intros a y Hu Ha.
  - rewrite append_nil. cbn [Re.skip]. rewrite Ha. reflexivity.
  - cbn [Text.all_chars] in Hu. apply andb_true_iff in Hu as [Hc Hu].
    rewrite append_cons. cbn [Re.skip]. rewrite Hc. apply IH; assumption.
Qed.

Lemma match_at_first r s :
  Re.match_at r s
  = match first_match r s with
    | Some (c, rest) =>
        Some {| Re.m_from := s; Re.m_groups := c; Re.m_rest := rest |}
    | None => None
    end.
Proof.
  unfold Re.match_at, first_match.
  destruct (Re.run r s) as [|[c rest] l]; reflexivity.
Qed.

End FirstMatch.

Section AuthorOfUrl.

Import DateTime Markup.

Lemma contains_all_not q u :
  Str.contains q u = false -> Text.all_chars (is_not q) u = true.
Proof.
  induction u as [|a u IH]; [reflexivity|].
  cbn [Str.contains Text.all_chars]. intros H.
  apply orb_false_elim in H as [Ha Hu].
  rewrite (IH Hu). unfold is_not. rewrite Ha. reflexivity.
Qed.

(** where the pattern matches, the text reads [gab], any character but a
    line feed, [com/], and group 1 took part *)
Lemma in_run_author s c rest :
  In (c, rest) (Re.run author_pattern s) ->
  Str.starts_with "gab" s = true /\ exists g, Re.assoc 1 c = Some g.
Proof.
  unfold author_pattern. cbn [cat]. intros H.
  apply in_run_cat in H as (c1 & s1 & k1 & H1 & H & ->).
  apply in_run_lit in H1 as [-> ->].
  apply in_run_cat in H as (c2 & s2 & k2 & H2 & H & ->).
  apply in_run_cls in H2 as (d & -> & _ & ->).
  apply in_run_cat in H as (c3 & s3 & k3 & H3 & H & ->).
  apply in_run_lit in H3 as [-> ->].
  apply in_run_cat in H as (c4 & s4 & c5 & H4 & H5 & ->).
  apply in_run_grp in H4 as (cg & _ & ->).
  split; [apply starts_with_append|].
  eexists. reflexivity.
Qed.

Lemma match_at_author_needs_gab s :
  Str.starts_with "gab" s = false -> Re.match_at author_pattern s = None.
Proof.
  intros H. unfold Re.match_at.
  destruct (Re.run author_pattern s) as [|[c rest] l] eqn:E; [reflexivity|].
  assert (Hin : In (c, rest) (Re.run author_pattern s))
    by (rewrite E; left; reflexivity).
  apply in_run_author in Hin as [Hs _]. congruence.
Qed.

Lemma search_author_without_gab s :
  Text.occurs "gab" s = false -> Re.search author_pattern s = None.
Proof.
  induction s as [|a s IH]; intros H.
  - cbn [Text.occurs] in H. apply orb_false_elim in H as [H _].
    cbn [Re.search]. rewrite (match_at_author_needs_gab _ H). reflexivity.
  - cbn [Text.occurs] in H. apply orb_false_elim in H as [H Hs].
    cbn [Re.search]. rewrite (match_at_author_needs_gab _ H).
    apply IH. exact Hs.
Qed.

Lemma search_author_skips pre x :
  Text.any_char (Str.is_char "g") pre = false ->
  Re.search author_pattern (pre ++ x) = Re.search author_pattern x.
Proof.
  induction pre as [|a pre IH]; intros H; [reflexivity|].
  cbn [Text.any_char] in H. apply orb_false_elim in H as [Ha Hpre].
  rewrite append_cons. cbn [Re.search].
  rewrite match_at_author_needs_gab; [apply IH; exact Hpre|].
  cbn [Str.starts_with]. rewrite Ha. reflexivity.
Qed.

Lemma first_match_author a u rest :
  Str.contains "/" (String a u) = false ->
  first_match author_pattern
    ("gab.com/" ++ String a u ++ "/posts/" ++ rest)
  = Some ([(1%nat, String a u)], rest).
Proof.
  intros Hu. unfold author_pattern. cbn [cat].
  change ("gab.com/" ++ String a u ++ "/posts/" ++ rest)
    with ("gab" ++ String "." ("com/" ++ (String a u ++ "/posts/" ++ rest))).
  refine (first_cat _ _ _ [] _ [(1%nat, String a u)] rest _ _);
    [apply first_lit|].
  refine (first_cat _ _ _ [] _ [(1%nat, String a u)] rest _ _);
    [apply first_cls; reflexivity|].
  refine (first_cat _ _ _ [] _ [(1%nat, String a u)] rest _ _);
    [apply first_lit|].
  refine (first_cat _ _ _ [(1%nat, String a u)] ("/posts/" ++ rest) [] rest _ _);
    [|apply first_lit].
  pose proof (contains_all_not _ _ Hu) as Hall.
  cbn [Text.all_chars] in Hall. apply andb_true_iff in Hall as [Ha Hall].
  rewrite <- (consumed_append (String a u) ("/posts/" ++ rest)) at 2.
  apply first_grp. unfold Re.Many1.
  rewrite append_cons.
  refine (first_cat _ _ _ [] (u ++ "/posts/" ++ rest) [] ("/posts/" ++ rest) _ _);
    [apply first_cls; exact Ha|].
  rewrite first_many. f_equal. f_equal.
  apply (skip_run (is_not "/") u "/" ("posts/" ++ rest) Hall). reflexivity.
Qed.

End AuthorOfUrl.

(** X24. The author of a record is read from its URL alone: from a URL
    that reads [gab.com/], a name without a slash, [/posts/], after a prefix
    without the letter g (a scheme, say), the author is that name behind an
    at sign; from a URL in which [gab] does not occur it is the marker for a
    missing author; and it is never the third text, [Error (URL parse
    failed)], which the code keeps for a failure that cannot happen. *)
Theorem author_is_read_from_the_url :
  (forall pre a u rest,
      Text.any_char (Str.is_char "g") pre = false ->
      Str.contains "/" (String a u) = false ->
      Markup.author_of_url
        (pre ++ "gab.com/" ++ String a u ++ "/posts/" ++ rest)
      = "@" ++ String a u)
  /\ (forall url,
         Text.occurs "gab" url = false ->
         Markup.author_of_url url = "N/A (Author not found in URL pattern)")
  /\ (forall url,
         Str.starts_with "@" (Markup.author_of_url url) = true
         \/ Markup.author_of_url url = "N/A (Author not found in URL pattern)").
Proof.
  split; [|split].
  - intros pre a u rest Hpre Hu. unfold Markup.author_of_url.
    rewrite (search_author_skips pre _ Hpre).
    change ("gab.com/" ++ String a u ++ "/posts/" ++ rest)
      with (String "g" ("ab.com/" ++ String a u ++ "/posts/" ++ rest)).
    cbn [Re.search].
    change (String "g" ("ab.com/" ++ String a u ++ "/posts/" ++ rest))
      with ("gab.com/" ++ String a u ++ "/posts/" ++ rest).
    rewrite match_at_first, (first_match_author a u rest Hu).
    reflexivity.
  - intros url H. unfold Markup.author_of_url.
    rewrite (search_author_without_gab _ H). reflexivity.
  - intros url. unfold Markup.author_of_url.
    destruct (Re.search Markup.author_pattern url) as [m|] eqn:E;
      [|right; reflexivity].
    left. apply search_match_at in E as (s' & E).
    apply match_at_run, in_run_author in E as (_ & g & Hg).
    unfold Re.group. rewrite Hg. apply (starts_with_append "@" g).
Qed.

Lemma author_is_read_from_the_url_witness :
  Markup.author_of_url sample_url = "@someone"
  /\ Markup.author_of_url "https://example.org/someone/posts/1"
     = "N/A (Author not found in URL pattern)".
Proof.
  split.
  - apply (proj1 author_is_read_from_the_url
             "https://" "s"%char "omeone" "114812345678901234");
      reflexivity.
  - apply (proj1 (proj2 author_is_read_from_the_url)). reflexivity.
Defined.

(** * The timestamp parser on the text of a date *)

Section DateText.

Import DateTime Markup Rescraper.

Lemma of_to_nat z : 0 <= z -> z = Z.of_nat (Z.to_nat z).
Proof. lia. Qed.

Lemma zones_checked negative :
  all_below 24 (fun h => all_below 60 (fun m => zone_checked negative h m))
  = true.
Proof. destruct negative; vm_compute; reflexivity. Qed.

(** *** Decimal digits *)

Lemma digit_char_spec n :
  Str.is_digit (digit_char n) = true
  /\ PyFloat.is_blank (digit_char n) = false
  /\ Str.is_space (digit_char n) = false
  /\ Str.is_char "(" (digit_char n) = false
  /\ PyFloat.digit_val (digit_char n) = n mod 10.
Proof.
  unfold digit_char.
  pose proof (Z.mod_pos_bound n 10 ltac:(lia)) as Hb.
  rewrite (of_to_nat (n mod 10)) at 6 by lia.
  assert (Hk : (Z.to_nat (n mod 10) < 10)%nat) by lia.
  revert Hk. generalize (Z.to_nat (n mod 10)). intros k Hk.
  do 10 (destruct k as [|k];
         [split; [|split; [|split; [|split]]]; vm_compute; reflexivity|]).
  exfalso; lia.
Qed.

Lemma pad4_eq y :
  0 <= y <= 9999 ->
  pad 4 y
  = String (digit_char (y / 10 / 10 / 10))
      (String (digit_char (y / 10 / 10))
         (String (digit_char (y / 10)) (String (digit_char y) ""))).
Proof.
  intros H. unfold pad.
  change (10 ^ Z.of_nat 4) with 10000.
  rewrite (Z.div_small y 10000) by lia.
  reflexivity.
Qed.

Lemma first_year y rest :
  1 <= y <= 9999 -> first_match re_Y (pad 4 y ++ rest) = Some ([], rest).
Proof.
  intros H. rewrite pad4_eq by lia.
  rewrite !append_cons, append_nil. unfold re_Y, dg. cbn [cat].
  repeat (refine (first_cat _ _ _ [] _ [] rest _ _);
          [apply first_cls, digit_char_spec|]).
  apply first_cls, digit_char_spec.
Qed.

Lemma int_of_year y : 1 <= y <= 9999 -> int_of_str (pad 4 y) = Py.Ret y.
Proof.
  intros H. rewrite pad4_eq by lia.
  destruct (digit_char_spec (y / 10 / 10 / 10)) as (Ha & Ba & _ & _ & Va).
  destruct (digit_char_spec (y / 10 / 10)) as (Hb & Bb & _ & _ & Vb).
  destruct (digit_char_spec (y / 10)) as (Hc & Bc & _ & _ & Vc).
  destruct (digit_char_spec y) as (Hd & Bd & _ & _ & Vd).
  unfold int_of_str, PyFloat.trim.
  cbn [PyFloat.skip_blanks]. rewrite Ba.
  cbn [PyFloat.drop_blanks]. rewrite Bd.
  cbn [PyFloat.read_digits]. rewrite Ha, Hb, Hc, Hd, Va, Vb, Vc, Vd.
  cbn [Nat.eqb]. f_equal.
  Z.to_euclidean_division_equations. lia.
Qed.

Lemma year_plain y :
  1 <= y <= 9999 ->
  visible (pad 4 y) = true /\ Str.contains "(" (pad 4 y) = false.
Proof.
  intros H. rewrite pad4_eq by lia.
  destruct (digit_char_spec (y / 10 / 10 / 10)) as (_ & _ & Sa & Pa & _).
  destruct (digit_char_spec (y / 10 / 10)) as (_ & _ & _ & Pb & _).
  destruct (digit_char_spec (y / 10)) as (_ & _ & _ & Pc & _).
  destruct (digit_char_spec y) as (_ & _ & _ & Pd & _).
  cbn [visible Str.contains]. rewrite Sa, Pa, Pb, Pc, Pd. split; reflexivity.
Qed.

Lemma zone_is_checked negative hh mm :
  0 <= hh <= 23 -> 0 <= mm <= 59 -> zone_checked negative hh mm = true.
Proof.
  intros Hh Hm.
  pose proof (all_below_spec 24 _ (zones_checked negative) hh
                ltac:(lia)) as H1.
  exact (all_below_spec 60 _ H1 mm ltac:(lia)).
Qed.

(** a field in a group: the group holds the text of the field *)
Lemma first_field k re text rest :
  first_match re (text ++ rest) = Some ([], rest) ->
  first_match (Re.Grp k re) (text ++ rest) = Some ([(k, text)], rest).
Proof.
  intros H. rewrite (first_grp k re _ [] rest H), consumed_append.
  reflexivity.
Qed.

(** [\s+] takes one space in front of visible text *)
Lemma first_ws1 t rest :
  visible t = true ->
  first_match ws1 (String " " (t ++ rest)) = Some ([], t ++ rest).
Proof.
  destruct t as [|a t]; [discriminate|].
  cbn [visible]. intros Ha. apply negb_true_iff in Ha.
  rewrite append_cons. unfold ws1, Re.Many1.
  apply (first_cat _ _ _ [] (String a (t ++ rest)) [] (String a (t ++ rest))).
  - apply first_cls. reflexivity.
  - rewrite first_many. cbn [Re.skip]. rewrite Ha. reflexivity.
Qed.

Tactic Notation "each_below" integer(n) :=
  let k := fresh "k" in
  let Hk := fresh "Hk" in
  intros k Hk;
  do n (destruct k as [|k];
        [first [ exfalso; lia | intros; vm_compute; reflexivity ]|]);
  exfalso; lia.

(** *** The fields, one by one *)

Lemma first_day_name wd rest :
  In wd day_names ->
  first_match (names a_weekday) (wd ++ rest) = Some ([], rest).
Proof.
  intros H. repeat (destruct H as [<-|H]; [vm_compute; reflexivity|]).
  destruct H.
Qed.

Lemma month_nat k :
  (1 <= k <= 12)%nat ->
  (forall rest,
      first_match (names (List.tl a_month)) (month_name (Z.of_nat k) ++ rest)
      = Some ([], rest))
  /\ index_of (Str.map Str.lower_char (month_name (Z.of_nat k))) a_month 0
     = Py.Ret (Z.of_nat k)
  /\ visible (month_name (Z.of_nat k)) = true
  /\ Str.contains "(" (month_name (Z.of_nat k)) = false.
Proof.
  intros Hk.
  do 13 (destruct k as [|k];
         [first [ exfalso; lia
                | split; [|split; [|split]]; intros; vm_compute; reflexivity ]|]).
  exfalso; lia.
Qed.

Lemma pad2_eq n :
  0 <= n <= 99 ->
  pad 2 n = String (digit_char (n / 10)) (String (digit_char n) "").
Proof.
  intros H. unfold pad.
  change (10 ^ Z.of_nat 2) with 100.
  rewrite (Z.div_small n 100) by lia.
  reflexivity.
Qed.

Lemma int_of_pad2 n : 0 <= n <= 99 -> int_of_str (pad 2 n) = Py.Ret n.
Proof.
  intros H. rewrite pad2_eq by lia.
  destruct (digit_char_spec (n / 10)) as (Ha & Ba & _ & _ & Va).
  destruct (digit_char_spec n) as (Hb & Bb & _ & _ & Vb).
  unfold int_of_str, PyFloat.trim.
  cbn [PyFloat.skip_blanks]. rewrite Ba.
  cbn [PyFloat.drop_blanks]. rewrite Bb.
  cbn [PyFloat.read_digits]. rewrite Ha, Hb, Va, Vb.
  cbn [Nat.eqb]. f_equal.
  Z.to_euclidean_division_equations. lia.
Qed.

Lemma pad2_plain n :
  0 <= n <= 99 ->
  visible (pad 2 n) = true /\ Str.contains "(" (pad 2 n) = false.
Proof.
  intros H. rewrite pad2_eq by lia.
  destruct (digit_char_spec (n / 10)) as (_ & _ & Sa & Pa & _).
  destruct (digit_char_spec n) as (_ & _ & _ & Pb & _).
  cbn [visible Str.contains]. rewrite Sa, Pa, Pb. split; reflexivity.
Qed.

Lemma first_day_nat : forall k,
  (1 <= k <= 31)%nat ->
  forall rest, first_match re_d (pad 2 (Z.of_nat k) ++ rest) = Some ([], rest).
Proof. each_below 32. Qed.

Lemma first_hour_nat : forall k,
  (k <= 23)%nat ->
  forall rest, first_match re_H (pad 2 (Z.of_nat k) ++ rest) = Some ([], rest).
Proof. each_below 24. Qed.

Lemma first_minute_nat : forall k,
  (k <= 59)%nat ->
  forall rest, first_match re_M (pad 2 (Z.of_nat k) ++ rest) = Some ([], rest).
Proof. each_below 60. Qed.

Lemma first_second_nat : forall k,
  (k <= 59)%nat ->
  forall rest, first_match re_S (pad 2 (Z.of_nat k) ++ rest) = Some ([], rest).
Proof. each_below 60. Qed.

Lemma day_name_plain wd :
  In wd day_names ->
  Str.contains "(" wd = false
  /\ exists c r, wd = String c r /\ Str.is_space c = false.
Proof.
  intros H.
  repeat (destruct H as [<-|H];
          [split; [reflexivity | eexists _, _; split; reflexivity]|]).
  destruct H.
Qed.

Lemma first_lit_i_GMT rest :
  first_match (Re.lit_i "GMT") ("GMT" ++ rest) = Some ([], rest).
Proof. vm_compute. reflexivity. Qed.

End DateText.

Section DateTextParse.

Import DateTime Markup Rescraper.

Variables (wd : string) (y mo d h mi s : Z) (negative : bool) (hh mm : Z).
Hypothesis Hwd : In wd day_names.
Hypothesis Hy : 1 <= y <= 9999.
Hypothesis Hmo : 1 <= mo <= 12.
Hypothesis Hd : 1 <= d <= 31.
Hypothesis Hh : 0 <= h <= 23.
Hypothesis Hmi : 0 <= mi <= 59.
Hypothesis Hs : 0 <= s <= 59.
Hypothesis Hhh : 0 <= hh <= 23.
Hypothesis Hmm : 0 <= mm <= 59.

Lemma zone_facts :
  first_match (Re.Grp 8 re_z) (zone_text negative hh mm)
  = Some ([(8%nat, zone_text negative hh mm)], "")
  /\ parse_z (zone_text negative hh mm) = Py.Ret (zone_us negative hh mm)
  /\ visible (zone_text negative hh mm) = true
  /\ Str.rstrip (zone_text negative hh mm) = zone_text negative hh mm
  /\ Str.contains "(" (zone_text negative hh mm) = false.
Proof.
  pose proof (zone_is_checked negative hh mm Hhh Hmm) as H.
  unfold zone_checked in H. cbv zeta in H.
  repeat (apply andb_prop in H as [H ?]).
  split; [|split; [|split; [|split]]].
  - destruct (first_match (Re.Grp 8 re_z) (zone_text negative hh mm))
      as [[[|[[|[|[|[|[|[|[|[|[|n]]]]]]]]] g] [|? ?]] [|? ?]]|];
      try discriminate H.
    apply String.eqb_eq in H. subst g. reflexivity.
  - destruct (parse_z (zone_text negative hh mm)) as [o|e]; [|discriminate].
    f_equal. lia.
  - assumption.
  - apply String.eqb_eq. assumption.
  - apply negb_true_iff. assumption.
Qed.

(** the pattern of the format takes all of the text, field by field *)
Lemma match_date_text :
  first_match gab_format_regex (date_text wd y mo d h mi s negative hh mm)
  = Some ([(1%nat, wd); (2%nat, month_name mo); (3%nat, pad 2 d);
           (4%nat, pad 4 y); (5%nat, pad 2 h); (6%nat, pad 2 mi);
           (7%nat, pad 2 s); (8%nat, zone_text negative hh mm)], "").
Proof.
  destruct zone_facts as (H8 & _ & _ & _ & _).
  destruct (month_nat (Z.to_nat mo) ltac:(lia)) as (Hmon & _ & Vmon & _).
  rewrite <- (of_to_nat mo) in Hmon, Vmon by lia.
  pose proof (first_cat _ _ _ _ _ _ _ (first_lit_i_GMT (zone_text negative hh mm)) H8) as T8.
  pose proof (first_cat _ _ _ _ _ _ _
                (first_ws1 "GMT" (zone_text negative hh mm) eq_refl) T8) as T7.
  pose proof (first_day_nat (Z.to_nat d) ltac:(lia)) as Fd.
  pose proof (first_hour_nat (Z.to_nat h) ltac:(lia)) as Fh.
  pose proof (first_minute_nat (Z.to_nat mi) ltac:(lia)) as Fmi.
  pose proof (first_second_nat (Z.to_nat s) ltac:(lia)) as Fs.
  rewrite <- (of_to_nat d) in Fd by lia.
  rewrite <- (of_to_nat h) in Fh by lia.
  rewrite <- (of_to_nat mi) in Fmi by lia.
  rewrite <- (of_to_nat s) in Fs by lia.
  pose proof (first_cat _ _ _ _ _ _ _
                (first_field 7 re_S (pad 2 s) _ (Fs _)) T7) as T6.
  pose proof (first_cat _ _ _ _ _ _ _
                (first_cls (Str.is_char ":") ":" _ eq_refl) T6) as T5.
  pose proof (first_cat _ _ _ _ _ _ _
                (first_field 6 re_M (pad 2 mi) _ (Fmi _)) T5) as T4.
  pose proof (first_cat _ _ _ _ _ _ _
                (first_cls (Str.is_char ":") ":" _ eq_refl) T4) as T3.
  pose proof (first_cat _ _ _ _ _ _ _
                (first_field 5 re_H (pad 2 h) _ (Fh _)) T3) as T2.
  pose proof (first_cat _ _ _ _ _ _ _
                (first_ws1 (pad 2 h) _ (proj1 (pad2_plain h ltac:(lia))))
                T2) as T1.
  pose proof (first_cat _ _ _ _ _ _ _
                (first_field 4 re_Y (pad 4 y) _ (first_year y _ Hy)) T1) as U4.
  pose proof (first_cat _ _ _ _ _ _ _
                (first_ws1 (pad 4 y) _ (proj1 (year_plain y Hy))) U4) as U3.
  pose proof (first_cat _ _ _ _ _ _ _
                (first_field 3 re_d (pad 2 d) _ (Fd _)) U3) as U2.
  pose proof (first_cat _ _ _ _ _ _ _
                (first_ws1 (pad 2 d) _ (proj1 (pad2_plain d ltac:(lia))))
                U2) as U1.
  pose proof (first_cat _ _ _ _ _ _ _
                (first_field 2 (names (List.tl a_month)) (month_name mo) _
                   (Hmon _)) U1) as V2.
  pose proof (first_cat _ _ _ _ _ _ _
                (first_ws1 (month_name mo) _ Vmon) V2) as V1.
  pose proof (first_cat _ _ _ _ _ _ _
                (first_field 1 (names a_weekday) wd _
                   (first_day_name wd _ Hwd)) V1) as W.
  exact W.
Qed.

(** [strptime] reads the fields the text shows, and checks the day
    against the calendar *)
Lemma strptime_date_text :
  strptime_gab (date_text wd y mo d h mi s negative hh mm)
  = if d <=? days_in_month y mo
    then Py.Ret (mk_datetime y mo d h mi s 0
                             (Some (zone_us negative hh mm)))
    else Py.Raise Py.ValueError.
Proof.
  destruct zone_facts as (_ & Hz & _ & _ & _).
  destruct (month_nat (Z.to_nat mo) ltac:(lia)) as (_ & Hidx & _ & _).
  rewrite <- (of_to_nat mo) in Hidx by lia.
  unfold strptime_gab. rewrite match_at_first, match_date_text.
  cbn [Re.m_rest Re.m_groups found Re.group Re.assoc Nat.eqb Py.bind].
  rewrite Hidx. cbn [Py.bind].
  rewrite (int_of_pad2 d) by lia. cbn [Py.bind].
  rewrite (int_of_year y) by lia. cbn [Py.bind].
  rewrite (int_of_pad2 h) by lia. cbn [Py.bind].
  rewrite (int_of_pad2 mi) by lia. cbn [Py.bind].
  rewrite (int_of_pad2 s) by lia. cbn [Py.bind].
  rewrite Hz. cbn [Py.bind].
  assert (Ho : offset_ok (zone_us negative hh mm) = true).
  { unfold offset_ok, zone_us, day_us.
    apply andb_true_intro. split; destruct negative; lia. }
  unfold make, fields_ok, between. rewrite Ho.
  repeat match goal with
         | |- context [?a <=? ?b] =>
             lazymatch b with
             | days_in_month _ _ => fail
             | _ => replace (a <=? b) with true
                      by (symmetry; apply Z.leb_le; lia)
             end
         end.
  cbn [andb]. rewrite andb_true_r.
  destruct (d <=? days_in_month y mo); reflexivity.
Qed.

(** ... and [isoformat] writes them in the ISO 8601 way *)
Lemma isoformat_date_text :
  isoformat (mk_datetime y mo d h mi s 0 (Some (zone_us negative hh mm)))
  = iso_text y mo d h mi s negative hh mm.
Proof.
  destruct zone_facts as (_ & Hz & _ & _ & _).
  pose proof (whole_minute_offset_preserved negative hh mm Hhh Hmm) as Hr.
  unfold offset_round in Hr. fold (zone_text negative hh mm) in Hr.
  rewrite Hz in Hr. cbn [Py.bind] in Hr.
  inversion Hr as [Ho].
  unfold isoformat, iso_text.
  cbn [year month day hour minute second microsecond utcoffset].
  rewrite Ho. reflexivity.
Qed.

(** the text has no parenthesis, and no white space at its ends *)
Lemma date_text_plain :
  Str.contains "(" (date_text wd y mo d h mi s negative hh mm) = false
  /\ Str.strip (date_text wd y mo d h mi s negative hh mm)
     = date_text wd y mo d h mi s negative hh mm
  /\ date_text wd y mo d h mi s negative hh mm <> "".
Proof.
  destruct zone_facts as (_ & _ & Vz & Rz & Pz).
  destruct (month_nat (Z.to_nat mo) ltac:(lia)) as (_ & _ & _ & Pmon).
  rewrite <- (of_to_nat mo) in Pmon by lia.
  destruct (day_name_plain wd Hwd) as (Pwd & c & r & Ewd & Hc).
  split; [|split].
  - unfold date_text.
    rewrite !contains_append, Pwd, Pmon, Pz,
      (proj2 (pad2_plain d ltac:(lia))), (proj2 (year_plain y Hy)),
      (proj2 (pad2_plain h ltac:(lia))), (proj2 (pad2_plain mi ltac:(lia))),
      (proj2 (pad2_plain s ltac:(lia))).
    reflexivity.
  - unfold Str.strip.
    assert (El : Str.lstrip (date_text wd y mo d h mi s negative hh mm)
                 = date_text wd y mo d h mi s negative hh mm).
    { unfold date_text. rewrite Ewd, append_cons. cbn [Str.lstrip].
      rewrite Hc. reflexivity. }
    rewrite El. unfold date_text.
    rewrite !string_append_assoc.
    apply rstrip_app_tight. split; [|exact Rz].
    destruct (zone_text negative hh mm) as [|a t]; [discriminate Vz|].
    exists a, t. split; [reflexivity|].
    apply negb_true_iff. exact Vz.
  - unfold date_text. rewrite Ewd, append_cons. discriminate.
Qed.

(** the gloss pattern finds nothing in a text without a parenthesis *)
Lemma sub_empty_plain t : forall fuel,
  Str.contains "(" t = false ->
  Re.sub_empty_aux gloss_pattern fuel t = t.
Proof.
  induction t as [|c t IH]; intros fuel Ht; [apply sub_empty_aux_nil|].
  destruct fuel as [|fuel]; [reflexivity|].
  cbn [Re.sub_empty_aux].
  rewrite gloss_no_match by (apply contains_lstrip; exact Ht).
  cbn [Str.contains] in Ht. apply orb_false_elim in Ht as [_ Ht].
  rewrite IH by exact Ht. reflexivity.
Qed.

(** what [parse_gab_datetime] makes of the text, with or without a gloss
    in parentheses after it *)
Lemma parse_date_text tail :
  tail = ""
  \/ (exists c g, tail = " (" ++ String c g ++ ")"
                  /\ Str.contains ")" (String c g) = false) ->
  parse_gab_datetime (Some (date_text wd y mo d h mi s negative hh mm ++ tail))
  = Py.Ret (if d <=? days_in_month y mo
            then Some (iso_text y mo d h mi s negative hh mm)
            else None).
Proof.
  intros Htail.
  destruct date_text_plain as (Hp & Hstrip & Hne).
  assert (Hclean : clean_dt_string
                     (date_text wd y mo d h mi s negative hh mm ++ tail)
                   = date_text wd y mo d h mi s negative hh mm).
  { destruct Htail as [->|(c & g & -> & Hg)].
    - rewrite append_nil_r. unfold clean_dt_string, Re.sub_empty.
      rewrite sub_empty_plain by exact Hp. exact Hstrip.
    - rewrite clean_dt_string_gloss by assumption. exact Hstrip. }
  destruct (date_text wd y mo d h mi s negative hh mm ++ tail)
    as [|c r] eqn:E.
  { exfalso. destruct (date_text wd y mo d h mi s negative hh mm);
      [apply Hne; reflexivity | rewrite append_cons in E; discriminate E]. }
  rewrite parse_gab_datetime_eq, Hclean, strptime_date_text.
  destruct (d <=? days_in_month y mo); [|reflexivity].
  rewrite isoformat_date_text. reflexivity.
Qed.

End DateTextParse.

(** the example of the docstring is such a text *)
Example date_text_of_the_docstring :
  date_text "Mon" 2025 7 7 7 59 42 true 7 0 = gab_example_body
  /\ iso_text 2025 7 7 7 59 42 true 7 0 = "2025-07-07T07:59:42-07:00".
Proof. split; vm_compute; reflexivity. Qed.

(** C6. [parse_gab_datetime] never raises: on [None] and on every string
    it returns, [None] on [None] and on the empty string.  On any other
    string it strips the parenthesized annotations ([clean_dt_string], which
    turns a text followed by a gloss in parentheses into the text, stripped)
    and tries the one known format, returning the ISO-8601 rendering of the
    parse, or [None] when the format does not match.  On the text of a date,
    [Www Mmm DD YYYY HH:MM:SS GMT+HHMM] with or without a gloss after it,
    [strptime] reads the fields the text shows, and the result is the
    ISO-8601 text of the same date, time and offset,
    [YYYY-MM-DDTHH:MM:SS+HH:MM], or [None] when the month has no such day.
    The rendering ends with the parsed UTC offset, and a whole-minute
    offset [sHHMM] is written back as [sHH:MM]. *)
Theorem parse_gab_datetime_total :
  (forall t, exists r, Rescraper.parse_gab_datetime t = Py.Ret r)
  /\ Rescraper.parse_gab_datetime None = Py.Ret None
  /\ Rescraper.parse_gab_datetime (Some "") = Py.Ret None
  /\ (forall c r,
         Rescraper.parse_gab_datetime (Some (String c r))
         = Py.Ret match DateTime.strptime_gab
                          (Rescraper.clean_dt_string (String c r)) with
                  | Py.Ret dt => Some (DateTime.isoformat dt)
                  | Py.Raise _ => None
                  end)
  /\ (forall wd y mo d h mi s negative hh mm tail,
         In wd day_names ->
         1 <= y <= 9999 -> 1 <= mo <= 12 -> 1 <= d <= 31 ->
         0 <= h <= 23 -> 0 <= mi <= 59 -> 0 <= s <= 59 ->
         0 <= hh <= 23 -> 0 <= mm <= 59 ->
         tail = ""
         \/ (exists c g, tail = " (" ++ String c g ++ ")"
                         /\ Str.contains ")" (String c g) = false) ->
         DateTime.strptime_gab (date_text wd y mo d h mi s negative hh mm)
         = (if d <=? DateTime.days_in_month y mo
            then Py.Ret (DateTime.mk_datetime y mo d h mi s 0
                           (Some (zone_us negative hh mm)))
            else Py.Raise Py.ValueError)
         /\ Rescraper.parse_gab_datetime
              (Some (date_text wd y mo d h mi s negative hh mm ++ tail))
            = Py.Ret (if d <=? DateTime.days_in_month y mo
                      then Some (iso_text y mo d h mi s negative hh mm)
                      else None))
  /\ (forall body c g,
         Str.contains "(" body = false ->
         Str.contains ")" (String c g) = false ->
         Rescraper.clean_dt_string (body ++ " (" ++ String c g ++ ")")
         = Str.strip body)
  /\ (forall dt off,
         DateTime.utcoffset dt = Some off ->
         exists front,
           DateTime.isoformat dt = front ++ DateTime.format_offset off)
  /\ (forall negative hh mm,
         0 <= hh <= 23 -> 0 <= mm <= 59 ->
         offset_round negative hh mm = Py.Ret (offset_text negative hh mm)).
Proof.
  split; [apply parse_gab_datetime_returns|].
  split; [reflexivity|].
  split; [reflexivity|].
  split; [apply parse_gab_datetime_eq|].
  split.
  { intros wd y mo d h mi s negative hh mm tail
           Hwd Hy Hmo Hd Hh Hmi Hs Hhh Hmm Htail.
    split.
    - apply strptime_date_text; assumption.
    - apply parse_date_text; assumption. }
  split; [apply clean_dt_string_gloss|].
  split; [apply isoformat_ends_with_offset|].
  apply whole_minute_offset_preserved.
Qed.

Lemma parse_gab_datetime_total_witness :
  Rescraper.parse_gab_datetime (Some gab_example)
  = Py.Ret (Some "2025-07-07T07:59:42-07:00").
Proof.
  refine (proj2 (proj1 (proj2 (proj2 (proj2 (proj2 parse_gab_datetime_total))))
                   "Mon" 2025 7 7 7 59 42 true 7 0
                   " (Pacific Daylight Time)" _ _ _ _ _ _ _ _ _ _)).
  - left. reflexivity.
  - lia.
  - lia.
  - lia.
  - lia.
  - lia.
  - lia.
  - lia.
  - lia.
  - right. exists "P"%char, "acific Daylight Time". split; reflexivity.
Defined.
